(** * RTOS abstraction layer: CMX-RTX, SafeRTOS, Zephyr and PX5 ports

    Shallow embedding of the ports' task, event, semaphore and mutex
    services, each over a small sequential reference model of the kernel
    services it calls. *)

From stdpp Require Import base decidable option list gmap.
From Equations Require Import Equations.

Local Open Scope Z_scope.

(** [bool_t] of os_port.h. *)
Abbreviation TRUE := true.
Abbreviation FALSE := false.

(** Null pointer. *)
Definition NULL : Z := 0.

(** Modelled from the spec: os_port.h is not among the sources.  The spec
    makes the timeout tri-state (0 polls, INFINITE blocks forever, any other
    value is a duration in milliseconds), so INFINITE is a value of
    [systime_t] that is neither 0 nor a usable duration; it is taken to be the
    all-ones 32-bit word. *)
Definition INFINITE_DELAY : Z := 4294967295.

(** The casts [(uint8_t) x] and [(uint32_t) x]. *)
Definition uint8 (x : Z) : Z := x mod 256.
Definition uint32 (x : Z) : Z := x mod 4294967296.

(** The heap the ports allocate from ([malloc] and [free] of the C library,
    [k_malloc] and [k_free] on Zephyr), left abstract.  The allocator runs
    on the machine the kernel schedules: it is entered with the kernel in
    some state [K], which decides whether another task can run while it
    works, so what it does may depend on that state.  [malloc] returns the
    address of the block, or [NULL]. *)
Class Heap (K H : Type) := {
  malloc : Z → K → H → Z * H;
  free : Z → K → H → H
}.

(** Where a task stands in [osWaitForEvent] of the CMX-RTX and PX5 ports,
    between two kernel calls: before the call that takes the semaphore, in
    the [do ... while] loop that drains it, or returned with a result. *)
Inductive wait_place := before_take | in_drain | returned (result : bool).

(** ** CMX-RTX port (os_port_cmx_rtx.c) *)
Module CmxRtx.

(** Compile-time constants of os_port_cmx_rtx.h, taken as parameters of the
    port: [OS_MAX_SEMAPHORES] and [OS_MS_TO_SYSTICKS] can be overridden by
    the project. *)
Class Config := {
  OS_MAX_SEMAPHORES : nat;
  OS_INVALID_SEMAPHORE_ID : Z;
  OS_SELF_TASK_ID : Z;
  OS_MS_TO_SYSTICKS : Z → Z
}.

(** *** Reference model of the CMX-RTX kernel services used by the port

    Semaphores are numbered counting semaphores without a ceiling.  The model
    is sequential: one task runs and nothing else posts, so a wait on an empty
    semaphore either times out or never returns ([None]). *)

Inductive kstatus := K_OK | K_TIMEOUT | K_SEMAPHORE_NONE | K_ERROR.

#[global] Instance cmx_kstatus_eq_dec : EqDecision kstatus.
Proof. solve_decision. Defined.

(** Task and scheduler services requested from the kernel, oldest first. *)
Inductive kcall :=
  | call_K_Task_End
  | call_K_Task_Delete (taskId : Z)
  | call_K_Task_Lock
  | call_K_Task_Unlock.

#[global] Instance cmx_kcall_eq_dec : EqDecision kcall.
Proof. solve_decision. Defined.

Record state := State {
  semaphoreTable : list bool;      (* the port's allocation table *)
  k_sems : gmap Z nat;             (* kernel: count of each created semaphore *)
  k_max_sems : Z;                  (* kernel: number of semaphores configured *)
  k_started : bool;                (* kernel: K_OS_Start has been called *)
  k_calls : list kcall             (* kernel: task and scheduler requests *)
}.

Definition set_table (t : list bool) (s : state) : state :=
  State t (k_sems s) (k_max_sems s) (k_started s) (k_calls s).

Definition set_sems (m : gmap Z nat) (s : state) : state :=
  State (semaphoreTable s) m (k_max_sems s) (k_started s) (k_calls s).

Definition request (c : kcall) (s : state) : state :=
  State (semaphoreTable s) (k_sems s) (k_max_sems s) (k_started s)
        (k_calls s ++ [c]).

Definition sem_count (id : Z) (s : state) : nat :=
  default 0%nat (k_sems s !! id).

Definition K_Semaphore_Create (id : Z) (n : nat) (s : state) : kstatus * state :=
  if bool_decide (0 ≤ id < k_max_sems s)
  then (K_OK, set_sems (<[id:=n]> (k_sems s)) s)
  else (K_ERROR, s).

Definition K_Semaphore_Post (id : Z) (s : state) : kstatus * state :=
  match k_sems s !! id with
  | Some n => (K_OK, set_sems (<[id:=S n]> (k_sems s)) s)
  | None => (K_ERROR, s)
  end.

Definition K_Semaphore_Get (id : Z) (s : state) : kstatus * state :=
  match k_sems s !! id with
  | Some (S n) => (K_OK, set_sems (<[id:=n]> (k_sems s)) s)
  | Some O => (K_SEMAPHORE_NONE, s)
  | None => (K_ERROR, s)
  end.

(** A time period of 0 means: wait forever. *)
Definition K_Semaphore_Wait (id : Z) (ticks : Z) (s : state)
    : option (kstatus * state) :=
  match k_sems s !! id with
  | Some (S n) => Some (K_OK, set_sems (<[id:=n]> (k_sems s)) s)
  | Some O => if bool_decide (ticks = 0) then None else Some (K_TIMEOUT, s)
  | None => Some (K_ERROR, s)
  end.

Definition K_OS_Init (s : state) : state :=
  State (semaphoreTable s) ∅ (k_max_sems s) false (k_calls s).

Definition K_OS_Start (s : state) : state :=
  State (semaphoreTable s) (k_sems s) (k_max_sems s) true (k_calls s).

Definition K_Task_End : state → state := request call_K_Task_End.
Definition K_Task_Delete (taskId : Z) : state → state :=
  request (call_K_Task_Delete taskId).
Definition K_Task_Lock : state → state := request call_K_Task_Lock.
Definition K_Task_Unlock : state → state := request call_K_Task_Unlock.

(** The post issued from an interrupt handler; with no task waiting it adds
    one unit like [K_Semaphore_Post]. *)
Definition K_Intrp_Semaphore_Post (id : Z) (s : state) : kstatus * state :=
  K_Semaphore_Post id s.

(** The task services, left abstract over the kernel's task table [K]: each
    returns a status, and the creation services also return the slot they
    assigned.  Arguments: priority, entry point, then the top of the stack
    ([K_Task_Create_Stack]) or the size of the stack ([K_Task_Create]). *)
Class TaskKernel (K : Type) := {
  K_Task_Create_Stack : Z → Z → Z → K → kstatus * Z * K;
  K_Task_Create : Z → Z → Z → K → kstatus * Z * K;
  K_Task_Start : Z → K → kstatus * K
}.

(** *** The port *)

Record OsEvent := { event_id : Z }.
Record OsSemaphore := { semaphore_id : Z }.
Record OsMutex := { mutex_id : Z }.

(** The state of an event, read off its kernel semaphore: signaled when the
    count is not zero; [None] when the kernel has no such semaphore. *)
Definition event_signaled (event : OsEvent) (s : state) : option bool :=
  (λ n, bool_decide (n ≠ 0%nat)) <$> k_sems s !! event_id event.

(** [do { status = K_Semaphore_Get(id); } while(status == K_OK);], the loop
    of [osResetEvent], repeated in [osWaitForEvent]. *)
Equations? do_K_Semaphore_Get_while_K_OK (id : Z) (s : state) : state
    by wf (sem_count id s) lt :=
do_K_Semaphore_Get_while_K_OK id s with Logic.inspect (K_Semaphore_Get id s) := {
  | exist _ (K_OK, s') _ => do_K_Semaphore_Get_while_K_OK id s'
  | exist _ (_, s') _ => s' }.
Proof.
  revert e. unfold K_Semaphore_Get, sem_count.
  destruct (k_sems s !! id) as [[|n]|]; intros [= <-]; simpl.
  rewrite lookup_insert_eq. simpl. lia.
Qed.

Section Port.
Context {cfg : Config}.

(** The loop of [osAllocateSemaphoreId]:
    [for(i = 0; i < OS_MAX_SEMAPHORES && id == OS_INVALID_SEMAPHORE_ID; i++)].
    The critical section ([__disable_irq], [__enable_irq]) has no effect in
    the sequential model. *)
Equations? osAllocateSemaphoreId_loop (i : nat) (id : Z)
    (table : list bool) : Z * list bool
    by wf (OS_MAX_SEMAPHORES - i)%nat lt :=
osAllocateSemaphoreId_loop i id table
    with decide ((i < OS_MAX_SEMAPHORES)%nat ∧ id = OS_INVALID_SEMAPHORE_ID) := {
  | left _ =>
      match table !! i with
      | Some false =>
          osAllocateSemaphoreId_loop (S i) (uint8 (Z.of_nat i))
            (<[i:=true]> table)
      | _ => osAllocateSemaphoreId_loop (S i) id table
      end
  | right _ => (id, table) }.
Proof. all: lia. Qed.

Definition osAllocateSemaphoreId (s : state) : Z * state :=
  let '(id, table) :=
    osAllocateSemaphoreId_loop 0 (uint8 OS_INVALID_SEMAPHORE_ID)
      (semaphoreTable s) in
  (id, set_table table s).

Definition osFreeSemaphoreId (id : Z) (s : state) : state :=
  if bool_decide (id < Z.of_nat OS_MAX_SEMAPHORES)
  then set_table (<[Z.to_nat id:=false]> (semaphoreTable s)) s
  else s.

Definition osInitKernel (s : state) : state :=
  K_OS_Init (set_table (replicate OS_MAX_SEMAPHORES false) s).

Definition osStartKernel (s : state) : state := K_OS_Start s.

Definition osDeleteTask (taskId : Z) (s : state) : state :=
  if bool_decide (taskId = OS_SELF_TASK_ID)
  then K_Task_End s
  else K_Task_Delete taskId s.

Definition osSuspendAllTasks (s : state) : state := K_Task_Lock s.

Definition osResumeAllTasks (s : state) : state := K_Task_Unlock s.

Definition osCreateEvent (s : state) : bool * OsEvent * state :=
  let '(id, s) := osAllocateSemaphoreId s in
  let event := {| event_id := id |} in
  let '(status, s) :=
    if bool_decide (event_id event ≠ OS_INVALID_SEMAPHORE_ID)
    then K_Semaphore_Create (event_id event) 0 s
    else (K_ERROR, s) in
  if bool_decide (status = K_OK) then (TRUE, event, s) else (FALSE, event, s).

Definition osDeleteEvent (event : OsEvent) (s : state) : state :=
  osFreeSemaphoreId (event_id event) s.

Definition osSetEvent (event : OsEvent) (s : state) : state :=
  (K_Semaphore_Post (event_id event) s).2.

Definition osResetEvent (event : OsEvent) (s : state) : state :=
  do_K_Semaphore_Get_while_K_OK (event_id event) s.

Definition osWaitForEvent (event : OsEvent) (timeout : Z) (s : state)
    : option (bool * state) :=
  '(status, s) ←
    (if bool_decide (timeout = 0)
     then Some (K_Semaphore_Get (event_id event) s)
     else if bool_decide (timeout = INFINITE_DELAY)
     then K_Semaphore_Wait (event_id event) 0 s
     else K_Semaphore_Wait (event_id event) (OS_MS_TO_SYSTICKS timeout) s);
  if bool_decide (status = K_OK)
  then Some (TRUE, do_K_Semaphore_Get_while_K_OK (event_id event) s)
  else Some (FALSE, s).

(** [osWaitForEvent] one kernel call at a time.  The kernel runs each call
    to its end; the function takes no lock, so another task can run between
    two of its calls.  From [before_take] the call is the take; from
    [in_drain] it is one [K_Semaphore_Get] of the loop; a task that has
    returned makes no call. *)
Definition osWaitForEvent_call (event : OsEvent) (timeout : Z)
    (place : wait_place) (s : state) : option (wait_place * state) :=
  match place with
  | before_take =>
      '(status, s) ←
        (if bool_decide (timeout = 0)
         then Some (K_Semaphore_Get (event_id event) s)
         else if bool_decide (timeout = INFINITE_DELAY)
         then K_Semaphore_Wait (event_id event) 0 s
         else K_Semaphore_Wait (event_id event) (OS_MS_TO_SYSTICKS timeout) s);
      if bool_decide (status = K_OK)
      then Some (in_drain, s)
      else Some (returned FALSE, s)
  | in_drain =>
      let '(status, s) := K_Semaphore_Get (event_id event) s in
      if bool_decide (status = K_OK)
      then Some (in_drain, s)
      else Some (returned TRUE, s)
  | returned result => Some (returned result, s)
  end.

(** [n] calls in a row, no other task running in between. *)
Fixpoint osWaitForEvent_calls (n : nat) (event : OsEvent) (timeout : Z)
    (place : wait_place) (s : state) : option (wait_place * state) :=
  match n with
  | O => Some (place, s)
  | S n =>
      '(place, s) ← osWaitForEvent_call event timeout place s;
      osWaitForEvent_calls n event timeout place s
  end.

Definition osCreateSemaphore (count : nat) (s : state)
    : bool * OsSemaphore * state :=
  let '(id, s) := osAllocateSemaphoreId s in
  let semaphore := {| semaphore_id := id |} in
  let '(status, s) :=
    if bool_decide (semaphore_id semaphore ≠ OS_INVALID_SEMAPHORE_ID)
    then K_Semaphore_Create (semaphore_id semaphore) count s
    else (K_ERROR, s) in
  if bool_decide (status = K_OK)
  then (TRUE, semaphore, s) else (FALSE, semaphore, s).

Definition osWaitForSemaphore (semaphore : OsSemaphore) (timeout : Z)
    (s : state) : option (bool * state) :=
  '(status, s) ←
    (if bool_decide (timeout = 0)
     then Some (K_Semaphore_Get (semaphore_id semaphore) s)
     else if bool_decide (timeout = INFINITE_DELAY)
     then K_Semaphore_Wait (semaphore_id semaphore) 0 s
     else K_Semaphore_Wait (semaphore_id semaphore) (OS_MS_TO_SYSTICKS timeout) s);
  if bool_decide (status = K_OK) then Some (TRUE, s) else Some (FALSE, s).

Definition osReleaseSemaphore (semaphore : OsSemaphore) (s : state) : state :=
  (K_Semaphore_Post (semaphore_id semaphore) s).2.

Definition osCreateMutex (s : state) : bool * OsMutex * state :=
  let '(id, s) := osAllocateSemaphoreId s in
  let mutex := {| mutex_id := id |} in
  let '(status, s) :=
    if bool_decide (mutex_id mutex ≠ OS_INVALID_SEMAPHORE_ID)
    then K_Semaphore_Create (mutex_id mutex) 0 s
    else (K_ERROR, s) in
  let '(status, s) :=
    if bool_decide (status = K_OK)
    then K_Semaphore_Post (mutex_id mutex) s
    else (status, s) in
  if bool_decide (status = K_OK) then (TRUE, mutex, s) else (FALSE, mutex, s).

Definition osAcquireMutex (mutex : OsMutex) (s : state) : option state :=
  '(_, s) ← K_Semaphore_Wait (mutex_id mutex) 0 s; Some s.

Definition osReleaseMutex (mutex : OsMutex) (s : state) : state :=
  (K_Semaphore_Post (mutex_id mutex) s).2.

Definition osSetEventFromIsr (event : OsEvent) (s : state) : bool * state :=
  (FALSE, (K_Intrp_Semaphore_Post (event_id event) s).2).

Definition osDeleteSemaphore (semaphore : OsSemaphore) (s : state) : state :=
  osFreeSemaphoreId (semaphore_id semaphore) s.

Definition osDeleteMutex (mutex : OsMutex) (s : state) : state :=
  osFreeSemaphoreId (mutex_id mutex) s.

Section Memory.
Context {H : Type} {heap : Heap state H}.

Definition osAllocMem (size : Z) (m : state * H) : Z * (state * H) :=
  let s := osSuspendAllTasks m.1 in
  let '(p, h) := malloc size s m.2 in
  let s := osResumeAllTasks s in
  (p, (s, h)).

Definition osFreeMem (p : Z) (m : state * H) : state * H :=
  if bool_decide (p ≠ NULL) then
    let s := osSuspendAllTasks m.1 in
    let h := free p s m.2 in
    let s := osResumeAllTasks s in
    (s, h)
  else m.

End Memory.

End Port.

(** [OsTaskParameters] and the task identifiers of os_port_cmx_rtx.h; the
    stack is an array of 32-bit words. *)
Record OsTaskParameters := OsTaskParams {
  fp : Z;
  stack : Z;
  stackSize : Z;
  priority : Z
}.

Definition OS_INVALID_TASK_ID : Z := 0.

Definition OS_TASK_DEFAULT_PARAMS : OsTaskParameters :=
  {| fp := NULL; stack := NULL; stackSize := 256; priority := 1 |}.

Section Tasks.
Context {K : Type} {kernel : TaskKernel K}.

(** [params->stack + params->stackSize - 1] is arithmetic on a pointer to
    32-bit words, and [params->stackSize * sizeof(uint32_t)] on a 32-bit
    [size_t]; the kernel stores the slot in the [uint8_t slot] of the
    caller. *)
Definition osCreateTask (name taskCode arg : Z) (params : OsTaskParameters)
    (s : K) : Z * K :=
  let taskCode := if bool_decide (fp params ≠ NULL) then fp params else taskCode in
  let '(status, slot, s) :=
    if bool_decide (stack params ≠ NULL)
    then K_Task_Create_Stack (priority params) taskCode
           (uint32 (stack params + 4 * stackSize params - 4)) s
    else K_Task_Create (priority params) taskCode
           (uint32 (stackSize params * 4)) s in
  let slot := uint8 slot in
  let '(status, s) :=
    if bool_decide (status = K_OK) then K_Task_Start slot s else (status, s) in
  if bool_decide (status = K_OK) then (slot, s) else (OS_INVALID_TASK_ID, s).

End Tasks.
End CmxRtx.

(** ** SafeRTOS port (os_port_safertos.c, os_port_safertos.h) *)
Module SafeRTOS.

(** Constants of the kernel's port layer.  [binaryCreatedGiven] tells whether
    [xSemaphoreCreateBinary] hands the new semaphore over available; the port
    is written so as not to depend on it. *)
Class Config := {
  portQUEUE_OVERHEAD_BYTES : Z;
  binaryCreatedGiven : bool
}.

Definition portMAX_DELAY : Z := 4294967295.
Definition taskIDLE_PRIORITY : Z := 0.
Definition mpuPRIVILEGED_TASK : Z := 1.

Definition OS_INVALID_TASK_ID : Z := NULL.
Definition OS_SELF_TASK_ID : Z := NULL.
Definition OS_MS_TO_SYSTICKS (n : Z) : Z := n.

(** *** Reference model of the SafeRTOS kernel services used by the port

    A semaphore is a queue of zero-sized items living in the buffer the
    caller supplies; its handle is the buffer address.  The model is
    sequential: a take on an empty semaphore fails at once, fails after the
    block time, or never returns ([None]) when the block time is
    [portMAX_DELAY]. *)

Inductive kstatus :=
  | pdPASS
  | errNULL_PARAMETER_SUPPLIED
  | errQUEUE_ALREADY_IN_USE
  | errINVALID_QUEUE_HANDLE
  | errINVALID_INITIAL_SEMAPHORE_COUNT
  | errSEMAPHORE_ALREADY_GIVEN
  | errSEMAPHORE_ALREADY_TAKEN
  | errINVALID_TASK_CODE_POINTER
  | errINVALID_BUFFER_SIZE
  | errTASK_ALREADY_EXISTS.

#[global] Instance safertos_kstatus_eq_dec : EqDecision kstatus.
Proof. solve_decision. Defined.

Record xQUEUE := Queue {
  uxItemsWaiting : nat;
  uxMaxNumberOfItems : nat
}.

#[global] Instance safertos_xQUEUE_eq_dec : EqDecision xQUEUE.
Proof. solve_decision. Defined.

Record xTaskParameters := TaskParameters {
  pvTaskCode : Z;
  pcTaskName : Z;
  pxTCB : Z;
  pcStackBuffer : Z;
  ulStackDepthBytes : Z;
  pvParameters : Z;
  uxPriority : Z;
  xUsingFPU : bool;
  uxPrivilegeLevel : Z
}.

#[global] Instance safertos_xTaskParameters_eq_dec : EqDecision xTaskParameters.
Proof. solve_decision. Defined.

(** Task and scheduler services requested from the kernel, oldest first. *)
Inductive kcall :=
  | call_xTaskCreate (p : xTaskParameters)
  | call_xTaskDelete (handle : Z)
  | call_vTaskSuspendScheduler
  | call_xTaskResumeScheduler.

#[global] Instance safertos_kcall_eq_dec : EqDecision kcall.
Proof. solve_decision. Defined.

Record state := State {
  k_queues : gmap Z xQUEUE;        (* semaphores, by handle *)
  k_tasks : list Z;                (* handles of the existing tasks *)
  k_current : Z;                   (* handle of the running task *)
  xSchedulerRunning : bool;        (* xTaskStartScheduler has been called *)
  uxSchedulerSuspended : nat;      (* nesting depth of scheduler suspension *)
  k_calls : list kcall             (* task and scheduler requests *)
}.

Definition set_queues (m : gmap Z xQUEUE) (s : state) : state :=
  State m (k_tasks s) (k_current s) (xSchedulerRunning s)
        (uxSchedulerSuspended s) (k_calls s).

Definition set_tasks (t : list Z) (s : state) : state :=
  State (k_queues s) t (k_current s) (xSchedulerRunning s)
        (uxSchedulerSuspended s) (k_calls s).

Definition set_suspended (n : nat) (s : state) : state :=
  State (k_queues s) (k_tasks s) (k_current s) (xSchedulerRunning s)
        n (k_calls s).

Definition request (c : kcall) (s : state) : state :=
  State (k_queues s) (k_tasks s) (k_current s) (xSchedulerRunning s)
        (uxSchedulerSuspended s) (k_calls s ++ [c]).

(** Returns the status and the handle; the handle is meaningful on [pdPASS]
    only. *)
Definition xTaskCreate (p : xTaskParameters) (s : state) : kstatus * Z * state :=
  let s := request (call_xTaskCreate p) s in
  if bool_decide (pvTaskCode p = NULL) then (errINVALID_TASK_CODE_POINTER, NULL, s)
  else if bool_decide (pxTCB p = NULL ∨ pcStackBuffer p = NULL)
  then (errNULL_PARAMETER_SUPPLIED, NULL, s)
  else if bool_decide (ulStackDepthBytes p ≤ 0) then (errINVALID_BUFFER_SIZE, NULL, s)
  else if bool_decide (pxTCB p ∈ k_tasks s) then (errTASK_ALREADY_EXISTS, NULL, s)
  else (pdPASS, pxTCB p, set_tasks (k_tasks s ++ [pxTCB p]) s).

(** A null handle designates the calling task. *)
Definition xTaskDelete (handle : Z) (s : state) : state :=
  let s := request (call_xTaskDelete handle) s in
  let victim := if bool_decide (handle = NULL) then k_current s else handle in
  set_tasks (filter (λ h, h ≠ victim) (k_tasks s)) s.

Definition xInitializeScheduler (s : state) : state :=
  State ∅ [] (k_current s) false 0 (k_calls s).

Definition xTaskStartScheduler (s : state) : state :=
  State (k_queues s) (k_tasks s) (k_current s) true
        (uxSchedulerSuspended s) (k_calls s).

Definition xTaskIsSchedulerStarted (s : state) : bool := xSchedulerRunning s.

Definition vTaskSuspendScheduler (s : state) : state :=
  set_suspended (S (uxSchedulerSuspended s)) (request call_vTaskSuspendScheduler s).

Definition xTaskResumeScheduler (s : state) : state :=
  set_suspended (Nat.pred (uxSchedulerSuspended s))
    (request call_xTaskResumeScheduler s).

Section Kernel.
Context {cfg : Config}.

Definition xSemaphoreCreateBinary (buffer : Z) (s : state) : kstatus * Z * state :=
  if bool_decide (buffer = NULL) then (errNULL_PARAMETER_SUPPLIED, NULL, s)
  else if bool_decide (is_Some (k_queues s !! buffer))
  then (errQUEUE_ALREADY_IN_USE, NULL, s)
  else (pdPASS, buffer,
        set_queues
          (<[buffer:=Queue (if binaryCreatedGiven then 1 else 0) 1]> (k_queues s)) s).

End Kernel.

Definition xSemaphoreCreateCounting (uxMaxCount uxInitialCount : nat)
    (buffer : Z) (s : state) : kstatus * Z * state :=
  if bool_decide (buffer = NULL) then (errNULL_PARAMETER_SUPPLIED, NULL, s)
  else if bool_decide (uxMaxCount = 0 ∨ uxMaxCount < uxInitialCount)%nat
  then (errINVALID_INITIAL_SEMAPHORE_COUNT, NULL, s)
  else if bool_decide (is_Some (k_queues s !! buffer))
  then (errQUEUE_ALREADY_IN_USE, NULL, s)
  else (pdPASS, buffer,
        set_queues (<[buffer:=Queue uxInitialCount uxMaxCount]> (k_queues s)) s).

Definition xSemaphoreGive (handle : Z) (s : state) : kstatus * state :=
  match k_queues s !! handle with
  | Some q =>
      if bool_decide (uxItemsWaiting q < uxMaxNumberOfItems q)%nat
      then (pdPASS,
            set_queues (<[handle:=Queue (S (uxItemsWaiting q)) (uxMaxNumberOfItems q)]>
                          (k_queues s)) s)
      else (errSEMAPHORE_ALREADY_GIVEN, s)
  | None => (errINVALID_QUEUE_HANDLE, s)
  end.

Definition xSemaphoreTake (handle : Z) (xBlockTime : Z) (s : state)
    : option (kstatus * state) :=
  match k_queues s !! handle with
  | Some (Queue (S n) m) =>
      Some (pdPASS, set_queues (<[handle:=Queue n m]> (k_queues s)) s)
  | Some (Queue O m) =>
      if bool_decide (xBlockTime = portMAX_DELAY) then None
      else Some (errSEMAPHORE_ALREADY_TAKEN, s)
  | None => Some (errINVALID_QUEUE_HANDLE, s)
  end.

(** *** The port *)

Record OsTaskParameters := OsTaskParams {
  tcb : Z;
  stack : Z;
  stackSize : Z;
  priority : Z
}.

(** Each object holds the semaphore handle and the address of its buffer
    [portInt8Type buffer[portQUEUE_OVERHEAD_BYTES * 2]]. *)
Record OsEvent := Event { event_handle : Z; event_buffer : Z }.
Record OsSemaphore := Semaphore { semaphore_handle : Z; semaphore_buffer : Z }.
Record OsMutex := Mutex { mutex_handle : Z; mutex_buffer : Z }.

Definition OS_TASK_DEFAULT_PARAMS : OsTaskParameters :=
  {| tcb := NULL; stack := NULL; stackSize := 0; priority := taskIDLE_PRIORITY + 1 |}.

(** The state of an event, read off its binary semaphore: signaled when the
    semaphore is available; [None] when the handle is not that of a binary
    semaphore. *)
Definition event_signaled (event : OsEvent) (s : state) : option bool :=
  match k_queues s !! event_handle event with
  | Some (Queue 0 1) => Some false
  | Some (Queue 1 1) => Some true
  | _ => None
  end.

Definition osCreateTask (name taskCode arg : Z) (params : OsTaskParameters)
    (s : state) : Z * state :=
  if bool_decide (tcb params ≠ NULL) && bool_decide (stack params ≠ NULL) then
    let taskParams :=
      {| pvTaskCode := taskCode;
         pcTaskName := name;
         pxTCB := tcb params;
         pcStackBuffer := stack params;
         ulStackDepthBytes := stackSize params;
         pvParameters := arg;
         uxPriority := priority params;
         xUsingFPU := true;
         uxPrivilegeLevel := mpuPRIVILEGED_TASK |} in
    let '(status, handle, s) := xTaskCreate taskParams s in
    let handle := if bool_decide (status ≠ pdPASS) then OS_INVALID_TASK_ID else handle in
    (handle, s)
  else
    (OS_INVALID_TASK_ID, s).

Definition osInitKernel (s : state) : state := xInitializeScheduler s.

Definition osStartKernel (s : state) : state := xTaskStartScheduler s.

Definition osDeleteTask (taskId : Z) (s : state) : state := xTaskDelete taskId s.

Definition osSuspendAllTasks (s : state) : state :=
  if bool_decide (xTaskIsSchedulerStarted s = true)
  then vTaskSuspendScheduler s
  else s.

Definition osResumeAllTasks (s : state) : state :=
  if bool_decide (xTaskIsSchedulerStarted s = true)
  then xTaskResumeScheduler s
  else s.

Section Port.
Context {cfg : Config}.

(** The buffer address rounded up to the next multiple of
    [portQUEUE_OVERHEAD_BYTES], in 32-bit arithmetic. *)
Definition aligned (buffer : Z) : Z :=
  let p := uint32 buffer in
  let n := p mod portQUEUE_OVERHEAD_BYTES in
  uint32 (p + (portQUEUE_OVERHEAD_BYTES - n)).

Definition osCreateEvent (event : OsEvent) (s : state)
    : option (bool * OsEvent * state) :=
  let p := aligned (event_buffer event) in
  let '(status, handle, s) := xSemaphoreCreateBinary p s in
  if bool_decide (status = pdPASS) then
    let event := Event handle (event_buffer event) in
    '(_, s) ← xSemaphoreTake (event_handle event) 0 s;
    Some (TRUE, event, s)
  else
    Some (FALSE, event, s).

Definition osCreateSemaphore (semaphore : OsSemaphore) (count : nat) (s : state)
    : bool * OsSemaphore * state :=
  let p := aligned (semaphore_buffer semaphore) in
  let '(status, handle, s) := xSemaphoreCreateCounting count count p s in
  if bool_decide (status = pdPASS)
  then (TRUE, Semaphore handle (semaphore_buffer semaphore), s)
  else (FALSE, semaphore, s).

Definition osCreateMutex (mutex : OsMutex) (s : state) : bool * OsMutex * state :=
  let p := aligned (mutex_buffer mutex) in
  let '(status, handle, s) := xSemaphoreCreateBinary p s in
  if bool_decide (status = pdPASS) then
    let mutex := Mutex handle (mutex_buffer mutex) in
    let '(_, s) := xSemaphoreGive (mutex_handle mutex) s in
    (TRUE, mutex, s)
  else
    (FALSE, mutex, s).

End Port.

Definition osSetEvent (event : OsEvent) (s : state) : state :=
  (xSemaphoreGive (event_handle event) s).2.

Definition osResetEvent (event : OsEvent) (s : state) : option state :=
  '(_, s) ← xSemaphoreTake (event_handle event) 0 s; Some s.

Definition osWaitForEvent (event : OsEvent) (timeout : Z) (s : state)
    : option (bool * state) :=
  '(status, s) ←
    (if bool_decide (timeout = INFINITE_DELAY)
     then xSemaphoreTake (event_handle event) portMAX_DELAY s
     else xSemaphoreTake (event_handle event) (OS_MS_TO_SYSTICKS timeout) s);
  if bool_decide (status = pdPASS) then Some (TRUE, s) else Some (FALSE, s).

Definition osWaitForSemaphore (semaphore : OsSemaphore) (timeout : Z)
    (s : state) : option (bool * state) :=
  '(status, s) ←
    (if bool_decide (timeout = INFINITE_DELAY)
     then xSemaphoreTake (semaphore_handle semaphore) portMAX_DELAY s
     else xSemaphoreTake (semaphore_handle semaphore) (OS_MS_TO_SYSTICKS timeout) s);
  if bool_decide (status = pdPASS) then Some (TRUE, s) else Some (FALSE, s).

Definition osReleaseSemaphore (semaphore : OsSemaphore) (s : state) : state :=
  (xSemaphoreGive (semaphore_handle semaphore) s).2.

Definition osAcquireMutex (mutex : OsMutex) (s : state) : option state :=
  '(_, s) ← xSemaphoreTake (mutex_handle mutex) portMAX_DELAY s; Some s.

Definition osReleaseMutex (mutex : OsMutex) (s : state) : state :=
  (xSemaphoreGive (mutex_handle mutex) s).2.

(** With no task waiting on the semaphore, no task is woken and the flag is
    left as it was. *)
Definition xSemaphoreGiveFromISR (handle : Z) (flag : bool) (s : state)
    : kstatus * bool * state :=
  let '(status, s) := xSemaphoreGive handle s in (status, flag, s).

Definition osSetEventFromIsr (event : OsEvent) (s : state) : bool * state :=
  let flag := FALSE in
  let '(_, flag, s) := xSemaphoreGiveFromISR (event_handle event) flag s in
  (flag, s).

Definition osAllocMem (size : Z) : Z := NULL.

Definition osFreeMem {M : Type} (p : Z) (m : M) : M := m.

End SafeRTOS.

(** ** Zephyr port (os_port_zephyr.c) *)
Module Zephyr.

(** Compile-time constants of os_port_zephyr.h, which is not among the
    sources, and of the kernel configuration. *)
Class Config := {
  OS_INVALID_TASK_ID : Z;
  OS_SELF_TASK_ID : Z;
  CONFIG_NUM_PREEMPT_PRIORITIES : Z
}.

Definition EPERM : Z := 1.
Definition EAGAIN : Z := 11.
Definition EBUSY : Z := 16.
Definition EINVAL : Z := 22.

(** *** Reference model of the Zephyr kernel services used by the port

    Semaphores and mutexes are objects in the caller's memory.  The model is
    sequential: a take on an empty semaphore returns [-EBUSY] without
    waiting, [-EAGAIN] after a bounded wait, and never returns ([None]) with
    [K_FOREVER]. *)

Inductive k_timeout_t := K_NO_WAIT | K_FOREVER | K_MSEC (ms : Z).

Record k_sem := Sem { count : nat; limit : nat }.

#[global] Instance zephyr_k_sem_eq_dec : EqDecision k_sem.
Proof. solve_decision. Defined.

Record k_mutex := KMutex { owner : option Z; lock_count : nat }.

Inductive kcall :=
  | call_k_thread_create (new_thread stack : Z) (stack_size : Z)
      (entry p1 : Z) (prio : Z)
  | call_k_thread_name_set (thread name : Z)
  | call_k_thread_abort (thread : Z)
  | call_k_sched_lock
  | call_k_sched_unlock.

#[global] Instance zephyr_kcall_eq_dec : EqDecision kcall.
Proof. solve_decision. Defined.

Record state := State {
  k_threads : list Z;              (* the existing threads *)
  k_current : Z;                   (* the running thread *)
  k_sched_locked : nat;            (* nesting depth of the scheduler lock *)
  k_calls : list kcall             (* thread and scheduler requests *)
}.

Definition request (c : kcall) (s : state) : state :=
  State (k_threads s) (k_current s) (k_sched_locked s) (k_calls s ++ [c]).

Definition set_threads (t : list Z) (s : state) : state :=
  State t (k_current s) (k_sched_locked s) (k_calls s).

Definition set_sched_locked (n : nat) (s : state) : state :=
  State (k_threads s) (k_current s) n (k_calls s).

Definition k_sem_init (sem : k_sem) (initial_count limit : nat) : Z * k_sem :=
  if bool_decide (limit = 0 ∨ limit < initial_count)%nat
  then (- EINVAL, sem)
  else (0, Sem initial_count limit).

Definition k_sem_give (sem : k_sem) : k_sem :=
  if bool_decide (count sem ≠ limit sem)
  then Sem (S (count sem)) (limit sem)
  else sem.

Definition k_sem_take (sem : k_sem) (timeout : k_timeout_t)
    : option (Z * k_sem) :=
  match count sem with
  | S n => Some (0, Sem n (limit sem))
  | O =>
      match timeout with
      | K_NO_WAIT => Some (- EBUSY, sem)
      | K_FOREVER => None
      | K_MSEC _ => Some (- EAGAIN, sem)
      end
  end.

Definition k_sem_reset (sem : k_sem) : k_sem := Sem 0 (limit sem).

Definition k_mutex_init (mutex : k_mutex) : Z * k_mutex := (0, KMutex None 0).

Definition k_current_get (s : state) : Z := k_current s.

Definition k_mutex_lock (mutex : k_mutex) (timeout : k_timeout_t) (s : state)
    : option (Z * k_mutex) :=
  if bool_decide (lock_count mutex = 0%nat ∨ owner mutex = Some (k_current_get s))
  then Some (0, KMutex (Some (k_current_get s)) (S (lock_count mutex)))
  else
    match timeout with
    | K_NO_WAIT => Some (- EBUSY, mutex)
    | K_FOREVER => None
    | K_MSEC _ => Some (- EAGAIN, mutex)
    end.

Definition k_mutex_unlock (mutex : k_mutex) (s : state) : Z * k_mutex :=
  if bool_decide (owner mutex = None) then (- EINVAL, mutex)
  else if bool_decide (owner mutex ≠ Some (k_current_get s)) then (- EPERM, mutex)
  else
    match lock_count mutex with
    | S (S n) => (0, KMutex (owner mutex) (S n))
    | _ => (0, KMutex None 0)
    end.

Definition k_thread_create (new_thread stack stack_size entry p1 prio : Z)
    (s : state) : Z * state :=
  let s := request (call_k_thread_create new_thread stack stack_size entry p1 prio) s in
  (new_thread, set_threads (k_threads s ++ [new_thread]) s).

Definition k_thread_name_set (thread name : Z) (s : state) : state :=
  request (call_k_thread_name_set thread name) s.

Definition k_thread_abort (thread : Z) (s : state) : state :=
  let s := request (call_k_thread_abort thread) s in
  set_threads (filter (λ t, t ≠ thread) (k_threads s)) s.

Definition k_sched_lock (s : state) : state :=
  set_sched_locked (S (k_sched_locked s)) (request call_k_sched_lock s).

Definition k_sched_unlock (s : state) : state :=
  set_sched_locked (Nat.pred (k_sched_locked s)) (request call_k_sched_unlock s).

(** *** The port *)

Record OsTaskParameters := OsTaskParams {
  tcb : Z;
  stack : Z;
  stackSize : Z;
  priority : Z
}.

Definition OsEvent := k_sem.
Definition OsSemaphore := k_sem.
Definition OsMutex := k_mutex.

(** The state of an event object: signaled when its binary semaphore is
    available; [None] when the object is not an initialised binary
    semaphore. *)
Definition event_signaled (event : OsEvent) : option bool :=
  match event with
  | Sem 0 1 => Some false
  | Sem 1 1 => Some true
  | _ => None
  end.

Section Port.
Context {cfg : Config}.

Definition OS_TASK_DEFAULT_PARAMS : OsTaskParameters :=
  {| tcb := NULL; stack := NULL; stackSize := 0;
     priority := CONFIG_NUM_PREEMPT_PRIORITIES - 1 |}.

Definition osCreateTask (name taskCode arg : Z) (params : OsTaskParameters)
    (s : state) : Z * state :=
  if bool_decide (tcb params ≠ NULL) && bool_decide (stack params ≠ NULL) then
    let '(tid, s) :=
      k_thread_create (tcb params) (stack params) (stackSize params)
        taskCode arg (priority params) s in
    let s :=
      if bool_decide (tid ≠ OS_INVALID_TASK_ID)
      then k_thread_name_set tid name s
      else s in
    (tid, s)
  else
    (OS_INVALID_TASK_ID, s).

Definition osDeleteTask (taskId : Z) (s : state) : state :=
  let tid :=
    if bool_decide (taskId = OS_SELF_TASK_ID)
    then k_current_get s
    else taskId in
  k_thread_abort tid s.

End Port.

Definition osSuspendAllTasks (s : state) : state := k_sched_lock s.

Definition osResumeAllTasks (s : state) : state := k_sched_unlock s.

Definition osCreateEvent (event : OsEvent) : bool * OsEvent :=
  let '(err, event) := k_sem_init event 0 1 in
  if bool_decide (err ≠ 0) then (FALSE, event) else (TRUE, event).

Definition osSetEvent (event : OsEvent) : OsEvent := k_sem_give event.

Definition osResetEvent (event : OsEvent) : OsEvent := k_sem_reset event.

Definition osWaitForEvent (event : OsEvent) (timeout : Z)
    : option (bool * OsEvent) :=
  '(err, event) ←
    (if bool_decide (timeout = 0) then k_sem_take event K_NO_WAIT
     else if bool_decide (timeout = INFINITE_DELAY) then k_sem_take event K_FOREVER
     else k_sem_take event (K_MSEC timeout));
  if bool_decide (err ≠ 0) then Some (FALSE, event) else Some (TRUE, event).

Definition osCreateSemaphore (semaphore : OsSemaphore) (count : nat)
    : bool * OsSemaphore :=
  let '(err, semaphore) := k_sem_init semaphore count count in
  if bool_decide (err ≠ 0) then (FALSE, semaphore) else (TRUE, semaphore).

Definition osWaitForSemaphore (semaphore : OsSemaphore) (timeout : Z)
    : option (bool * OsSemaphore) :=
  '(err, semaphore) ←
    (if bool_decide (timeout = 0) then k_sem_take semaphore K_NO_WAIT
     else if bool_decide (timeout = INFINITE_DELAY)
     then k_sem_take semaphore K_FOREVER
     else k_sem_take semaphore (K_MSEC timeout));
  if bool_decide (err ≠ 0) then Some (FALSE, semaphore) else Some (TRUE, semaphore).

Definition osReleaseSemaphore (semaphore : OsSemaphore) : OsSemaphore :=
  k_sem_give semaphore.

Definition osCreateMutex (mutex : OsMutex) : bool * OsMutex :=
  let '(err, mutex) := k_mutex_init mutex in
  if bool_decide (err ≠ 0) then (FALSE, mutex) else (TRUE, mutex).

Definition osAcquireMutex (mutex : OsMutex) (s : state) : option OsMutex :=
  '(_, mutex) ← k_mutex_lock mutex K_FOREVER s; Some mutex.

Definition osReleaseMutex (mutex : OsMutex) (s : state) : OsMutex :=
  (k_mutex_unlock mutex s).2.

Definition osSetEventFromIsr (event : OsEvent) : bool * OsEvent :=
  (FALSE, k_sem_give event).

Section Memory.
Context {H : Type} {heap : Heap state H}.

Definition k_malloc : Z → state → H → Z * H := malloc.
Definition k_free : Z → state → H → H := free.

Definition osAllocMem (size : Z) (m : state * H) : Z * (state * H) :=
  let s := osSuspendAllTasks m.1 in
  let '(p, h) := k_malloc size s m.2 in
  let s := osResumeAllTasks s in
  (p, (s, h)).

Definition osFreeMem (p : Z) (m : state * H) : state * H :=
  if bool_decide (p ≠ NULL) then
    let s := osSuspendAllTasks m.1 in
    let h := k_free p s m.2 in
    let s := osResumeAllTasks s in
    (s, h)
  else m.

End Memory.

End Zephyr.

(** ** PX5 port (os_port_px5.c) *)
Module Px5.

(** Compile-time constants of os_port_px5.h, which is not among the
    sources. *)
Class Config := {
  OS_SELF_TASK_ID : Z;
  OS_MS_TO_SYSTICKS : Z → Z
}.

Definition PX5_SUCCESS : Z := 0.
Definition PX5_ERROR : Z := -1.

(** *** Reference model of the PX5 kernel services used by the port

    Semaphores are POSIX counting semaphores in the caller's memory, without
    a ceiling.  The model is sequential: [px5_sem_wait] on an empty semaphore
    never returns ([None]). *)

Record sem_t := Sem { sem_created : bool; sem_value : nat }.

Record pthread_mutex_t := PMutex { mutex_created : bool; mutex_owner : option Z }.

Inductive kcall :=
  | call_px5_pthread_exit (value : Z)
  | call_pthread_cancel (thread : Z).

#[global] Instance px5_kcall_eq_dec : EqDecision kcall.
Proof. solve_decision. Defined.

Record state := State {
  k_threads : list Z;              (* the existing threads *)
  k_current : Z;                   (* the running thread *)
  k_calls : list kcall             (* thread requests *)
}.

Definition request (c : kcall) (s : state) : state :=
  State (k_threads s) (k_current s) (k_calls s ++ [c]).

Definition set_threads (t : list Z) (s : state) : state :=
  State t (k_current s) (k_calls s).

Definition px5_sem_init (sem : sem_t) (pshared : Z) (value : nat) : Z * sem_t :=
  (PX5_SUCCESS, Sem true value).

Definition px5_sem_post (sem : sem_t) : Z * sem_t :=
  if sem_created sem then (PX5_SUCCESS, Sem true (S (sem_value sem)))
  else (PX5_ERROR, sem).

Definition px5_sem_trywait (sem : sem_t) : Z * sem_t :=
  match sem_created sem, sem_value sem with
  | true, S n => (PX5_SUCCESS, Sem true n)
  | _, _ => (PX5_ERROR, sem)
  end.

Definition px5_sem_wait (sem : sem_t) : option (Z * sem_t) :=
  match sem_created sem, sem_value sem with
  | true, S n => Some (PX5_SUCCESS, Sem true n)
  | true, O => None
  | false, _ => Some (PX5_ERROR, sem)
  end.

Definition px5_sem_timedwait (sem : sem_t) (tick_count : Z) : Z * sem_t :=
  match sem_created sem, sem_value sem with
  | true, S n => (PX5_SUCCESS, Sem true n)
  | _, _ => (PX5_ERROR, sem)
  end.

Definition px5_pthread_mutex_init (mutex : pthread_mutex_t) (attr : Z)
    : Z * pthread_mutex_t :=
  (PX5_SUCCESS, PMutex true None).

Definition px5_pthread_mutex_lock (mutex : pthread_mutex_t) (s : state)
    : option (Z * pthread_mutex_t) :=
  if mutex_created mutex then
    match mutex_owner mutex with
    | None => Some (PX5_SUCCESS, PMutex true (Some (k_current s)))
    | Some t => if bool_decide (t = k_current s) then Some (PX5_ERROR, mutex) else None
    end
  else Some (PX5_ERROR, mutex).

Definition px5_pthread_mutex_unlock (mutex : pthread_mutex_t) (s : state)
    : Z * pthread_mutex_t :=
  if mutex_created mutex && bool_decide (mutex_owner mutex = Some (k_current s))
  then (PX5_SUCCESS, PMutex true None)
  else (PX5_ERROR, mutex).

Definition px5_pthread_exit (value : Z) (s : state) : state :=
  let s := request (call_px5_pthread_exit value) s in
  set_threads (filter (λ t, t ≠ k_current s) (k_threads s)) s.

Definition pthread_cancel (thread : Z) (s : state) : state :=
  let s := request (call_pthread_cancel thread) s in
  set_threads (filter (λ t, t ≠ thread) (k_threads s)) s.

(** *** The port *)

Definition OsEvent := sem_t.
Definition OsSemaphore := sem_t.
Definition OsMutex := pthread_mutex_t.

(** The state of an event object: signaled when the count of its semaphore
    is not zero; [None] when the semaphore has not been initialised. *)
Definition event_signaled (event : OsEvent) : option bool :=
  if sem_created event then Some (bool_decide (sem_value event ≠ 0%nat)) else None.

(** [do { ret = px5_sem_trywait(event); } while(ret == PX5_SUCCESS);], the
    loop of [osResetEvent], repeated in [osWaitForEvent]. *)
Equations? do_px5_sem_trywait_while_PX5_SUCCESS (event : sem_t) : sem_t
    by wf (sem_value event) lt :=
do_px5_sem_trywait_while_PX5_SUCCESS event
    with Logic.inspect (px5_sem_trywait event) := {
  | exist _ (ret, event') _ with decide (ret = PX5_SUCCESS) := {
      | left _ => do_px5_sem_trywait_while_PX5_SUCCESS event'
      | right _ => event' } }.
Proof.
  revert e. unfold px5_sem_trywait.
  destruct (sem_created event), (sem_value event); intros [= <-]; simpl; lia.
Qed.

Section Port.
Context {cfg : Config}.

Definition osDeleteTask (taskId : Z) (s : state) : state :=
  if bool_decide (taskId = OS_SELF_TASK_ID)
  then px5_pthread_exit NULL s
  else pthread_cancel taskId s.

Definition osSuspendAllTasks (s : state) : state := s.

Definition osResumeAllTasks (s : state) : state := s.

Definition osCreateEvent (event : OsEvent) : bool * OsEvent :=
  let '(ret, event) := px5_sem_init event 0 0 in
  if bool_decide (ret = PX5_SUCCESS) then (TRUE, event) else (FALSE, event).

Definition osSetEvent (event : OsEvent) : OsEvent := (px5_sem_post event).2.

Definition osResetEvent (event : OsEvent) : OsEvent :=
  do_px5_sem_trywait_while_PX5_SUCCESS event.

Definition osWaitForEvent (event : OsEvent) (timeout : Z)
    : option (bool * OsEvent) :=
  '(ret, event) ←
    (if bool_decide (timeout = 0) then Some (px5_sem_trywait event)
     else if bool_decide (timeout = INFINITE_DELAY) then px5_sem_wait event
     else Some (px5_sem_timedwait event (OS_MS_TO_SYSTICKS timeout)));
  if bool_decide (ret = PX5_SUCCESS)
  then Some (TRUE, do_px5_sem_trywait_while_PX5_SUCCESS event)
  else Some (FALSE, event).

(** [osWaitForEvent] one kernel call at a time, as on CMX-RTX: the take,
    then one [px5_sem_trywait] of the loop per call. *)
Definition osWaitForEvent_call (event : OsEvent) (timeout : Z)
    (place : wait_place) : option (wait_place * OsEvent) :=
  match place with
  | before_take =>
      '(ret, event) ←
        (if bool_decide (timeout = 0) then Some (px5_sem_trywait event)
         else if bool_decide (timeout = INFINITE_DELAY) then px5_sem_wait event
         else Some (px5_sem_timedwait event (OS_MS_TO_SYSTICKS timeout)));
      if bool_decide (ret = PX5_SUCCESS)
      then Some (in_drain, event)
      else Some (returned FALSE, event)
  | in_drain =>
      let '(ret, event) := px5_sem_trywait event in
      if bool_decide (ret = PX5_SUCCESS)
      then Some (in_drain, event)
      else Some (returned TRUE, event)
  | returned result => Some (returned result, event)
  end.

Fixpoint osWaitForEvent_calls (n : nat) (event : OsEvent) (timeout : Z)
    (place : wait_place) : option (wait_place * OsEvent) :=
  match n with
  | O => Some (place, event)
  | S n =>
      '(place, event) ← osWaitForEvent_call event timeout place;
      osWaitForEvent_calls n event timeout place
  end.

Definition osCreateSemaphore (semaphore : OsSemaphore) (count : nat)
    : bool * OsSemaphore :=
  let '(ret, semaphore) := px5_sem_init semaphore 0 count in
  if bool_decide (ret = PX5_SUCCESS) then (TRUE, semaphore) else (FALSE, semaphore).

Definition osWaitForSemaphore (semaphore : OsSemaphore) (timeout : Z)
    : option (bool * OsSemaphore) :=
  '(ret, semaphore) ←
    (if bool_decide (timeout = 0) then Some (px5_sem_trywait semaphore)
     else if bool_decide (timeout = INFINITE_DELAY) then px5_sem_wait semaphore
     else Some (px5_sem_timedwait semaphore (OS_MS_TO_SYSTICKS timeout)));
  if bool_decide (ret = PX5_SUCCESS) then Some (TRUE, semaphore) else Some (FALSE, semaphore).

Definition osReleaseSemaphore (semaphore : OsSemaphore) : OsSemaphore :=
  (px5_sem_post semaphore).2.

Definition osCreateMutex (mutex : OsMutex) : bool * OsMutex :=
  let '(ret, mutex) := px5_pthread_mutex_init mutex NULL in
  if bool_decide (ret = PX5_SUCCESS) then (TRUE, mutex) else (FALSE, mutex).

Definition osAcquireMutex (mutex : OsMutex) (s : state) : option OsMutex :=
  '(_, mutex) ← px5_pthread_mutex_lock mutex s; Some mutex.

Definition osReleaseMutex (mutex : OsMutex) (s : state) : OsMutex :=
  (px5_pthread_mutex_unlock mutex s).2.

Definition osSetEventFromIsr (event : OsEvent) : bool * OsEvent :=
  (FALSE, (px5_sem_post event).2).

Section Memory.
Context {H : Type} {heap : Heap state H}.

Definition osAllocMem (size : Z) (m : state * H) : Z * (state * H) :=
  let s := osSuspendAllTasks m.1 in
  let '(p, h) := malloc size s m.2 in
  let s := osResumeAllTasks s in
  (p, (s, h)).

Definition osFreeMem (p : Z) (m : state * H) : state * H :=
  if bool_decide (p ≠ NULL) then
    let s := osSuspendAllTasks m.1 in
    let h := free p s m.2 in
    let s := osResumeAllTasks s in
    (s, h)
  else m.

Definition osAllocMemCallback (type size : Z) (m : state * H) : Z * (state * H) :=
  osAllocMem size m.

Definition osFreeMemCallback (type p : Z) (m : state * H) : state * H :=
  osFreeMem p m.

End Memory.

End Port.

(** The identifier for a task that could not be created, from
    os_port_px5.h, which is not among the sources. *)
Class TaskConfig := { OS_INVALID_TASK_ID : Z }.

(** The thread services, left abstract over the attribute object [A] and the
    kernel's thread table [K]: each returns a status, the attribute services
    also the attribute object as they leave it, and [px5_pthread_create] the
    new thread. *)
Class ThreadKernel (A K : Type) := {
  pthread_attr_init : A → Z * A;
  px5_pthread_attr_setstackaddr : A → Z → Z * A;
  px5_pthread_attr_setstacksize : A → Z → Z * A;
  px5_pthread_attr_setpriority : A → Z → Z * A;
  px5_pthread_create : A → Z → Z → K → Z * Z * K
}.

Record OsTaskParameters := OsTaskParams {
  stack : Z;
  stackSize : Z;
  priority : Z
}.

Definition OS_TASK_DEFAULT_PARAMS : OsTaskParameters :=
  {| stack := NULL; stackSize := 0; priority := 0 |}.

Section Tasks.
Context {tcfg : TaskConfig} {A K : Type} {kernel : ThreadKernel A K}.

(** [threadAttr] is the local attribute object as the stack holds it before
    [pthread_attr_init]; [params->stackSize * sizeof(uint32_t)] is arithmetic
    on a 32-bit [size_t]. *)
Definition osCreateTask (name taskCode arg : Z) (params : OsTaskParameters)
    (threadAttr : A) (s : K) : Z * K :=
  let '(ret, threadAttr) := pthread_attr_init threadAttr in
  let '(ret, threadAttr) :=
    if bool_decide (ret = PX5_SUCCESS) then
      if bool_decide (stack params ≠ NULL)
      then px5_pthread_attr_setstackaddr threadAttr (stack params)
      else (ret, threadAttr)
    else (ret, threadAttr) in
  let '(ret, threadAttr) :=
    if bool_decide (ret = PX5_SUCCESS)
    then px5_pthread_attr_setstacksize threadAttr (uint32 (stackSize params * 4))
    else (ret, threadAttr) in
  let '(ret, threadAttr) :=
    if bool_decide (ret = PX5_SUCCESS)
    then px5_pthread_attr_setpriority threadAttr (priority params)
    else (ret, threadAttr) in
  let '(ret, thread, s) := px5_pthread_create threadAttr taskCode arg s in
  if bool_decide (ret = PX5_SUCCESS) then (thread, s) else (OS_INVALID_TASK_ID, s).

End Tasks.
End Px5.

(** ** Call sequences and sample configurations *)

(** [wait_each wait timeouts s]: one wait per timeout, in order; the results
    and the final state, or [None] as soon as one wait never returns. *)
Fixpoint wait_each {S : Type} (wait : Z → S → option (bool * S))
    (timeouts : list Z) (s : S) : option (list bool * S) :=
  match timeouts with
  | [] => Some ([], s)
  | t :: timeouts =>
      '(r, s) ← wait t s;
      '(rs, s) ← wait_each wait timeouts s;
      Some (r :: rs, s)
  end.

(** [n] consecutive calls of [osAllocateSemaphoreId]; the identifiers in call
    order. *)
Fixpoint cmx_allocate_times {cfg : CmxRtx.Config} (n : nat) (s : CmxRtx.state)
    : list Z * CmxRtx.state :=
  match n with
  | O => ([], s)
  | S n =>
      let '(id, s) := CmxRtx.osAllocateSemaphoreId s in
      let '(ids, s) := cmx_allocate_times n s in
      (id :: ids, s)
  end.

(** The table whose first [k] slots are in use and whose other slots are
    free. *)
Definition cmx_table {cfg : CmxRtx.Config} (k : nat) : list bool :=
  replicate k true ++ replicate (CmxRtx.OS_MAX_SEMAPHORES - k) false.

(** The sentinel is a [uint8_t] value that is not an index of the table. *)
Definition cmx_sentinel_ok {cfg : CmxRtx.Config} : Prop :=
  Z.of_nat CmxRtx.OS_MAX_SEMAPHORES ≤ CmxRtx.OS_INVALID_SEMAPHORE_ID ≤ 255.

Definition cmx_cfg : CmxRtx.Config :=
  {| CmxRtx.OS_MAX_SEMAPHORES := 4; CmxRtx.OS_INVALID_SEMAPHORE_ID := 255;
     CmxRtx.OS_SELF_TASK_ID := 0; CmxRtx.OS_MS_TO_SYSTICKS := λ n, n |}.

(** After [osInitKernel], before [osStartKernel]: the table cleared, no
    semaphore, a kernel configured for 8 semaphores. *)
Definition cmx_init : CmxRtx.state :=
  @CmxRtx.osInitKernel cmx_cfg (CmxRtx.State [] ∅ 8 false []).

Definition safe_cfg (given : bool) : SafeRTOS.Config :=
  {| SafeRTOS.portQUEUE_OVERHEAD_BYTES := 96; SafeRTOS.binaryCreatedGiven := given |}.

(** After [osInitKernel], before [osStartKernel]: no semaphore, no task. *)
Definition safe_init : SafeRTOS.state :=
  SafeRTOS.osInitKernel (SafeRTOS.State ∅ [] 0 false 0 []).

(** Objects not yet created, with their buffers at distinct addresses. *)
Definition safe_event : SafeRTOS.OsEvent := SafeRTOS.Event NULL 4096.
Definition safe_semaphore : SafeRTOS.OsSemaphore := SafeRTOS.Semaphore NULL 8192.
Definition safe_mutex : SafeRTOS.OsMutex := SafeRTOS.Mutex NULL 12288.

Definition zephyr_cfg : Zephyr.Config :=
  {| Zephyr.OS_INVALID_TASK_ID := NULL; Zephyr.OS_SELF_TASK_ID := NULL;
     Zephyr.CONFIG_NUM_PREEMPT_PRIORITIES := 15 |}.

(** The main thread, at address 256, running alone. *)
Definition zephyr_init : Zephyr.state := Zephyr.State [256] 256 0 [].

(** The memory of objects not yet initialised. *)
Definition zephyr_sem : Zephyr.k_sem := Zephyr.Sem 0 0.
Definition zephyr_mutex : Zephyr.k_mutex := Zephyr.KMutex None 0.

Definition px5_cfg : Px5.Config :=
  {| Px5.OS_SELF_TASK_ID := NULL; Px5.OS_MS_TO_SYSTICKS := λ n, n |}.

Definition px5_init : Px5.state := Px5.State [256] 256 [].

Definition px5_sem : Px5.sem_t := Px5.Sem false 0.
Definition px5_mutex : Px5.pthread_mutex_t := Px5.PMutex false None.

(** The configurations os_port_cmx_rtx.h accepts: [OS_MAX_SEMAPHORES] is
    configurable, and refused by [#error] outside 1..255; the sentinel is
    255, the self task identifier 0; [OS_MS_TO_SYSTICKS] may be redefined. *)
Definition cmx_header (max_semaphores : nat) (ms_to_systicks : Z → Z)
    : CmxRtx.Config :=
  {| CmxRtx.OS_MAX_SEMAPHORES := max_semaphores;
     CmxRtx.OS_INVALID_SEMAPHORE_ID := 255;
     CmxRtx.OS_SELF_TASK_ID := 0;
     CmxRtx.OS_MS_TO_SYSTICKS := ms_to_systicks |}.

(** A table of three slots whose middle slot is free, over a kernel
    configured for 8 semaphores. *)
Definition cmx_three : CmxRtx.state :=
  CmxRtx.State [true; false; true] ∅ 8 false [].

(** A table of three slots over a kernel configured for no semaphore. *)
Definition cmx_refusing : CmxRtx.state :=
  CmxRtx.State [false; false; false] ∅ 0 false [].

(** A heap that hands out consecutive blocks up to a limit and never reuses
    them.  At each entry it notes what it watches of the kernel. *)
Record arena := Arena {
  arena_next : Z;
  arena_end : Z;
  arena_entered : list nat
}.

Definition arena_heap {K : Type} (watch : K → nat) : Heap K arena :=
  {| malloc size k a :=
       if bool_decide (0 < size ≤ arena_end a - arena_next a)
       then (arena_next a,
             Arena (arena_next a + size) (arena_end a) (arena_entered a ++ [watch k]))
       else (NULL, Arena (arena_next a) (arena_end a) (arena_entered a ++ [watch k]));
     free p k a :=
       Arena (arena_next a) (arena_end a) (arena_entered a ++ [watch k]) |}.

(** A task table of two slots, numbered from 1: the slots created and the
    slots started. *)
Record cmx_slots := CmxSlots { slots_created : nat; slots_started : list Z }.

#[global] Instance cmx_slots_kernel : CmxRtx.TaskKernel cmx_slots :=
  {| CmxRtx.K_Task_Create_Stack priority code stack_top k :=
       if bool_decide (slots_created k < 2)%nat
       then (CmxRtx.K_OK, Z.of_nat (S (slots_created k)),
             CmxSlots (S (slots_created k)) (slots_started k))
       else (CmxRtx.K_ERROR, 0, k);
     CmxRtx.K_Task_Create priority code stack_size k :=
       if bool_decide (slots_created k < 2)%nat
       then (CmxRtx.K_OK, Z.of_nat (S (slots_created k)),
             CmxSlots (S (slots_created k)) (slots_started k))
       else (CmxRtx.K_ERROR, 0, k);
     CmxRtx.K_Task_Start slot k :=
       if bool_decide (1 ≤ slot ≤ Z.of_nat (slots_created k))
       then (CmxRtx.K_OK, CmxSlots (slots_created k) (slots_started k ++ [slot]))
       else (CmxRtx.K_ERROR, k) |}.

(** Thread attributes as the three setters leave them, and a thread table
    that numbers its threads from 1 and refuses a stack size below 64. *)
Record px5_attr := Px5Attr {
  attr_stackaddr : Z;
  attr_stacksize : Z;
  attr_priority : Z
}.

#[global] Instance px5_threads_kernel : Px5.ThreadKernel px5_attr (list px5_attr) :=
  {| Px5.pthread_attr_init a := (Px5.PX5_SUCCESS, Px5Attr NULL 1024 0);
     Px5.px5_pthread_attr_setstackaddr a addr :=
       (Px5.PX5_SUCCESS, Px5Attr addr (attr_stacksize a) (attr_priority a));
     Px5.px5_pthread_attr_setstacksize a size :=
       if bool_decide (64 ≤ size)
       then (Px5.PX5_SUCCESS, Px5Attr (attr_stackaddr a) size (attr_priority a))
       else (Px5.PX5_ERROR, a);
     Px5.px5_pthread_attr_setpriority a prio :=
       (Px5.PX5_SUCCESS, Px5Attr (attr_stackaddr a) (attr_stacksize a) prio);
     Px5.px5_pthread_create a code arg k :=
       (Px5.PX5_SUCCESS, Z.of_nat (S (length k)), k ++ [a]) |}.

Definition px5_task_cfg : Px5.TaskConfig := {| Px5.OS_INVALID_TASK_ID := NULL |}.

(** ** The CMX-RTX identifier allocator *)

Section CmxAllocator.
Import CmxRtx.
Context {cfg : Config}.

Lemma cmx_alloc_loop_unfold i id table :
  osAllocateSemaphoreId_loop i id table =
  if bool_decide ((i < OS_MAX_SEMAPHORES)%nat ∧ id = OS_INVALID_SEMAPHORE_ID) then
    match table !! i with
    | Some false =>
        osAllocateSemaphoreId_loop (S i) (uint8 (Z.of_nat i)) (<[i:=true]> table)
    | _ => osAllocateSemaphoreId_loop (S i) id table
    end
  else (id, table).
Proof.
  simp osAllocateSemaphoreId_loop.
  destruct (decide _) as [H|H]; simp osAllocateSemaphoreId_loop.
  - by rewrite bool_decide_eq_true_2.
  - by rewrite bool_decide_eq_false_2.
Qed.

Lemma cmx_alloc_loop_found i id table :
  id ≠ OS_INVALID_SEMAPHORE_ID →
  osAllocateSemaphoreId_loop i id table = (id, table).
Proof.
  intros Hid. rewrite cmx_alloc_loop_unfold.
  rewrite bool_decide_eq_false_2; [done | tauto].
Qed.

(** What the scan from index [i] returns: the first free slot at or after
    [i], marked, or the sentinel and the table as it was. *)
Lemma cmx_alloc_loop_spec n : ∀ i table,
  cmx_sentinel_ok →
  length table = OS_MAX_SEMAPHORES →
  (OS_MAX_SEMAPHORES - i)%nat = n →
  let r := osAllocateSemaphoreId_loop i OS_INVALID_SEMAPHORE_ID table in
  (r = (OS_INVALID_SEMAPHORE_ID, table) ∧
     ∀ j, (i ≤ j < OS_MAX_SEMAPHORES)%nat → table !! j = Some true)
  ∨ (∃ j, (i ≤ j < OS_MAX_SEMAPHORES)%nat ∧
      r = (Z.of_nat j, <[j:=true]> table) ∧
      table !! j = Some false ∧
      ∀ k, (i ≤ k < j)%nat → table !! k = Some true).
Proof.
  unfold cmx_sentinel_ok.
  induction n as [|n IH]; intros i table Hs Hlen Hn; simpl;
    rewrite cmx_alloc_loop_unfold.
  - rewrite bool_decide_eq_false_2 by lia. left. split; [done | lia].
  - rewrite bool_decide_eq_true_2 by (split; [lia | done]).
    destruct (table !! i) as [[|]|] eqn:Hi.
    + destruct (IH (S i) table) as [[-> Hall]|(j & Hj & -> & Hfree & Hused)];
        [done | done | lia | |].
      * left. split; [done|]. intros j Hj.
        destruct (decide (j = i)) as [->|]; [done | apply Hall; lia].
      * right. exists j. refine (conj _ (conj _ (conj _ _))); [lia | done | done |].
        intros k Hk. destruct (decide (k = i)) as [->|]; [done | apply Hused; lia].
    + right. exists i. refine (conj _ (conj _ (conj _ _))); [lia | | done | lia].
      assert (uint8 (Z.of_nat i) = Z.of_nat i) as ->
        by (unfold uint8; rewrite Z.mod_small; lia).
      apply cmx_alloc_loop_found. lia.
    + apply lookup_ge_None in Hi. lia.
Qed.

Lemma cmx_alloc_spec s :
  cmx_sentinel_ok →
  length (semaphoreTable s) = OS_MAX_SEMAPHORES →
  (osAllocateSemaphoreId s = (OS_INVALID_SEMAPHORE_ID, s) ∧
     ∀ j, (j < OS_MAX_SEMAPHORES)%nat → semaphoreTable s !! j = Some true)
  ∨ (∃ j, (j < OS_MAX_SEMAPHORES)%nat ∧
      osAllocateSemaphoreId s =
        (Z.of_nat j, set_table (<[j:=true]> (semaphoreTable s)) s) ∧
      semaphoreTable s !! j = Some false ∧
      ∀ k, (k < j)%nat → semaphoreTable s !! k = Some true).
Proof.
  intros Hs Hlen. unfold osAllocateSemaphoreId.
  assert (uint8 OS_INVALID_SEMAPHORE_ID = OS_INVALID_SEMAPHORE_ID) as ->.
  { unfold uint8, cmx_sentinel_ok in *. rewrite Z.mod_small; lia. }
  destruct (cmx_alloc_loop_spec _ 0 (semaphoreTable s) Hs Hlen eq_refl)
    as [[-> Hall]|(j & Hj & -> & Hfree & Hused)].
  - left. split; [by destruct s|]. intros j Hj. apply Hall. lia.
  - right. exists j. refine (conj _ (conj _ (conj _ _))); [lia | done | done |].
    intros k Hk. apply Hused. lia.
Qed.

Lemma cmx_table_length k :
  (k ≤ OS_MAX_SEMAPHORES)%nat → length (cmx_table k) = OS_MAX_SEMAPHORES.
Proof.
  intros Hk. unfold cmx_table. rewrite length_app, !length_replicate. lia.
Qed.

Lemma cmx_table_used k j : (j < k)%nat → cmx_table k !! j = Some true.
Proof.
  intros Hj. unfold cmx_table.
  rewrite lookup_app_l by (rewrite length_replicate; lia).
  by apply lookup_replicate_2.
Qed.

Lemma cmx_table_free k j :
  (k ≤ j < OS_MAX_SEMAPHORES)%nat → cmx_table k !! j = Some false.
Proof.
  intros Hj. unfold cmx_table.
  rewrite lookup_app_r by (rewrite length_replicate; lia).
  rewrite length_replicate. apply lookup_replicate_2. lia.
Qed.

Lemma cmx_table_mark k :
  (k < OS_MAX_SEMAPHORES)%nat → <[k:=true]> (cmx_table k) = cmx_table (S k).
Proof.
  intros Hk. apply list_eq. intros j.
  destruct (decide (j = k)) as [->|Hne].
  - rewrite list_lookup_insert_eq by (rewrite cmx_table_length; lia).
    by rewrite cmx_table_used by lia.
  - rewrite list_lookup_insert_ne by done.
    destruct (decide (j < k)%nat).
    + by rewrite !cmx_table_used by lia.
    + destruct (decide (j < OS_MAX_SEMAPHORES)%nat).
      * by rewrite !cmx_table_free by lia.
      * rewrite !(proj2 (lookup_ge_None _ _)); [done | |];
          rewrite cmx_table_length; lia.
Qed.

Lemma cmx_alloc_table k s :
  cmx_sentinel_ok →
  semaphoreTable s = cmx_table k →
  (k ≤ OS_MAX_SEMAPHORES)%nat →
  osAllocateSemaphoreId s =
    if decide (k < OS_MAX_SEMAPHORES)%nat
    then (Z.of_nat k, set_table (cmx_table (S k)) s)
    else (OS_INVALID_SEMAPHORE_ID, s).
Proof.
  intros Hs Ht Hk.
  destruct (cmx_alloc_spec s Hs) as [[-> Hall]|(j & Hj & -> & Hfree & Hused)].
  - rewrite Ht. by apply cmx_table_length.
  - case_decide as Hlt; [|done].
    specialize (Hall k Hlt). rewrite Ht, cmx_table_free in Hall by lia. done.
  - rewrite Ht in Hfree, Hused.
    assert (j = k) as ->.
    { destruct (decide (j < k)%nat) as [Hlt|Hge].
      - rewrite cmx_table_used in Hfree by done. done.
      - destruct (decide (k < j)%nat) as [Hlt|?]; [|lia].
        specialize (Hused k Hlt). rewrite cmx_table_free in Hused by lia. done. }
    rewrite decide_True by done. by rewrite Ht, cmx_table_mark.
Qed.

Lemma cmx_allocate_times_table n : ∀ k s,
  cmx_sentinel_ok →
  semaphoreTable s = cmx_table k →
  (k + n ≤ OS_MAX_SEMAPHORES)%nat →
  cmx_allocate_times n s =
    (Z.of_nat <$> seq k n,
     if n is O then s else set_table (cmx_table (k + n)) s).
Proof.
  induction n as [|n IH]; intros k s Hs Ht Hk; simpl; [done|].
  rewrite (cmx_alloc_table k) by (done || lia).
  rewrite decide_True by lia.
  rewrite (IH (S k)) by (done || lia).
  f_equal. destruct n; [by rewrite Nat.add_1_r|].
  unfold set_table. simpl. do 2 f_equal. lia.
Qed.

End CmxAllocator.

(** C3 — With the sentinel a byte value outside the table
    ([OS_MAX_SEMAPHORES <= OS_INVALID_SEMAPHORE_ID <= 255]): from the all-free
    table, which is the table [osInitKernel] leaves,
    [OS_MAX_SEMAPHORES] consecutive calls of [osAllocateSemaphoreId]
    return that many pairwise distinct identifiers, each below
    [OS_MAX_SEMAPHORES], and the next call returns
    [OS_INVALID_SEMAPHORE_ID]; in every state the identifier returned is
    never one whose slot is marked in use (it is the sentinel, or a slot that
    was free and is now marked); and after [osFreeSemaphoreId] of an
    allocated identifier the next [osAllocateSemaphoreId] succeeds. *)
Theorem C3_semaphore_id_allocator {cfg : CmxRtx.Config} :
  cmx_sentinel_ok →
  (∀ s, CmxRtx.semaphoreTable (CmxRtx.osInitKernel s)
          = replicate CmxRtx.OS_MAX_SEMAPHORES false)
  ∧ (∀ s, CmxRtx.semaphoreTable s = replicate CmxRtx.OS_MAX_SEMAPHORES false →
     ∃ ids s',
       cmx_allocate_times CmxRtx.OS_MAX_SEMAPHORES s = (ids, s') ∧
       length ids = CmxRtx.OS_MAX_SEMAPHORES ∧
       NoDup ids ∧
       (∀ id, id ∈ ids → 0 ≤ id < Z.of_nat CmxRtx.OS_MAX_SEMAPHORES) ∧
       (CmxRtx.osAllocateSemaphoreId s').1 = CmxRtx.OS_INVALID_SEMAPHORE_ID)
  ∧ (∀ s id s',
       length (CmxRtx.semaphoreTable s) = CmxRtx.OS_MAX_SEMAPHORES →
       CmxRtx.osAllocateSemaphoreId s = (id, s') →
       CmxRtx.semaphoreTable s !! Z.to_nat id ≠ Some true ∧
       (id = CmxRtx.OS_INVALID_SEMAPHORE_ID ∨
        (0 ≤ id < Z.of_nat CmxRtx.OS_MAX_SEMAPHORES ∧
         CmxRtx.semaphoreTable s !! Z.to_nat id = Some false ∧
         CmxRtx.semaphoreTable s' !! Z.to_nat id = Some true)))
  ∧ (∀ s id,
       length (CmxRtx.semaphoreTable s) = CmxRtx.OS_MAX_SEMAPHORES →
       0 ≤ id →
       CmxRtx.semaphoreTable s !! Z.to_nat id = Some true →
       ∃ id' s',
         CmxRtx.osAllocateSemaphoreId (CmxRtx.osFreeSemaphoreId id s) = (id', s') ∧
         id' ≠ CmxRtx.OS_INVALID_SEMAPHORE_ID ∧
         0 ≤ id' < Z.of_nat CmxRtx.OS_MAX_SEMAPHORES).
Proof.
  intros Hs. split; [done|]. split; [|split].
  - intros s Ht.
    assert (CmxRtx.semaphoreTable s = cmx_table 0) as Ht0.
    { rewrite Ht. unfold cmx_table. simpl. by rewrite Nat.sub_0_r. }
    rewrite (cmx_allocate_times_table _ 0) by (done || lia).
    eexists _, _. split; [done|].
    split; [by rewrite length_fmap, length_seq|].
    split; [apply NoDup_fmap_2; [apply _ | apply NoDup_seq]|].
    split.
    { intros id (j & -> & Hj%elem_of_seq)%list_elem_of_fmap. lia. }
    destruct (decide (CmxRtx.OS_MAX_SEMAPHORES = 0)%nat) as [HN|HN].
    + rewrite HN. rewrite (cmx_alloc_table 0) by (done || lia).
      rewrite decide_False by lia. done.
    + replace (match CmxRtx.OS_MAX_SEMAPHORES with
               | O => s | S _ => CmxRtx.set_table (cmx_table (0 + CmxRtx.OS_MAX_SEMAPHORES)) s
               end) with (CmxRtx.set_table (cmx_table CmxRtx.OS_MAX_SEMAPHORES) s)
        by (destruct CmxRtx.OS_MAX_SEMAPHORES; done).
      rewrite (cmx_alloc_table CmxRtx.OS_MAX_SEMAPHORES) by (done || lia).
      rewrite decide_False by lia. done.
  - intros s id s' Hlen Halloc.
    destruct (cmx_alloc_spec s Hs Hlen) as [[Heq Hall]|(j & Hj & Heq & Hfree & _)];
      rewrite Heq in Halloc; injection Halloc as <- <-.
    + split; [|by left].
      rewrite (proj2 (lookup_ge_None _ _)); [done|].
      unfold cmx_sentinel_ok in Hs. lia.
    + rewrite Nat2Z.id. split; [by rewrite Hfree|].
      right. split; [lia|]. split; [done|]. simpl.
      apply list_lookup_insert_eq. lia.
  - intros s id Hlen Hid Hused.
    assert (Z.to_nat id < CmxRtx.OS_MAX_SEMAPHORES)%nat as Hlt.
    { rewrite <- Hlen. by eapply lookup_lt_Some. }
    set (s1 := CmxRtx.osFreeSemaphoreId id s).
    assert (CmxRtx.semaphoreTable s1 =
            <[Z.to_nat id:=false]> (CmxRtx.semaphoreTable s)) as Ht1.
    { unfold s1, CmxRtx.osFreeSemaphoreId.
      rewrite bool_decide_eq_true_2 by lia. done. }
    destruct (cmx_alloc_spec s1 Hs) as [[_ Hall]|(j & Hj & -> & _)].
    + by rewrite Ht1, length_insert.
    + specialize (Hall _ Hlt). rewrite Ht1 in Hall.
      rewrite list_lookup_insert_eq in Hall by lia. done.
    + eexists _, _. split; [done|].
      unfold cmx_sentinel_ok in Hs. lia.
Qed.

(** The allocator on a table of four slots. *)
Lemma C3_semaphore_id_allocator_witness :
  @cmx_sentinel_ok cmx_cfg ∧
  (∃ ids s',
     @cmx_allocate_times cmx_cfg 4 cmx_init = (ids, s') ∧
     length ids = 4%nat ∧ NoDup ids ∧ (∀ id, id ∈ ids → 0 ≤ id < 4) ∧
     (@CmxRtx.osAllocateSemaphoreId cmx_cfg s').1 = 255) ∧
  (∃ id' s',
     @CmxRtx.osAllocateSemaphoreId cmx_cfg
       (@CmxRtx.osFreeSemaphoreId cmx_cfg 2
          (@cmx_allocate_times cmx_cfg 4 cmx_init).2) = (id', s') ∧
     id' ≠ 255 ∧ 0 ≤ id' < 4).
Proof.
  assert (@cmx_sentinel_ok cmx_cfg) as Hs by (unfold cmx_sentinel_ok; simpl; lia).
  destruct (@C3_semaphore_id_allocator cmx_cfg Hs) as (_ & Hall & _ & Hfree).
  split; [exact Hs|]. split.
  - apply (Hall cmx_init). reflexivity.
  - apply Hfree; [reflexivity | lia | reflexivity].
Defined.

(** ** CMX-RTX: events, semaphores and mutexes over numbered semaphores *)

Section CmxObjects.
Import CmxRtx.
Context {cfg : Config}.

Lemma cmx_drain_unfold id s :
  do_K_Semaphore_Get_while_K_OK id s =
  let '(status, s') := K_Semaphore_Get id s in
  if bool_decide (status = K_OK) then do_K_Semaphore_Get_while_K_OK id s' else s'.
Proof.
  simp do_K_Semaphore_Get_while_K_OK.
  enough (∀ r (e : K_Semaphore_Get id s = r),
    do_K_Semaphore_Get_while_K_OK_unfold_clause_1 id s (r ↾ e) =
    let '(status, s') := r in
    if bool_decide (status = K_OK) then do_K_Semaphore_Get_while_K_OK id s' else s')
    as H by apply H.
  intros [[] s'] e; reflexivity.
Qed.

Lemma cmx_set_sems_id s : set_sems (k_sems s) s = s.
Proof. by destruct s. Qed.

(** The loop leaves the count at zero, whatever it was. *)
Lemma cmx_drain_spec n : ∀ id s,
  k_sems s !! id = Some n →
  do_K_Semaphore_Get_while_K_OK id s = set_sems (<[id:=0%nat]> (k_sems s)) s.
Proof.
  induction n as [|n IH]; intros id s Hn;
    rewrite cmx_drain_unfold; unfold K_Semaphore_Get; rewrite Hn; simpl.
  - by rewrite insert_id, cmx_set_sems_id.
  - rewrite IH by (simpl; apply lookup_insert_eq).
    simpl. by rewrite insert_insert_eq.
Qed.

Lemma cmx_post_count id n s :
  k_sems s !! id = Some n →
  K_Semaphore_Post id s = (K_OK, set_sems (<[id:=S n]> (k_sems s)) s).
Proof. intros Hn. unfold K_Semaphore_Post. by rewrite Hn. Qed.

(** Any wait on a semaphore whose count is not zero takes one unit at once. *)
Lemma cmx_take_available id timeout n s :
  k_sems s !! id = Some (S n) →
  (if bool_decide (timeout = 0)
   then Some (K_Semaphore_Get id s)
   else if bool_decide (timeout = INFINITE_DELAY)
   then K_Semaphore_Wait id 0 s
   else K_Semaphore_Wait id (OS_MS_TO_SYSTICKS timeout) s)
  = Some (K_OK, set_sems (<[id:=n]> (k_sems s)) s).
Proof.
  intros Hn. unfold K_Semaphore_Get, K_Semaphore_Wait. rewrite Hn.
  by repeat case_bool_decide.
Qed.

Lemma cmx_wait_event_signaled event timeout n s :
  k_sems s !! event_id event = Some (S n) →
  osWaitForEvent event timeout s =
    Some (TRUE, set_sems (<[event_id event:=0%nat]> (k_sems s)) s).
Proof.
  intros Hn. unfold osWaitForEvent.
  rewrite (cmx_take_available _ _ n) by done. simpl.
  rewrite (cmx_drain_spec n) by apply lookup_insert_eq.
  simpl. by rewrite insert_insert_eq.
Qed.

Lemma cmx_poll_event_nonsignaled event s :
  k_sems s !! event_id event = Some 0%nat →
  osWaitForEvent event 0 s = Some (FALSE, s).
Proof.
  intros Hn. unfold osWaitForEvent, K_Semaphore_Get. simpl. by rewrite Hn.
Qed.

Lemma cmx_event_signaled_false event s :
  event_signaled event s = Some false ↔ k_sems s !! event_id event = Some 0%nat.
Proof.
  unfold event_signaled.
  destruct (k_sems s !! event_id event) as [[|n]|]; simpl; [done| |done].
  split; intros [=].
Qed.

Lemma cmx_set_event_times k : ∀ event n s,
  k_sems s !! event_id event = Some n →
  k_sems (Nat.iter k (osSetEvent event) s) !! event_id event = Some (k + n)%nat.
Proof.
  induction k as [|k IH]; intros event n s Hn; simpl; [done|].
  unfold osSetEvent at 1.
  rewrite (cmx_post_count _ (k + n)) by by apply IH.
  simpl. apply lookup_insert_eq.
Qed.

(** A successful creation hands back the identifier of a kernel semaphore
    holding the requested count. *)
Lemma cmx_create_object (n : nat) s id s1 :
  osAllocateSemaphoreId s = (id, s1) →
  ∀ status s2,
  (if bool_decide (id ≠ OS_INVALID_SEMAPHORE_ID)
   then K_Semaphore_Create id n s1 else (K_ERROR, s1)) = (status, s2) →
  status = K_OK →
  k_sems s2 !! id = Some n.
Proof.
  intros _ status s2 Hc ->. case_bool_decide; [|done].
  unfold K_Semaphore_Create in Hc. case_bool_decide; [|done].
  injection Hc as <-. simpl. apply lookup_insert_eq.
Qed.

Lemma cmx_create_event_count s event s' :
  osCreateEvent s = (TRUE, event, s') →
  k_sems s' !! event_id event = Some 0%nat.
Proof.
  unfold osCreateEvent. destruct (osAllocateSemaphoreId s) as [id s1] eqn:Ha.
  simpl. destruct (if bool_decide _ then _ else _) as [status s2] eqn:Hc.
  destruct (decide (status = K_OK)) as [Hok|Hne];
    [rewrite bool_decide_eq_true_2 by done
    |rewrite bool_decide_eq_false_2 by done; intros; congruence].
  intros [= <- <-]. simpl.
  by eapply cmx_create_object.
Qed.

Lemma cmx_create_semaphore_count count s semaphore s' :
  osCreateSemaphore count s = (TRUE, semaphore, s') →
  k_sems s' !! semaphore_id semaphore = Some count.
Proof.
  unfold osCreateSemaphore. destruct (osAllocateSemaphoreId s) as [id s1] eqn:Ha.
  simpl. destruct (if bool_decide _ then _ else _) as [status s2] eqn:Hc.
  destruct (decide (status = K_OK)) as [Hok|Hne];
    [rewrite bool_decide_eq_true_2 by done
    |rewrite bool_decide_eq_false_2 by done; intros; congruence].
  intros [= <- <-]. simpl.
  by eapply cmx_create_object.
Qed.

Lemma cmx_create_mutex_count s mutex s' :
  osCreateMutex s = (TRUE, mutex, s') →
  k_sems s' !! mutex_id mutex = Some 1%nat.
Proof.
  unfold osCreateMutex. destruct (osAllocateSemaphoreId s) as [id s1] eqn:Ha.
  simpl. destruct (if bool_decide _ then _ else _) as [status s2] eqn:Hc.
  destruct (decide (status = K_OK)) as [Hok|Hne].
  - pose proof (cmx_create_object _ _ _ _ Ha _ _ Hc Hok) as Hn.
    rewrite bool_decide_eq_true_2 by done.
    rewrite (cmx_post_count _ 0) by done.
    rewrite bool_decide_eq_true_2 by done.
    intros [= <- <-]. simpl. apply lookup_insert_eq.
  - rewrite !bool_decide_eq_false_2 by done. intros; congruence.
Qed.

Lemma cmx_release_times k : ∀ semaphore n s,
  k_sems s !! semaphore_id semaphore = Some n →
  k_sems (Nat.iter k (osReleaseSemaphore semaphore) s) !! semaphore_id semaphore
    = Some (k + n)%nat.
Proof.
  induction k as [|k IH]; intros semaphore n s Hn; simpl; [done|].
  unfold osReleaseSemaphore at 1.
  rewrite (cmx_post_count _ (k + n)) by by apply IH.
  simpl. apply lookup_insert_eq.
Qed.

Lemma cmx_wait_semaphore_available semaphore timeout n s :
  k_sems s !! semaphore_id semaphore = Some (S n) →
  osWaitForSemaphore semaphore timeout s =
    Some (TRUE, set_sems (<[semaphore_id semaphore:=n]> (k_sems s)) s).
Proof.
  intros Hn. unfold osWaitForSemaphore.
  by rewrite (cmx_take_available _ _ n).
Qed.

Lemma cmx_wait_each_available timeouts : ∀ semaphore n s,
  k_sems s !! semaphore_id semaphore = Some (length timeouts + n)%nat →
  ∃ s', wait_each (osWaitForSemaphore semaphore) timeouts s
          = Some (replicate (length timeouts) TRUE, s') ∧
        k_sems s' !! semaphore_id semaphore = Some n.
Proof.
  induction timeouts as [|t timeouts IH]; intros semaphore n s Hn; simpl.
  - by exists s.
  - rewrite (cmx_wait_semaphore_available _ _ (length timeouts + n)) by done.
    simpl.
    destruct (IH semaphore n
      (set_sems (<[semaphore_id semaphore:=(length timeouts + n)%nat]> (k_sems s)) s))
      as (s' & -> & Hn'); [apply lookup_insert_eq|].
    simpl. by exists s'.
Qed.

End CmxObjects.

(** ** SafeRTOS: events, semaphores and mutexes over queue semaphores *)

Section SafeObjects.
Import SafeRTOS.
Context {cfg : Config}.

Lemma safe_give_room h n m s :
  k_queues s !! h = Some (Queue n m) → (n < m)%nat →
  xSemaphoreGive h s = (pdPASS, set_queues (<[h:=Queue (S n) m]> (k_queues s)) s).
Proof.
  intros Hq Hlt. unfold xSemaphoreGive. rewrite Hq. simpl.
  by rewrite bool_decide_eq_true_2.
Qed.

Lemma safe_give_full h n m s :
  k_queues s !! h = Some (Queue n m) → (m ≤ n)%nat →
  xSemaphoreGive h s = (errSEMAPHORE_ALREADY_GIVEN, s).
Proof.
  intros Hq Hle. unfold xSemaphoreGive. rewrite Hq. simpl.
  rewrite bool_decide_eq_false_2; [done | lia].
Qed.

Lemma safe_take_available h ticks n m s :
  k_queues s !! h = Some (Queue (S n) m) →
  xSemaphoreTake h ticks s =
    Some (pdPASS, set_queues (<[h:=Queue n m]> (k_queues s)) s).
Proof. intros Hq. unfold xSemaphoreTake. by rewrite Hq. Qed.

Lemma safe_take_empty h ticks m s :
  k_queues s !! h = Some (Queue 0 m) → ticks ≠ portMAX_DELAY →
  xSemaphoreTake h ticks s = Some (errSEMAPHORE_ALREADY_TAKEN, s).
Proof.
  intros Hq Ht. unfold xSemaphoreTake. rewrite Hq.
  by rewrite bool_decide_eq_false_2.
Qed.

Lemma safe_wait_event_available event timeout n m s :
  k_queues s !! event_handle event = Some (Queue (S n) m) →
  osWaitForEvent event timeout s =
    Some (TRUE, set_queues (<[event_handle event:=Queue n m]> (k_queues s)) s).
Proof.
  intros Hq. unfold osWaitForEvent.
  rewrite !(safe_take_available _ _ n m) by done.
  by case_bool_decide.
Qed.

Lemma safe_poll_event_empty event m s :
  k_queues s !! event_handle event = Some (Queue 0 m) →
  osWaitForEvent event 0 s = Some (FALSE, s).
Proof.
  intros Hq. unfold osWaitForEvent.
  rewrite bool_decide_eq_false_2 by done.
  by rewrite (safe_take_empty _ _ m).
Qed.

Lemma safe_event_signaled_false event s :
  event_signaled event s = Some false ↔
  k_queues s !! event_handle event = Some (Queue 0 1).
Proof.
  unfold event_signaled.
  destruct (k_queues s !! event_handle event) as [[[|[|n]] [|[|m]]]|];
    split; intros [=]; done.
Qed.

Lemma safe_event_signaled_some event s :
  is_Some (event_signaled event s) ↔
  ∃ n, (n ≤ 1)%nat ∧ k_queues s !! event_handle event = Some (Queue n 1).
Proof.
  unfold event_signaled. split.
  - intros Hs.
    destruct (k_queues s !! event_handle event) as [[[|[|n]] [|[|m]]]|];
      try (by destruct Hs as [? [=]]).
    + exists 0%nat. split; [lia | done].
    + exists 1%nat. split; [lia | done].
  - intros (n & Hn & ->). destruct n as [|[|n]]; [by eexists | by eexists | lia].
Qed.

(** A binary semaphore stays a binary semaphore when given. *)
Lemma safe_set_event_binary event s :
  is_Some (event_signaled event s) →
  is_Some (event_signaled event (osSetEvent event s)).
Proof.
  rewrite !safe_event_signaled_some. intros (n & Hn & Hq). unfold osSetEvent.
  destruct (decide (n = 0)%nat) as [->|].
  - rewrite (safe_give_room _ 0 1) by (done || lia). simpl.
    exists 1%nat. split; [lia | apply lookup_insert_eq].
  - rewrite (safe_give_full _ n 1) by (done || lia). simpl.
    exists n. split; [lia | done].
Qed.

Lemma safe_set_event_times k event s :
  is_Some (event_signaled event s) →
  is_Some (event_signaled event (Nat.iter k (osSetEvent event) s)).
Proof.
  intros Hs. induction k as [|k IH]; simpl; [done|].
  by apply safe_set_event_binary.
Qed.

(** One take empties a binary semaphore. *)
Lemma safe_reset_event event s :
  is_Some (event_signaled event s) →
  ∃ s', osResetEvent event s = Some s' ∧ event_signaled event s' = Some false.
Proof.
  rewrite safe_event_signaled_some. intros (n & Hn & Hq). unfold osResetEvent.
  destruct n as [|n].
  - rewrite (safe_take_empty _ _ 1) by done. simpl.
    exists s. split; [done|]. by apply safe_event_signaled_false.
  - rewrite (safe_take_available _ _ n 1) by done. simpl.
    eexists. split; [done|]. apply safe_event_signaled_false. simpl.
    rewrite lookup_insert_eq. do 2 f_equal. lia.
Qed.

Lemma safe_create_binary p s status handle s' :
  xSemaphoreCreateBinary p s = (status, handle, s') →
  status = pdPASS →
  handle = p ∧
  s' = set_queues
         (<[p:=Queue (if binaryCreatedGiven then 1 else 0) 1]> (k_queues s)) s.
Proof.
  unfold xSemaphoreCreateBinary. repeat case_bool_decide; intros [= <- <- <-]; done.
Qed.

Lemma safe_create_event_total event s :
  is_Some (osCreateEvent event s).
Proof.
  unfold osCreateEvent.
  destruct (xSemaphoreCreateBinary _ s) as [[status handle] s1] eqn:Hc.
  destruct (decide (status = pdPASS)) as [Hok|Hne].
  - rewrite bool_decide_eq_true_2 by done.
    destruct (safe_create_binary _ _ _ _ _ Hc Hok) as [-> ->]. simpl.
    unfold xSemaphoreTake. simpl. rewrite lookup_insert_eq.
    destruct binaryCreatedGiven; simpl; done.
  - by rewrite bool_decide_eq_false_2.
Qed.

(** Whether or not the kernel hands the binary semaphore over available, the
    event leaves [osCreateEvent] empty. *)
Lemma safe_create_event_empty event s event' s' :
  osCreateEvent event s = Some (TRUE, event', s') →
  k_queues s' !! event_handle event' = Some (Queue 0 1).
Proof.
  unfold osCreateEvent.
  destruct (xSemaphoreCreateBinary _ s) as [[status handle] s1] eqn:Hc.
  destruct (decide (status = pdPASS)) as [Hok|Hne].
  - rewrite bool_decide_eq_true_2 by done.
    destruct (safe_create_binary _ _ _ _ _ Hc Hok) as [-> ->]. simpl.
    unfold xSemaphoreTake. simpl. rewrite lookup_insert_eq.
    destruct binaryCreatedGiven; simpl; intros [= <- <-]; simpl.
    + by rewrite lookup_insert_eq.
    + by rewrite lookup_insert_eq.
  - rewrite bool_decide_eq_false_2 by done. intros; congruence.
Qed.

Lemma safe_create_semaphore_full semaphore count s semaphore' s' :
  osCreateSemaphore semaphore count s = (TRUE, semaphore', s') →
  (1 ≤ count)%nat ∧
  k_queues s' !! semaphore_handle semaphore' = Some (Queue count count).
Proof.
  unfold osCreateSemaphore, xSemaphoreCreateCounting.
  repeat case_bool_decide; simpl; try (intros; congruence).
  intros [= <- <-]. simpl. split; [lia | apply lookup_insert_eq].
Qed.

Lemma safe_release_full_times k semaphore n s :
  k_queues s !! semaphore_handle semaphore = Some (Queue n n) →
  Nat.iter k (osReleaseSemaphore semaphore) s = s.
Proof.
  intros Hq. induction k as [|k IH]; simpl; [done|].
  rewrite IH. unfold osReleaseSemaphore.
  by rewrite (safe_give_full _ n n).
Qed.

Lemma safe_wait_semaphore_available semaphore timeout n m s :
  k_queues s !! semaphore_handle semaphore = Some (Queue (S n) m) →
  osWaitForSemaphore semaphore timeout s =
    Some (TRUE, set_queues (<[semaphore_handle semaphore:=Queue n m]> (k_queues s)) s).
Proof.
  intros Hq. unfold osWaitForSemaphore.
  rewrite !(safe_take_available _ _ n m) by done.
  by case_bool_decide.
Qed.

Lemma safe_poll_semaphore_empty semaphore m s :
  k_queues s !! semaphore_handle semaphore = Some (Queue 0 m) →
  osWaitForSemaphore semaphore 0 s = Some (FALSE, s).
Proof.
  intros Hq. unfold osWaitForSemaphore.
  rewrite bool_decide_eq_false_2 by done.
  by rewrite (safe_take_empty _ _ m).
Qed.

Lemma safe_wait_each_available timeouts : ∀ semaphore n m s,
  k_queues s !! semaphore_handle semaphore = Some (Queue (length timeouts + n) m) →
  ∃ s', wait_each (osWaitForSemaphore semaphore) timeouts s
          = Some (replicate (length timeouts) TRUE, s') ∧
        k_queues s' !! semaphore_handle semaphore = Some (Queue n m).
Proof.
  induction timeouts as [|t timeouts IH]; intros semaphore n m s Hq; simpl.
  - by exists s.
  - rewrite (safe_wait_semaphore_available _ _ (length timeouts + n) m) by done.
    simpl.
    edestruct (IH semaphore n m) as (s' & -> & Hq'); [apply lookup_insert_eq|].
    simpl. by exists s'.
Qed.

(** Whether or not the kernel hands the binary semaphore over available, the
    mutex leaves [osCreateMutex] available. *)
Lemma safe_create_mutex_available mutex s mutex' s' :
  osCreateMutex mutex s = (TRUE, mutex', s') →
  k_queues s' !! mutex_handle mutex' = Some (Queue 1 1).
Proof.
  unfold osCreateMutex.
  destruct (xSemaphoreCreateBinary _ s) as [[status handle] s1] eqn:Hc.
  destruct (decide (status = pdPASS)) as [Hok|Hne].
  - rewrite bool_decide_eq_true_2 by done.
    destruct (safe_create_binary _ _ _ _ _ Hc Hok) as [-> ->]. simpl.
    unfold xSemaphoreGive. simpl. rewrite lookup_insert_eq.
    destruct binaryCreatedGiven; simpl; intros [= <- <-]; simpl.
    + by rewrite lookup_insert_eq.
    + by rewrite lookup_insert_eq.
  - rewrite bool_decide_eq_false_2 by done. intros; congruence.
Qed.

End SafeObjects.

(** ** Zephyr: events, semaphores and mutexes as kernel objects *)

Section ZephyrObjects.
Import Zephyr.

Lemma zephyr_wait_event_available event timeout n :
  count event = S n →
  osWaitForEvent event timeout = Some (TRUE, Sem n (limit event)).
Proof.
  intros Hc. unfold osWaitForEvent, k_sem_take. rewrite Hc.
  by repeat case_bool_decide.
Qed.

Lemma zephyr_event_signaled_some event :
  is_Some (event_signaled event) ↔ event = Sem 0 1 ∨ event = Sem 1 1.
Proof.
  unfold event_signaled. split.
  - intros Hs. destruct event as [[|[|n]] [|[|m]]];
      try (by destruct Hs as [? [=]]); auto.
  - intros [->| ->]; by eexists.
Qed.

Lemma zephyr_set_event_binary event :
  is_Some (event_signaled event) → osSetEvent event = Sem 1 1.
Proof. rewrite zephyr_event_signaled_some. by intros [->| ->]. Qed.

Lemma zephyr_set_event_times k event :
  is_Some (event_signaled event) →
  is_Some (event_signaled (Nat.iter k osSetEvent event)).
Proof.
  intros Hs. induction k as [|k IH]; simpl; [done|].
  rewrite (zephyr_set_event_binary _ IH). by eexists.
Qed.

Lemma zephyr_reset_event event :
  is_Some (event_signaled event) → osResetEvent event = Sem 0 1.
Proof. rewrite zephyr_event_signaled_some. by intros [->| ->]. Qed.

Lemma zephyr_create_semaphore_full semaphore c semaphore' :
  osCreateSemaphore semaphore c = (TRUE, semaphore') →
  (1 ≤ c)%nat ∧ semaphore' = Sem c c.
Proof.
  unfold osCreateSemaphore, k_sem_init. case_bool_decide; simpl.
  - intros; congruence.
  - intros [= <-]. split; [lia | done].
Qed.

Lemma zephyr_release_full_times k c :
  Nat.iter k osReleaseSemaphore (Sem c c) = Sem c c.
Proof.
  induction k as [|k IH]; simpl; [done|]. rewrite IH.
  unfold osReleaseSemaphore, k_sem_give. simpl.
  by rewrite bool_decide_eq_false_2 by (intros ?; done).
Qed.

Lemma zephyr_wait_semaphore_available timeout n m :
  osWaitForSemaphore (Sem (S n) m) timeout = Some (TRUE, Sem n m).
Proof. unfold osWaitForSemaphore, k_sem_take. by repeat case_bool_decide. Qed.

Lemma zephyr_wait_each_available timeouts : ∀ n m,
  wait_each (flip osWaitForSemaphore) timeouts (Sem (length timeouts + n) m)
    = Some (replicate (length timeouts) TRUE, Sem n m).
Proof.
  induction timeouts as [|t timeouts IH]; intros n m; simpl; [done|].
  unfold flip at 1. rewrite zephyr_wait_semaphore_available. simpl.
  by rewrite IH.
Qed.

End ZephyrObjects.

(** ** PX5: events, semaphores and mutexes as kernel objects *)

Section Px5Objects.
Import Px5.
Context {cfg : Config}.

Lemma px5_drain_unfold event :
  do_px5_sem_trywait_while_PX5_SUCCESS event =
  let '(ret, event') := px5_sem_trywait event in
  if bool_decide (ret = PX5_SUCCESS)
  then do_px5_sem_trywait_while_PX5_SUCCESS event'
  else event'.
Proof.
  simp do_px5_sem_trywait_while_PX5_SUCCESS.
  enough (∀ r (e : px5_sem_trywait event = r),
    do_px5_sem_trywait_while_PX5_SUCCESS_unfold_clause_1 event (r ↾ e) =
    let '(ret, event') := r in
    if bool_decide (ret = PX5_SUCCESS)
    then do_px5_sem_trywait_while_PX5_SUCCESS event'
    else event') as H by apply H.
  intros [ret event'] e. simpl.
  destruct (decide _); simpl; case_bool_decide; done.
Qed.

(** The loop leaves the count at zero, whatever it was. *)
Lemma px5_drain_spec n :
  do_px5_sem_trywait_while_PX5_SUCCESS (Sem true n) = Sem true 0.
Proof.
  induction n as [|n IH]; rewrite px5_drain_unfold; simpl; done.
Qed.

Lemma px5_take_available timeout n :
  (if bool_decide (timeout = 0) then Some (px5_sem_trywait (Sem true (S n)))
   else if bool_decide (timeout = INFINITE_DELAY) then px5_sem_wait (Sem true (S n))
   else Some (px5_sem_timedwait (Sem true (S n)) (OS_MS_TO_SYSTICKS timeout)))
  = Some (PX5_SUCCESS, Sem true n).
Proof. by repeat case_bool_decide. Qed.

Lemma px5_wait_event_signaled timeout n :
  osWaitForEvent (Sem true (S n)) timeout = Some (TRUE, Sem true 0).
Proof.
  unfold osWaitForEvent. rewrite px5_take_available. simpl.
  by rewrite px5_drain_spec.
Qed.

Lemma px5_event_signaled_some event :
  is_Some (event_signaled event) ↔ ∃ n, event = Sem true n.
Proof.
  unfold event_signaled. destruct event as [[] n]; simpl; split.
  - by exists n.
  - by eexists.
  - by intros [? [=]].
  - by intros [? [=]].
Qed.

Lemma px5_set_event_times k : ∀ n,
  Nat.iter k osSetEvent (Sem true n) = Sem true (k + n).
Proof.
  induction k as [|k IH]; intros n; simpl; [done|]. by rewrite IH.
Qed.

Lemma px5_release_times k : ∀ n,
  Nat.iter k osReleaseSemaphore (Sem true n) = Sem true (k + n).
Proof.
  induction k as [|k IH]; intros n; simpl; [done|]. by rewrite IH.
Qed.

Lemma px5_wait_semaphore_available timeout n :
  osWaitForSemaphore (Sem true (S n)) timeout = Some (TRUE, Sem true n).
Proof. unfold osWaitForSemaphore. by rewrite px5_take_available. Qed.

Lemma px5_wait_each_available timeouts : ∀ n,
  wait_each (flip osWaitForSemaphore) timeouts (Sem true (length timeouts + n))
    = Some (replicate (length timeouts) TRUE, Sem true n).
Proof.
  induction timeouts as [|t timeouts IH]; intros n; simpl; [done|].
  unfold flip at 1. rewrite px5_wait_semaphore_available. simpl. by rewrite IH.
Qed.

End Px5Objects.

(** ** The wait on an event, call by call *)

Section EventCalls.






End EventCalls.

(** ** Events *)

(** C4 — After every successful [osCreateEvent] the event is nonsignaled: a
    wait with timeout 0 right after creation returns FALSE.  On SafeRTOS
    this holds whether or not the kernel creates its binary semaphore
    available (the port takes it once at creation), and [osCreateEvent]
    itself always returns. *)
Theorem C4_event_created_nonsignaled :
  (∀ (cfg : CmxRtx.Config) s event s',
     CmxRtx.osCreateEvent s = (TRUE, event, s') →
     CmxRtx.event_signaled event s' = Some false ∧
     CmxRtx.osWaitForEvent event 0 s' = Some (FALSE, s'))
  ∧ (∀ (cfg : SafeRTOS.Config) event s,
     is_Some (SafeRTOS.osCreateEvent event s) ∧
     ∀ event' s',
       SafeRTOS.osCreateEvent event s = Some (TRUE, event', s') →
       SafeRTOS.event_signaled event' s' = Some false ∧
       SafeRTOS.osWaitForEvent event' 0 s' = Some (FALSE, s'))
  ∧ (∀ event event',
     Zephyr.osCreateEvent event = (TRUE, event') →
     Zephyr.event_signaled event' = Some false ∧
     Zephyr.osWaitForEvent event' 0 = Some (FALSE, event'))
  ∧ (∀ (cfg : Px5.Config) event event',
     Px5.osCreateEvent event = (TRUE, event') →
     Px5.event_signaled event' = Some false ∧
     Px5.osWaitForEvent event' 0 = Some (FALSE, event')).
Proof.
  split; [|split; [|split]].
  - intros cfg s event s' Hc%cmx_create_event_count.
    split; [by apply cmx_event_signaled_false | by apply cmx_poll_event_nonsignaled].
  - intros cfg event s. split; [apply safe_create_event_total|].
    intros event' s' Hc%safe_create_event_empty.
    split; [by apply safe_event_signaled_false | by eapply safe_poll_event_empty].
  - intros event event' [= <-]. done.
  - intros cfg event event' [= <-]. done.
Qed.

(** Creation from the initial state of each port, then a poll. *)
Lemma C4_event_created_nonsignaled_witness :
  (let '(_, event, s') := @CmxRtx.osCreateEvent cmx_cfg cmx_init in
   @CmxRtx.osWaitForEvent cmx_cfg event 0 s' = Some (FALSE, s'))
  ∧ (match @SafeRTOS.osCreateEvent (safe_cfg true) safe_event safe_init with
     | Some (_, event, s') => SafeRTOS.osWaitForEvent event 0 s' = Some (FALSE, s')
     | None => False
     end)
  ∧ (match @SafeRTOS.osCreateEvent (safe_cfg false) safe_event safe_init with
     | Some (_, event, s') => SafeRTOS.osWaitForEvent event 0 s' = Some (FALSE, s')
     | None => False
     end)
  ∧ Zephyr.osWaitForEvent (Zephyr.osCreateEvent zephyr_sem).2 0
      = Some (FALSE, (Zephyr.osCreateEvent zephyr_sem).2)
  ∧ @Px5.osWaitForEvent px5_cfg (Px5.osCreateEvent px5_sem).2 0
      = Some (FALSE, (Px5.osCreateEvent px5_sem).2).
Proof.
  destruct C4_event_created_nonsignaled as (Hc & Hs & Hz & Hp).
  split; [|split; [|split; [|split]]].
  - apply (Hc cmx_cfg cmx_init). reflexivity.
  - apply (Hs (safe_cfg true) safe_event safe_init). reflexivity.
  - apply (Hs (safe_cfg false) safe_event safe_init). reflexivity.
  - apply (Hz zephyr_sem). reflexivity.
  - apply (Hp px5_cfg px5_sem). reflexivity.
Defined.




(** C5 — For every existing event and every number [k] of [osSetEvent]
    calls without a wait in between, [osResetEvent] followed by a wait with
    timeout 0 returns FALSE.  The CMX-RTX and PX5 ports drain the counting
    semaphore in a loop; the SafeRTOS port takes once, and the Zephyr port
    resets, a semaphore that holds at most one unit. *)
Theorem C5_reset_then_poll_times_out :
  (∀ (cfg : CmxRtx.Config) event s k,
     is_Some (CmxRtx.event_signaled event s) →
     let s' := CmxRtx.osResetEvent event (Nat.iter k (CmxRtx.osSetEvent event) s) in
     CmxRtx.event_signaled event s' = Some false ∧
     CmxRtx.osWaitForEvent event 0 s' = Some (FALSE, s'))
  ∧ (∀ event s k,
     is_Some (SafeRTOS.event_signaled event s) →
     ∃ s',
       SafeRTOS.osResetEvent event (Nat.iter k (SafeRTOS.osSetEvent event) s)
         = Some s' ∧
       SafeRTOS.event_signaled event s' = Some false ∧
       SafeRTOS.osWaitForEvent event 0 s' = Some (FALSE, s'))
  ∧ (∀ event k,
     is_Some (Zephyr.event_signaled event) →
     let event' := Zephyr.osResetEvent (Nat.iter k Zephyr.osSetEvent event) in
     Zephyr.event_signaled event' = Some false ∧
     Zephyr.osWaitForEvent event' 0 = Some (FALSE, event'))
  ∧ (∀ (cfg : Px5.Config) event k,
     is_Some (Px5.event_signaled event) →
     let event' := Px5.osResetEvent (Nat.iter k Px5.osSetEvent event) in
     Px5.event_signaled event' = Some false ∧
     Px5.osWaitForEvent event' 0 = Some (FALSE, event')).
Proof.
  split; [|split; [|split]].
  - intros cfg event s k [b Hb]. unfold CmxRtx.event_signaled in Hb.
    destruct (CmxRtx.k_sems s !! CmxRtx.event_id event) as [n|] eqn:Hn; [|done].
    pose proof (cmx_set_event_times k _ _ _ Hn) as Hk.
    simpl. unfold CmxRtx.osResetEvent. rewrite (cmx_drain_spec _ _ _ Hk).
    split; [apply cmx_event_signaled_false | apply cmx_poll_event_nonsignaled];
      apply lookup_insert_eq.
  - intros event s k Hs.
    destruct (safe_reset_event event _ (safe_set_event_times k _ _ Hs))
      as (s' & Hr & Hn).
    exists s'. split; [done|]. split; [done|].
    apply safe_event_signaled_false in Hn. by eapply safe_poll_event_empty.
  - intros event k Hs event'. subst event'.
    rewrite (zephyr_reset_event _ (zephyr_set_event_times k _ Hs)).
    split; reflexivity.
  - intros cfg event k [n ->]%px5_event_signaled_some event'. subst event'.
    rewrite px5_set_event_times. unfold Px5.osResetEvent.
    rewrite px5_drain_spec. split; reflexivity.
Qed.

(** Three sets on a created event of each port, a reset, then a poll. *)
Lemma C5_reset_then_poll_times_out_witness :
  (let '(_, event, s) := @CmxRtx.osCreateEvent cmx_cfg cmx_init in
   let s' := CmxRtx.osResetEvent event (Nat.iter 3 (CmxRtx.osSetEvent event) s) in
   @CmxRtx.osWaitForEvent cmx_cfg event 0 s' = Some (FALSE, s'))
  ∧ (match @SafeRTOS.osCreateEvent (safe_cfg true) safe_event safe_init with
     | Some (_, event, s) =>
         ∃ s',
           SafeRTOS.osResetEvent event (Nat.iter 3 (SafeRTOS.osSetEvent event) s)
             = Some s' ∧
           SafeRTOS.event_signaled event s' = Some false ∧
           SafeRTOS.osWaitForEvent event 0 s' = Some (FALSE, s')
     | None => False
     end)
  ∧ (let event' :=
       Zephyr.osResetEvent
         (Nat.iter 3 Zephyr.osSetEvent (Zephyr.osCreateEvent zephyr_sem).2) in
     Zephyr.osWaitForEvent event' 0 = Some (FALSE, event'))
  ∧ (let event' :=
       Px5.osResetEvent (Nat.iter 3 Px5.osSetEvent (Px5.osCreateEvent px5_sem).2) in
     @Px5.osWaitForEvent px5_cfg event' 0 = Some (FALSE, event')).
Proof.
  destruct C5_reset_then_poll_times_out as (Hc & Hs & Hz & Hp).
  split; [|split; [|split]].
  - apply (Hc cmx_cfg). by eexists.
  - apply Hs. by eexists.
  - apply Hz. by eexists.
  - apply (Hp px5_cfg). by eexists.
Defined.

(** ** Mutexes *)

(** C6 — After every successful [osCreateMutex] the mutex is available: the
    first [osAcquireMutex] returns without blocking and has taken the mutex,
    the kernel call under it reporting success.  The CMX-RTX and SafeRTOS
    ports, which build the mutex from a semaphore, leave that semaphore with
    exactly one unit after creation, and the acquisition takes that unit; on
    Zephyr and PX5 the new mutex has no owner, and the acquisition makes the
    caller its owner. *)
Theorem C6_mutex_created_available :
  (∀ (cfg : CmxRtx.Config) s mutex s',
     CmxRtx.osCreateMutex s = (TRUE, mutex, s') →
     CmxRtx.k_sems s' !! CmxRtx.mutex_id mutex = Some 1%nat ∧
     CmxRtx.K_Semaphore_Wait (CmxRtx.mutex_id mutex) 0 s'
       = Some (CmxRtx.K_OK,
               CmxRtx.set_sems (<[CmxRtx.mutex_id mutex:=0%nat]> (CmxRtx.k_sems s')) s') ∧
     CmxRtx.osAcquireMutex mutex s'
       = Some (CmxRtx.set_sems (<[CmxRtx.mutex_id mutex:=0%nat]> (CmxRtx.k_sems s')) s'))
  ∧ (∀ (cfg : SafeRTOS.Config) mutex s mutex' s',
     SafeRTOS.osCreateMutex mutex s = (TRUE, mutex', s') →
     SafeRTOS.k_queues s' !! SafeRTOS.mutex_handle mutex' = Some (SafeRTOS.Queue 1 1) ∧
     SafeRTOS.xSemaphoreTake (SafeRTOS.mutex_handle mutex') SafeRTOS.portMAX_DELAY s'
       = Some (SafeRTOS.pdPASS,
               SafeRTOS.set_queues
                 (<[SafeRTOS.mutex_handle mutex':=SafeRTOS.Queue 0 1]>
                    (SafeRTOS.k_queues s')) s') ∧
     SafeRTOS.osAcquireMutex mutex' s'
       = Some (SafeRTOS.set_queues
                 (<[SafeRTOS.mutex_handle mutex':=SafeRTOS.Queue 0 1]>
                    (SafeRTOS.k_queues s')) s'))
  ∧ (∀ mutex mutex' s,
     Zephyr.osCreateMutex mutex = (TRUE, mutex') →
     mutex' = Zephyr.KMutex None 0 ∧
     Zephyr.k_mutex_lock mutex' Zephyr.K_FOREVER s
       = Some (0, Zephyr.KMutex (Some (Zephyr.k_current_get s)) 1) ∧
     Zephyr.osAcquireMutex mutex' s
       = Some (Zephyr.KMutex (Some (Zephyr.k_current_get s)) 1))
  ∧ (∀ mutex mutex' s,
     Px5.osCreateMutex mutex = (TRUE, mutex') →
     mutex' = Px5.PMutex true None ∧
     Px5.px5_pthread_mutex_lock mutex' s
       = Some (Px5.PX5_SUCCESS, Px5.PMutex true (Some (Px5.k_current s))) ∧
     Px5.osAcquireMutex mutex' s = Some (Px5.PMutex true (Some (Px5.k_current s)))).
Proof.
  split; [|split; [|split]].
  - intros cfg s mutex s' Hc%cmx_create_mutex_count. split; [done|].
    unfold CmxRtx.osAcquireMutex, CmxRtx.K_Semaphore_Wait. rewrite Hc. done.
  - intros cfg mutex s mutex' s' Hc%safe_create_mutex_available. split; [done|].
    unfold SafeRTOS.osAcquireMutex.
    rewrite (safe_take_available _ _ 0 1) by done. done.
  - intros mutex mutex' s [= <-]. done.
  - intros mutex mutex' s [= <-]. done.
Qed.

(** A mutex created from the initial state of each port, then acquired: the
    semaphore of the CMX-RTX and SafeRTOS ports is left empty, and the main
    thread, at address 256, owns the Zephyr and PX5 mutexes. *)
Lemma C6_mutex_created_available_witness :
  (let '(_, mutex, s') := @CmxRtx.osCreateMutex cmx_cfg cmx_init in
   CmxRtx.osAcquireMutex mutex s'
     = Some (CmxRtx.set_sems (<[CmxRtx.mutex_id mutex:=0%nat]> (CmxRtx.k_sems s')) s'))
  ∧ (let '(_, mutex, s') :=
       @SafeRTOS.osCreateMutex (safe_cfg false) safe_mutex safe_init in
     SafeRTOS.osAcquireMutex mutex s'
       = Some (SafeRTOS.set_queues
                 (<[SafeRTOS.mutex_handle mutex:=SafeRTOS.Queue 0 1]>
                    (SafeRTOS.k_queues s')) s'))
  ∧ Zephyr.osAcquireMutex (Zephyr.osCreateMutex zephyr_mutex).2 zephyr_init
      = Some (Zephyr.KMutex (Some 256) 1)
  ∧ Px5.osAcquireMutex (Px5.osCreateMutex px5_mutex).2 px5_init
      = Some (Px5.PMutex true (Some 256)).
Proof.
  destruct C6_mutex_created_available as (Hc & Hs & Hz & Hp).
  split; [|split; [|split]].
  - apply (Hc cmx_cfg cmx_init). reflexivity.
  - apply (Hs (safe_cfg false) safe_mutex safe_init). reflexivity.
  - apply (Hz zephyr_mutex _ zephyr_init). reflexivity.
  - apply (Hp px5_mutex _ px5_init). reflexivity.
Defined.

(** ** Semaphores *)

(** C2 — the claim's sequence on each port.  For every capacity [c >= 1],
    after a successful [osCreateSemaphore] and [c] releases, the next [c]
    waits return TRUE on every port.  The wait after those: on SafeRTOS and
    Zephyr, which hand [count] to the kernel as the ceiling as well as the
    initial count, the releases left the count at [c], and that wait returns
    FALSE with every timeout other than [INFINITE_DELAY] and does not return
    with [INFINITE_DELAY]; on PX5 and CMX-RTX, which hand [count] to the
    kernel as the initial count only, the releases raised the count to [2c],
    above what the comment of [osCreateSemaphore] calls the maximum count,
    and that wait returns TRUE with every timeout. *)
Theorem C2_semaphore_release_then_wait :
  (∀ (cfg : SafeRTOS.Config) semaphore (c : nat) s semaphore' s1 timeouts,
     (1 ≤ c)%nat →
     SafeRTOS.osCreateSemaphore semaphore c s = (TRUE, semaphore', s1) →
     length timeouts = c →
     SafeRTOS.k_queues s1 !! SafeRTOS.semaphore_handle semaphore'
       = Some (SafeRTOS.Queue c c) ∧
     SafeRTOS.k_queues (Nat.iter c (SafeRTOS.osReleaseSemaphore semaphore') s1)
       !! SafeRTOS.semaphore_handle semaphore' = Some (SafeRTOS.Queue c c) ∧
     ∃ s2,
       wait_each (SafeRTOS.osWaitForSemaphore semaphore') timeouts
         (Nat.iter c (SafeRTOS.osReleaseSemaphore semaphore') s1)
         = Some (replicate c TRUE, s2) ∧
       (∀ timeout, timeout ≠ INFINITE_DELAY →
          SafeRTOS.osWaitForSemaphore semaphore' timeout s2 = Some (FALSE, s2)) ∧
       SafeRTOS.osWaitForSemaphore semaphore' INFINITE_DELAY s2 = None)
  ∧ (∀ semaphore (c : nat) semaphore' timeouts,
     (1 ≤ c)%nat →
     Zephyr.osCreateSemaphore semaphore c = (TRUE, semaphore') →
     length timeouts = c →
     semaphore' = Zephyr.Sem c c ∧
     Nat.iter c Zephyr.osReleaseSemaphore semaphore' = Zephyr.Sem c c ∧
     ∃ semaphore2,
       wait_each (flip Zephyr.osWaitForSemaphore) timeouts
         (Nat.iter c Zephyr.osReleaseSemaphore semaphore')
         = Some (replicate c TRUE, semaphore2) ∧
       (∀ timeout, timeout ≠ INFINITE_DELAY →
          Zephyr.osWaitForSemaphore semaphore2 timeout = Some (FALSE, semaphore2)) ∧
       Zephyr.osWaitForSemaphore semaphore2 INFINITE_DELAY = None)
  ∧ (∀ (cfg : Px5.Config) semaphore (c : nat) semaphore' timeouts,
     (1 ≤ c)%nat →
     Px5.osCreateSemaphore semaphore c = (TRUE, semaphore') →
     length timeouts = c →
     semaphore' = Px5.Sem true c ∧
     Nat.iter c Px5.osReleaseSemaphore semaphore' = Px5.Sem true (2 * c) ∧
     wait_each (flip Px5.osWaitForSemaphore) timeouts
       (Nat.iter c Px5.osReleaseSemaphore semaphore')
       = Some (replicate c TRUE, Px5.Sem true c) ∧
     ∀ timeout,
       Px5.osWaitForSemaphore (Px5.Sem true c) timeout
         = Some (TRUE, Px5.Sem true (Nat.pred c)))
  ∧ (∀ (cfg : CmxRtx.Config) (c : nat) s semaphore s1 timeouts,
     (1 ≤ c)%nat →
     CmxRtx.osCreateSemaphore c s = (TRUE, semaphore, s1) →
     length timeouts = c →
     CmxRtx.k_sems s1 !! CmxRtx.semaphore_id semaphore = Some c ∧
     CmxRtx.k_sems (Nat.iter c (CmxRtx.osReleaseSemaphore semaphore) s1)
       !! CmxRtx.semaphore_id semaphore = Some (2 * c)%nat ∧
     ∃ s2,
       wait_each (CmxRtx.osWaitForSemaphore semaphore) timeouts
         (Nat.iter c (CmxRtx.osReleaseSemaphore semaphore) s1)
         = Some (replicate c TRUE, s2) ∧
       CmxRtx.k_sems s2 !! CmxRtx.semaphore_id semaphore = Some c ∧
       ∀ timeout,
         CmxRtx.osWaitForSemaphore semaphore timeout s2
           = Some (TRUE,
                   CmxRtx.set_sems
                     (<[CmxRtx.semaphore_id semaphore:=Nat.pred c]> (CmxRtx.k_sems s2))
                     s2)).
Proof.
  split; [|split; [|split]].
  - intros cfg semaphore c s semaphore' s1 timeouts Hc Hcr <-.
    apply safe_create_semaphore_full in Hcr as [_ Hq]. split; [done|].
    rewrite (safe_release_full_times _ _ _ _ Hq). split; [done|].
    destruct (safe_wait_each_available timeouts semaphore' 0 (length timeouts) s1)
      as (s2 & Hw & Hq2); [by rewrite Nat.add_0_r|].
    exists s2. split; [done|]. split.
    + intros timeout Hinf. unfold SafeRTOS.osWaitForSemaphore.
      rewrite (bool_decide_eq_false_2 (timeout = INFINITE_DELAY)) by done.
      by rewrite (safe_take_empty _ _ (length timeouts)).
    + unfold SafeRTOS.osWaitForSemaphore, SafeRTOS.xSemaphoreTake.
      by rewrite Hq2.
  - intros semaphore c semaphore' timeouts Hc Hcr <-.
    apply zephyr_create_semaphore_full in Hcr as [_ ->]. split; [done|].
    rewrite zephyr_release_full_times. split; [done|].
    exists (Zephyr.Sem 0 (length timeouts)). split; [|split].
    + rewrite <- (Nat.add_0_r (length timeouts)) at 1.
      apply zephyr_wait_each_available.
    + intros timeout Hinf. unfold Zephyr.osWaitForSemaphore.
      rewrite (bool_decide_eq_false_2 (timeout = INFINITE_DELAY)) by done.
      by case_bool_decide.
    + done.
  - intros cfg semaphore c semaphore' timeouts Hc [= <-] <-. split; [done|].
    rewrite px5_release_times.
    replace (length timeouts + length timeouts)%nat with (2 * length timeouts)%nat
      by lia.
    split; [done|]. split.
    + replace (2 * length timeouts)%nat with (length timeouts + length timeouts)%nat
        by lia.
      apply px5_wait_each_available.
    + intros timeout. destruct (length timeouts) as [|n]; [lia|].
      apply px5_wait_semaphore_available.
  - intros cfg c s semaphore s1 timeouts Hc Hcr%cmx_create_semaphore_count <-.
    split; [done|].
    pose proof (cmx_release_times (length timeouts) _ _ _ Hcr) as Hrel.
    split; [rewrite Hrel; f_equal; lia|].
    destruct (cmx_wait_each_available timeouts semaphore (length timeouts) _ Hrel)
      as (s2 & Hw & Hq2).
    exists s2. split; [done|]. split; [done|].
    intros timeout. destruct (length timeouts) as [|n] eqn:Hlen; [lia|].
    by apply cmx_wait_semaphore_available.
Qed.

(** Capacity 1 on each port: one release, one wait, one more wait.  On PX5
    and CMX-RTX the second wait returns TRUE. *)
Lemma C2_semaphore_release_then_wait_witness :
  (let '(_, semaphore, s1) :=
     @SafeRTOS.osCreateSemaphore (safe_cfg true) safe_semaphore 1 safe_init in
   ∃ s2,
     wait_each (SafeRTOS.osWaitForSemaphore semaphore) [0]
       (Nat.iter 1 (SafeRTOS.osReleaseSemaphore semaphore) s1)
       = Some ([TRUE], s2) ∧
     SafeRTOS.osWaitForSemaphore semaphore 0 s2 = Some (FALSE, s2))
  ∧ (∃ semaphore2,
       wait_each (flip Zephyr.osWaitForSemaphore) [0]
         (Nat.iter 1 Zephyr.osReleaseSemaphore (Zephyr.osCreateSemaphore zephyr_sem 1).2)
         = Some ([TRUE], semaphore2) ∧
       Zephyr.osWaitForSemaphore semaphore2 0 = Some (FALSE, semaphore2))
  ∧ (wait_each (flip (@Px5.osWaitForSemaphore px5_cfg)) [0]
       (Nat.iter 1 Px5.osReleaseSemaphore (Px5.osCreateSemaphore px5_sem 1).2)
       = Some ([TRUE], Px5.Sem true 1) ∧
     @Px5.osWaitForSemaphore px5_cfg (Px5.Sem true 1) 0
       = Some (TRUE, Px5.Sem true 0))
  ∧ (let '(_, semaphore, s1) := @CmxRtx.osCreateSemaphore cmx_cfg 1 cmx_init in
     ∃ s2,
       wait_each (@CmxRtx.osWaitForSemaphore cmx_cfg semaphore) [0]
         (Nat.iter 1 (CmxRtx.osReleaseSemaphore semaphore) s1)
         = Some ([TRUE], s2) ∧
       @CmxRtx.osWaitForSemaphore cmx_cfg semaphore 0 s2
         = Some (TRUE,
                 CmxRtx.set_sems
                   (<[CmxRtx.semaphore_id semaphore:=0%nat]> (CmxRtx.k_sems s2)) s2)).
Proof.
  destruct C2_semaphore_release_then_wait as (Hs & Hz & Hp & Hc).
  split; [|split; [|split]].
  - destruct (Hs (safe_cfg true) safe_semaphore 1%nat safe_init
                (@SafeRTOS.osCreateSemaphore (safe_cfg true) safe_semaphore 1 safe_init).1.2
                (@SafeRTOS.osCreateSemaphore (safe_cfg true) safe_semaphore 1 safe_init).2
                [0]) as (_ & _ & s2 & Hw & Hf & _);
      [lia | reflexivity | reflexivity |].
    exists s2. split; [exact Hw | apply Hf; discriminate].
  - destruct (Hz zephyr_sem 1%nat (Zephyr.osCreateSemaphore zephyr_sem 1).2 [0])
      as (_ & _ & semaphore2 & Hw & Hf & _); [lia | reflexivity | reflexivity |].
    exists semaphore2. split; [exact Hw | apply Hf; discriminate].
  - destruct (Hp px5_cfg px5_sem 1%nat (Px5.osCreateSemaphore px5_sem 1).2 [0])
      as (_ & _ & Hw & Ht); [lia | reflexivity | reflexivity |].
    split; [exact Hw | exact (Ht 0)].
  - destruct (Hc cmx_cfg 1%nat cmx_init
                (@CmxRtx.osCreateSemaphore cmx_cfg 1 cmx_init).1.2
                (@CmxRtx.osCreateSemaphore cmx_cfg 1 cmx_init).2
                [0]) as (_ & _ & s2 & Hw & _ & Ht);
      [lia | reflexivity | reflexivity |].
    exists s2. split; [exact Hw | exact (Ht 0)].
Defined.

(** ** Task creation *)

Section TaskCreation.

Lemma safe_create_task_rejected name taskCode arg params s :
  SafeRTOS.tcb params = NULL ∨ SafeRTOS.stack params = NULL →
  SafeRTOS.osCreateTask name taskCode arg params s = (SafeRTOS.OS_INVALID_TASK_ID, s).
Proof.
  intros [H|H]; unfold SafeRTOS.osCreateTask; rewrite H.
  - by rewrite bool_decide_eq_false_2 by (by intros []).
  - rewrite (bool_decide_eq_false_2 (NULL ≠ NULL)) by (by intros []).
    by rewrite andb_false_r.
Qed.

Lemma zephyr_create_task_rejected {cfg : Zephyr.Config} name taskCode arg params s :
  Zephyr.tcb params = NULL ∨ Zephyr.stack params = NULL →
  Zephyr.osCreateTask name taskCode arg params s = (Zephyr.OS_INVALID_TASK_ID, s).
Proof.
  intros [H|H]; unfold Zephyr.osCreateTask; rewrite H.
  - by rewrite bool_decide_eq_false_2 by (by intros []).
  - rewrite (bool_decide_eq_false_2 (NULL ≠ NULL)) by (by intros []).
    by rewrite andb_false_r.
Qed.

End TaskCreation.

(** C7 — When exactly one of the control block and the stack is supplied,
    [osCreateTask] returns [OS_INVALID_TASK_ID] and leaves the kernel as it
    was: no task is created and nothing is requested from the kernel. *)
Theorem C7_partial_static_parameters_rejected :
  (∀ name taskCode arg params s,
     (SafeRTOS.tcb params = NULL ∧ SafeRTOS.stack params ≠ NULL) ∨
     (SafeRTOS.tcb params ≠ NULL ∧ SafeRTOS.stack params = NULL) →
     SafeRTOS.osCreateTask name taskCode arg params s
       = (SafeRTOS.OS_INVALID_TASK_ID, s))
  ∧ (∀ (cfg : Zephyr.Config) name taskCode arg params s,
     (Zephyr.tcb params = NULL ∧ Zephyr.stack params ≠ NULL) ∨
     (Zephyr.tcb params ≠ NULL ∧ Zephyr.stack params = NULL) →
     Zephyr.osCreateTask name taskCode arg params s
       = (Zephyr.OS_INVALID_TASK_ID, s)).
Proof.
  split.
  - intros name taskCode arg params s [[H _]|[_ H]];
      apply safe_create_task_rejected; auto.
  - intros cfg name taskCode arg params s [[H _]|[_ H]];
      apply zephyr_create_task_rejected; auto.
Qed.

(** A stack without a control block, and a control block without a stack. *)
Lemma C7_partial_static_parameters_rejected_witness :
  SafeRTOS.osCreateTask 1 2 3 (SafeRTOS.OsTaskParams NULL 4096 256 1) safe_init
    = (SafeRTOS.OS_INVALID_TASK_ID, safe_init)
  ∧ @Zephyr.osCreateTask zephyr_cfg 1 2 3 (Zephyr.OsTaskParams 4096 NULL 256 1)
      zephyr_init
    = (@Zephyr.OS_INVALID_TASK_ID zephyr_cfg, zephyr_init).
Proof.
  destruct C7_partial_static_parameters_rejected as (Hs & Hz).
  split.
  - apply Hs. left. split; [reflexivity | discriminate].
  - apply (Hz zephyr_cfg). right. split; [discriminate | reflexivity].
Defined.

(** C10 — On SafeRTOS and Zephyr, whenever the control block or the stack
    is NULL, and so for [OS_TASK_DEFAULT_PARAMS], [osCreateTask] returns
    [OS_INVALID_TASK_ID] and leaves the kernel as it was, without a request
    to create a task; a call that changes the kernel was given both. *)
Theorem C10_task_creation_is_static_only :
  (∀ name taskCode arg s,
     (∀ params,
        SafeRTOS.tcb params = NULL ∨ SafeRTOS.stack params = NULL →
        SafeRTOS.osCreateTask name taskCode arg params s
          = (SafeRTOS.OS_INVALID_TASK_ID, s)) ∧
     SafeRTOS.osCreateTask name taskCode arg SafeRTOS.OS_TASK_DEFAULT_PARAMS s
       = (SafeRTOS.OS_INVALID_TASK_ID, s) ∧
     (∀ params,
        (SafeRTOS.osCreateTask name taskCode arg params s).2 ≠ s →
        SafeRTOS.tcb params ≠ NULL ∧ SafeRTOS.stack params ≠ NULL))
  ∧ (∀ (cfg : Zephyr.Config) name taskCode arg s,
     (∀ params,
        Zephyr.tcb params = NULL ∨ Zephyr.stack params = NULL →
        Zephyr.osCreateTask name taskCode arg params s
          = (Zephyr.OS_INVALID_TASK_ID, s)) ∧
     Zephyr.osCreateTask name taskCode arg Zephyr.OS_TASK_DEFAULT_PARAMS s
       = (Zephyr.OS_INVALID_TASK_ID, s) ∧
     (∀ params,
        (Zephyr.osCreateTask name taskCode arg params s).2 ≠ s →
        Zephyr.tcb params ≠ NULL ∧ Zephyr.stack params ≠ NULL)).
Proof.
  split.
  - intros name taskCode arg s. split; [|split].
    + intros params. apply safe_create_task_rejected.
    + apply safe_create_task_rejected. by left.
    + intros params Hne.
      split; intros H; apply Hne;
        rewrite safe_create_task_rejected; auto.
  - intros cfg name taskCode arg s. split; [|split].
    + intros params. apply zephyr_create_task_rejected.
    + apply zephyr_create_task_rejected. by left.
    + intros params Hne.
      split; intros H; apply Hne;
        rewrite zephyr_create_task_rejected; auto.
Qed.

(** The two ways of leaving a field out, and fully static parameters, which
    do reach the kernel. *)
Lemma C10_task_creation_is_static_only_witness :
  SafeRTOS.osCreateTask 1 2 3 (SafeRTOS.OsTaskParams NULL NULL 256 1) safe_init
    = (SafeRTOS.OS_INVALID_TASK_ID, safe_init)
  ∧ @Zephyr.osCreateTask zephyr_cfg 1 2 3 (Zephyr.OsTaskParams 4096 NULL 256 1)
      zephyr_init
    = (@Zephyr.OS_INVALID_TASK_ID zephyr_cfg, zephyr_init)
  ∧ (SafeRTOS.tcb (SafeRTOS.OsTaskParams 4096 8192 256 1) ≠ NULL ∧
     SafeRTOS.stack (SafeRTOS.OsTaskParams 4096 8192 256 1) ≠ NULL)
  ∧ (Zephyr.tcb (Zephyr.OsTaskParams 4096 8192 256 1) ≠ NULL ∧
     Zephyr.stack (Zephyr.OsTaskParams 4096 8192 256 1) ≠ NULL).
Proof.
  destruct C10_task_creation_is_static_only as (Hs & Hz).
  split; [|split; [|split]].
  - apply (proj1 (Hs 1 2 3 safe_init)). by left.
  - apply (proj1 (Hz zephyr_cfg 1 2 3 zephyr_init)). by right.
  - apply (proj2 (proj2 (Hs 1 2 3 safe_init))). vm_compute. discriminate.
  - apply (proj2 (proj2 (Hz zephyr_cfg 1 2 3 zephyr_init))). vm_compute. discriminate.
Defined.

(** ** Task deletion *)

(** C8 as stated fails on SafeRTOS: the self identifier goes to
    [xTaskDelete], the operation that deletes a task by handle, like every
    other identifier. *)
Lemma C8_delete_self_counterexample :
  SafeRTOS.osDeleteTask SafeRTOS.OS_SELF_TASK_ID safe_init
    = SafeRTOS.xTaskDelete SafeRTOS.OS_SELF_TASK_ID safe_init
  ∧ SafeRTOS.k_calls (SafeRTOS.osDeleteTask SafeRTOS.OS_SELF_TASK_ID safe_init)
    = [SafeRTOS.call_xTaskDelete NULL]
  ∧ SafeRTOS.k_calls (SafeRTOS.osDeleteTask 4096 safe_init)
    = [SafeRTOS.call_xTaskDelete 4096].
Proof. split_and!; reflexivity. Qed.

(** C8, amended — On CMX-RTX and PX5, [osDeleteTask] passes the self
    identifier to the kernel's exit operation ([K_Task_End],
    [px5_pthread_exit]) and any other identifier to its delete operation
    ([K_Task_Delete], [pthread_cancel]).  On SafeRTOS every identifier, the
    self identifier included, is passed to [xTaskDelete]; on Zephyr the self
    identifier is replaced by the current thread and the thread is passed to
    [k_thread_abort]. *)
Theorem C8_delete_task_routing :
  (∀ (cfg : CmxRtx.Config) taskId s,
     (taskId = CmxRtx.OS_SELF_TASK_ID →
        CmxRtx.osDeleteTask taskId s = CmxRtx.K_Task_End s ∧
        CmxRtx.k_calls (CmxRtx.osDeleteTask taskId s)
          = CmxRtx.k_calls s ++ [CmxRtx.call_K_Task_End]) ∧
     (taskId ≠ CmxRtx.OS_SELF_TASK_ID →
        CmxRtx.osDeleteTask taskId s = CmxRtx.K_Task_Delete taskId s ∧
        CmxRtx.k_calls (CmxRtx.osDeleteTask taskId s)
          = CmxRtx.k_calls s ++ [CmxRtx.call_K_Task_Delete taskId]))
  ∧ (∀ (cfg : Px5.Config) taskId s,
     (taskId = Px5.OS_SELF_TASK_ID →
        Px5.osDeleteTask taskId s = Px5.px5_pthread_exit NULL s ∧
        Px5.k_calls (Px5.osDeleteTask taskId s)
          = Px5.k_calls s ++ [Px5.call_px5_pthread_exit NULL]) ∧
     (taskId ≠ Px5.OS_SELF_TASK_ID →
        Px5.osDeleteTask taskId s = Px5.pthread_cancel taskId s ∧
        Px5.k_calls (Px5.osDeleteTask taskId s)
          = Px5.k_calls s ++ [Px5.call_pthread_cancel taskId]))
  ∧ (∀ taskId s,
     SafeRTOS.osDeleteTask taskId s = SafeRTOS.xTaskDelete taskId s ∧
     SafeRTOS.k_calls (SafeRTOS.osDeleteTask taskId s)
       = SafeRTOS.k_calls s ++ [SafeRTOS.call_xTaskDelete taskId])
  ∧ (∀ (cfg : Zephyr.Config) taskId s,
     (taskId = Zephyr.OS_SELF_TASK_ID →
        Zephyr.osDeleteTask taskId s
          = Zephyr.k_thread_abort (Zephyr.k_current_get s) s) ∧
     (taskId ≠ Zephyr.OS_SELF_TASK_ID →
        Zephyr.osDeleteTask taskId s = Zephyr.k_thread_abort taskId s)).
Proof.
  split; [|split; [|split]].
  - intros cfg taskId s. unfold CmxRtx.osDeleteTask. split; intros H.
    + by rewrite bool_decide_eq_true_2.
    + by rewrite bool_decide_eq_false_2.
  - intros cfg taskId s. unfold Px5.osDeleteTask. split; intros H.
    + by rewrite bool_decide_eq_true_2.
    + by rewrite bool_decide_eq_false_2.
  - done.
  - intros cfg taskId s. unfold Zephyr.osDeleteTask. split; intros H.
    + by rewrite bool_decide_eq_true_2.
    + by rewrite bool_decide_eq_false_2.
Qed.

(** The self identifier and another identifier on each port with a branch. *)
Lemma C8_delete_task_routing_witness :
  CmxRtx.k_calls (@CmxRtx.osDeleteTask cmx_cfg 0 cmx_init)
    = [CmxRtx.call_K_Task_End]
  ∧ CmxRtx.k_calls (@CmxRtx.osDeleteTask cmx_cfg 3 cmx_init)
    = [CmxRtx.call_K_Task_Delete 3]
  ∧ Px5.k_calls (@Px5.osDeleteTask px5_cfg NULL px5_init)
    = [Px5.call_px5_pthread_exit NULL]
  ∧ Px5.k_calls (@Px5.osDeleteTask px5_cfg 512 px5_init)
    = [Px5.call_pthread_cancel 512]
  ∧ @Zephyr.osDeleteTask zephyr_cfg NULL zephyr_init
    = Zephyr.k_thread_abort 256 zephyr_init
  ∧ @Zephyr.osDeleteTask zephyr_cfg 512 zephyr_init
    = Zephyr.k_thread_abort 512 zephyr_init.
Proof.
  destruct C8_delete_task_routing as (Hc & Hp & _ & Hz).
  split_and!.
  - apply (Hc cmx_cfg 0 cmx_init). reflexivity.
  - apply (Hc cmx_cfg 3 cmx_init). discriminate.
  - apply (Hp px5_cfg NULL px5_init). reflexivity.
  - apply (Hp px5_cfg 512 px5_init). discriminate.
  - apply (Hz zephyr_cfg NULL zephyr_init). reflexivity.
  - apply (Hz zephyr_cfg 512 zephyr_init). discriminate.
Defined.

(** ** Scheduler suspension *)

(** C9 as stated fails on CMX-RTX: before [osStartKernel],
    [osSuspendAllTasks] and [osResumeAllTasks] call [K_Task_Lock] and
    [K_Task_Unlock]. *)
Lemma C9_suspend_before_start_counterexample :
  CmxRtx.k_started cmx_init = false
  ∧ CmxRtx.k_calls (CmxRtx.osSuspendAllTasks cmx_init) = [CmxRtx.call_K_Task_Lock]
  ∧ CmxRtx.k_calls (CmxRtx.osResumeAllTasks cmx_init) = [CmxRtx.call_K_Task_Unlock]
  ∧ CmxRtx.osSuspendAllTasks cmx_init ≠ cmx_init
  ∧ CmxRtx.osResumeAllTasks cmx_init ≠ cmx_init.
Proof. split_and!; try reflexivity; discriminate. Qed.

(** C9, amended — On SafeRTOS, before the scheduler has started,
    [osSuspendAllTasks] and [osResumeAllTasks] leave the state as it is and
    request nothing from the kernel; on PX5 they never do anything.  On
    CMX-RTX and Zephyr they call the kernel's lock and unlock operation in
    every state, started or not. *)
Theorem C9_suspend_resume_before_start :
  (∀ s,
     SafeRTOS.xSchedulerRunning s = false →
     SafeRTOS.osSuspendAllTasks s = s ∧ SafeRTOS.osResumeAllTasks s = s)
  ∧ (∀ s, Px5.osSuspendAllTasks s = s ∧ Px5.osResumeAllTasks s = s)
  ∧ (∀ s,
     CmxRtx.k_calls (CmxRtx.osSuspendAllTasks s)
       = CmxRtx.k_calls s ++ [CmxRtx.call_K_Task_Lock] ∧
     CmxRtx.k_calls (CmxRtx.osResumeAllTasks s)
       = CmxRtx.k_calls s ++ [CmxRtx.call_K_Task_Unlock])
  ∧ (∀ s,
     Zephyr.k_calls (Zephyr.osSuspendAllTasks s)
       = Zephyr.k_calls s ++ [Zephyr.call_k_sched_lock] ∧
     Zephyr.k_calls (Zephyr.osResumeAllTasks s)
       = Zephyr.k_calls s ++ [Zephyr.call_k_sched_unlock]).
Proof.
  split; [|split; [|split]]; try done.
  intros s Hs. unfold SafeRTOS.osSuspendAllTasks, SafeRTOS.osResumeAllTasks,
    SafeRTOS.xTaskIsSchedulerStarted.
  rewrite Hs. done.
Qed.

(** SafeRTOS before [osStartKernel]. *)
Lemma C9_suspend_resume_before_start_witness :
  SafeRTOS.osSuspendAllTasks safe_init = safe_init
  ∧ SafeRTOS.osResumeAllTasks safe_init = safe_init.
Proof.
  destruct C9_suspend_resume_before_start as (Hs & _).
  apply Hs. reflexivity.
Defined.

(** * Further properties of the ports *)

(** ** CMX-RTX: identifiers and the objects built on them *)

Section CmxHeader.
Import CmxRtx.

Lemma cmx_header_sentinel_ok N ticks :
  (1 ≤ N ≤ 255)%nat → @cmx_sentinel_ok (cmx_header N ticks).
Proof. intros HN. unfold cmx_sentinel_ok. simpl. lia. Qed.

Lemma cmx_table_full_alloc {cfg : Config} s :
  cmx_sentinel_ok →
  length (semaphoreTable s) = OS_MAX_SEMAPHORES →
  (∀ j, (j < OS_MAX_SEMAPHORES)%nat → semaphoreTable s !! j = Some true) →
  osAllocateSemaphoreId s = (OS_INVALID_SEMAPHORE_ID, s).
Proof.
  intros Hs Hlen Hfull.
  destruct (cmx_alloc_spec s Hs Hlen) as [[-> _]|(j & Hj & _ & Hfree & _)]; [done|].
  rewrite Hfull in Hfree by done. done.
Qed.

Lemma cmx_free_marked {cfg : Config} s j :
  semaphoreTable s !! j = Some false →
  (j < OS_MAX_SEMAPHORES)%nat →
  osFreeSemaphoreId (Z.of_nat j) (set_table (<[j:=true]> (semaphoreTable s)) s) = s.
Proof.
  intros Hfree Hj. unfold osFreeSemaphoreId.
  rewrite bool_decide_eq_true_2 by lia. rewrite Nat2Z.id. simpl.
  rewrite list_insert_insert_eq, list_insert_id by done. by destruct s.
Qed.

End CmxHeader.

(** X1 — In every configuration the header accepts, [osAllocateSemaphoreId]
    is first fit: it returns 255 exactly when every slot is in use, and then
    changes nothing; otherwise it returns the lowest free index, marks that
    slot and leaves every other slot, and the kernel, as they were. *)
Theorem X1_allocate_first_fit (N : nat) (ticks : Z → Z) (s : CmxRtx.state) :
  (1 ≤ N ≤ 255)%nat →
  length (CmxRtx.semaphoreTable s) = N →
  let '(id, s') := @CmxRtx.osAllocateSemaphoreId (cmx_header N ticks) s in
  (id = 255 ↔ ∀ j, (j < N)%nat → CmxRtx.semaphoreTable s !! j = Some true) ∧
  (id = 255 → s' = s) ∧
  (id ≠ 255 →
     0 ≤ id < Z.of_nat N ∧
     CmxRtx.semaphoreTable s !! Z.to_nat id = Some false ∧
     (∀ k, (k < Z.to_nat id)%nat → CmxRtx.semaphoreTable s !! k = Some true) ∧
     s' = CmxRtx.set_table (<[Z.to_nat id:=true]> (CmxRtx.semaphoreTable s)) s).
Proof.
  intros HN Hlen.
  destruct (@cmx_alloc_spec (cmx_header N ticks) s
              (cmx_header_sentinel_ok N ticks HN) Hlen)
    as [[-> Hall]|(j & Hj & -> & Hfree & Hused)]; simpl in *.
  - split; [done|]. split; [done|]. by intros [].
  - split.
    { split; [lia|]. intros Hall. rewrite Hall in Hfree by done. done. }
    split; [lia|]. intros _. rewrite Nat2Z.id. split; [lia|]. done.
Qed.

(** A table of three slots whose middle slot is free. *)
Lemma X1_allocate_first_fit_witness :
  let '(id, s') := @CmxRtx.osAllocateSemaphoreId (cmx_header 3 (λ n, n)) cmx_three in
  (id = 255 ↔ ∀ j, (j < 3)%nat → CmxRtx.semaphoreTable cmx_three !! j = Some true) ∧
  (id = 255 → s' = cmx_three) ∧
  (id ≠ 255 →
     0 ≤ id < 3 ∧
     CmxRtx.semaphoreTable cmx_three !! Z.to_nat id = Some false ∧
     (∀ k, (k < Z.to_nat id)%nat → CmxRtx.semaphoreTable cmx_three !! k = Some true) ∧
     s' = CmxRtx.set_table (<[Z.to_nat id:=true]> (CmxRtx.semaphoreTable cmx_three))
            cmx_three).
Proof.
  apply (X1_allocate_first_fit 3 (λ n, n) cmx_three); [lia | reflexivity].
Defined.

(** X2 — In every configuration the header accepts, [osFreeSemaphoreId]
    undoes a successful [osAllocateSemaphoreId]; an identifier at or above
    [OS_MAX_SEMAPHORES], the sentinel included, is ignored; and after
    freeing any identifier below [OS_MAX_SEMAPHORES] the next allocation
    succeeds with an identifier no higher than the one freed. *)
Theorem X2_free_semaphore_id (N : nat) (ticks : Z → Z) (s : CmxRtx.state) :
  (1 ≤ N ≤ 255)%nat →
  length (CmxRtx.semaphoreTable s) = N →
  (∀ id s',
     @CmxRtx.osAllocateSemaphoreId (cmx_header N ticks) s = (id, s') →
     id ≠ 255 →
     @CmxRtx.osFreeSemaphoreId (cmx_header N ticks) id s' = s)
  ∧ (∀ id, Z.of_nat N ≤ id →
       @CmxRtx.osFreeSemaphoreId (cmx_header N ticks) id s = s)
  ∧ (∀ id, 0 ≤ id < Z.of_nat N →
       ∃ id' s',
         @CmxRtx.osAllocateSemaphoreId (cmx_header N ticks)
           (@CmxRtx.osFreeSemaphoreId (cmx_header N ticks) id s) = (id', s') ∧
         0 ≤ id' ≤ id).
Proof.
  intros HN Hlen. pose proof (cmx_header_sentinel_ok N ticks HN) as Hs.
  split; [|split].
  - intros id s' Ha Hid.
    destruct (@cmx_alloc_spec (cmx_header N ticks) s Hs Hlen)
      as [[Heq _]|(j & Hj & Heq & Hfree & _)];
      rewrite Heq in Ha; injection Ha as <- <-; [done|].
    by apply (@cmx_free_marked (cmx_header N ticks)).
  - intros id Hid. unfold CmxRtx.osFreeSemaphoreId. simpl.
    by rewrite bool_decide_eq_false_2 by lia.
  - intros id Hid.
    set (s1 := @CmxRtx.osFreeSemaphoreId (cmx_header N ticks) id s).
    assert (CmxRtx.semaphoreTable s1
            = <[Z.to_nat id:=false]> (CmxRtx.semaphoreTable s)) as Ht1.
    { unfold s1, CmxRtx.osFreeSemaphoreId. simpl.
      by rewrite bool_decide_eq_true_2 by lia. }
    destruct (@cmx_alloc_spec (cmx_header N ticks) s1 Hs)
      as [[_ Hall]|(j & Hj & -> & _ & Hused)]; simpl in *.
    + by rewrite Ht1, length_insert.
    + specialize (Hall (Z.to_nat id)). rewrite Ht1 in Hall.
      rewrite list_lookup_insert_eq in Hall by lia.
      by specialize (Hall ltac:(lia)).
    + eexists _, _. split; [done|]. split; [lia|].
      destruct (decide (Z.to_nat id < j)%nat) as [Hlt|]; [|lia].
      specialize (Hused _ Hlt). rewrite Ht1 in Hused.
      rewrite list_lookup_insert_eq in Hused by lia. done.
Qed.

(** Allocation then release on the three-slot table, and the sentinel. *)
Lemma X2_free_semaphore_id_witness :
  @CmxRtx.osFreeSemaphoreId (cmx_header 3 (λ n, n)) 1
    (@CmxRtx.osAllocateSemaphoreId (cmx_header 3 (λ n, n)) cmx_three).2 = cmx_three
  ∧ @CmxRtx.osFreeSemaphoreId (cmx_header 3 (λ n, n)) 255 cmx_three = cmx_three
  ∧ (∃ id' s',
       @CmxRtx.osAllocateSemaphoreId (cmx_header 3 (λ n, n))
         (@CmxRtx.osFreeSemaphoreId (cmx_header 3 (λ n, n)) 2 cmx_three) = (id', s') ∧
       0 ≤ id' ≤ 2).
Proof.
  destruct (X2_free_semaphore_id 3 (λ n, n) cmx_three) as (Hu & Ho & Hr);
    [lia | reflexivity |].
  split; [|split].
  - apply Hu; [reflexivity | discriminate].
  - apply Ho. simpl. lia.
  - apply Hr. simpl. lia.
Defined.

Section CmxLifecycle.
Import CmxRtx.
Context {cfg : Config}.

(** The allocator reads and writes the table only. *)
Lemma cmx_alloc_table_only s s2 id sa :
  osAllocateSemaphoreId s = (id, sa) →
  semaphoreTable s2 = semaphoreTable s →
  osAllocateSemaphoreId s2 = (id, set_table (semaphoreTable sa) s2).
Proof.
  unfold osAllocateSemaphoreId. intros Ha ->.
  destruct (osAllocateSemaphoreId_loop _ _ _) as [id' table].
  by injection Ha as <- <-.
Qed.

Lemma cmx_set_event_frame k event s :
  semaphoreTable (Nat.iter k (osSetEvent event) s) = semaphoreTable s ∧
  k_max_sems (Nat.iter k (osSetEvent event) s) = k_max_sems s.
Proof.
  induction k as [|k [IHt IHm]]; simpl; [done|].
  unfold osSetEvent at 1 3, K_Semaphore_Post.
  by destruct (k_sems _ !! _).
Qed.

(** What a creation that returned TRUE went through. *)
Lemma cmx_create_event_inv s event s' :
  osCreateEvent s = (TRUE, event, s') →
  ∃ sa, osAllocateSemaphoreId s = (event_id event, sa) ∧
        event_id event ≠ OS_INVALID_SEMAPHORE_ID ∧
        0 ≤ event_id event < k_max_sems sa ∧
        s' = set_sems (<[event_id event:=0%nat]> (k_sems sa)) sa.
Proof.
  unfold osCreateEvent. destruct (osAllocateSemaphoreId s) as [id sa]. simpl.
  unfold K_Semaphore_Create.
  destruct (decide (id ≠ OS_INVALID_SEMAPHORE_ID)) as [Hid|Hid];
    [rewrite (bool_decide_eq_true_2 _ Hid) | rewrite (bool_decide_eq_false_2 _ Hid)];
    [|simpl; intros; congruence].
  destruct (decide (0 ≤ id < k_max_sems sa)) as [Hr|Hr];
    [rewrite (bool_decide_eq_true_2 _ Hr) | rewrite (bool_decide_eq_false_2 _ Hr)];
    [|simpl; intros; congruence].
  intros [= <- <-]. by exists sa.
Qed.

(** What a creation that returned FALSE with an identifier went through. *)
Lemma cmx_create_event_refused s event s' :
  osCreateEvent s = (FALSE, event, s') →
  event_id event ≠ OS_INVALID_SEMAPHORE_ID →
  osAllocateSemaphoreId s = (event_id event, s') ∧
  ¬ (0 ≤ event_id event < k_max_sems s').
Proof.
  unfold osCreateEvent. destruct (osAllocateSemaphoreId s) as [id sa]. simpl.
  unfold K_Semaphore_Create.
  destruct (decide (id ≠ OS_INVALID_SEMAPHORE_ID)) as [Hid|Hid];
    [rewrite (bool_decide_eq_true_2 _ Hid) | rewrite (bool_decide_eq_false_2 _ Hid)].
  - destruct (decide (0 ≤ id < k_max_sems sa)) as [Hr|Hr];
      [rewrite (bool_decide_eq_true_2 _ Hr) | rewrite (bool_decide_eq_false_2 _ Hr)];
      [simpl; intros; congruence|].
    by intros [= <- <-] _.
  - intros [= <- <-]. simpl. done.
Qed.

End CmxLifecycle.

(** X3 — In every configuration the header accepts, when every identifier
    is in use [osCreateEvent], [osCreateSemaphore] and [osCreateMutex] return
    FALSE, hand back the identifier 255 and change nothing, the kernel not
    being asked; deleting such an object changes nothing either. *)
Theorem X3_create_without_identifier (N : nat) (ticks : Z → Z)
    (s : CmxRtx.state) (count : nat) :
  (1 ≤ N ≤ 255)%nat →
  length (CmxRtx.semaphoreTable s) = N →
  (∀ j, (j < N)%nat → CmxRtx.semaphoreTable s !! j = Some true) →
  @CmxRtx.osCreateEvent (cmx_header N ticks) s
    = (FALSE, {| CmxRtx.event_id := 255 |}, s)
  ∧ @CmxRtx.osCreateSemaphore (cmx_header N ticks) count s
    = (FALSE, {| CmxRtx.semaphore_id := 255 |}, s)
  ∧ @CmxRtx.osCreateMutex (cmx_header N ticks) s
    = (FALSE, {| CmxRtx.mutex_id := 255 |}, s)
  ∧ @CmxRtx.osDeleteEvent (cmx_header N ticks) {| CmxRtx.event_id := 255 |} s = s
  ∧ @CmxRtx.osDeleteSemaphore (cmx_header N ticks) {| CmxRtx.semaphore_id := 255 |} s = s
  ∧ @CmxRtx.osDeleteMutex (cmx_header N ticks) {| CmxRtx.mutex_id := 255 |} s = s.
Proof.
  intros HN Hlen Hfull.
  pose proof (@cmx_table_full_alloc (cmx_header N ticks) s
                (cmx_header_sentinel_ok N ticks HN) Hlen Hfull) as Ha.
  unfold CmxRtx.osCreateEvent, CmxRtx.osCreateSemaphore, CmxRtx.osCreateMutex,
    CmxRtx.osDeleteEvent, CmxRtx.osDeleteSemaphore, CmxRtx.osDeleteMutex,
    CmxRtx.osFreeSemaphoreId.
  rewrite Ha. simpl.
  rewrite bool_decide_eq_false_2 by lia. done.
Qed.

(** A full table of three slots. *)
Lemma X3_create_without_identifier_witness :
  @CmxRtx.osCreateEvent (cmx_header 3 (λ n, n))
    (CmxRtx.set_table [true; true; true] cmx_three)
  = (FALSE, {| CmxRtx.event_id := 255 |},
     CmxRtx.set_table [true; true; true] cmx_three).
Proof.
  apply (X3_create_without_identifier 3 (λ n, n) _ 0%nat); [lia | reflexivity |].
  intros [|[|[|j]]] Hj; (reflexivity || (simpl in Hj; lia)).
Defined.

(** X4 — In every configuration the header accepts, [osDeleteEvent] gives
    the identifier back and nothing more: after a successful
    [osCreateEvent], [k] sets and [osDeleteEvent], the table is as before
    the creation while the kernel semaphore still holds its [k] units; the
    next [osCreateEvent] returns the same identifier and the new event is
    nonsignaled. *)
Theorem X4_delete_then_create_event (N : nat) (ticks : Z → Z)
    (s : CmxRtx.state) (event : CmxRtx.OsEvent) (s1 : CmxRtx.state) (k : nat) :
  (1 ≤ N ≤ 255)%nat →
  length (CmxRtx.semaphoreTable s) = N →
  @CmxRtx.osCreateEvent (cmx_header N ticks) s = (TRUE, event, s1) →
  let s2 := @CmxRtx.osDeleteEvent (cmx_header N ticks) event
              (Nat.iter k (CmxRtx.osSetEvent event) s1) in
  CmxRtx.semaphoreTable s2 = CmxRtx.semaphoreTable s ∧
  CmxRtx.k_sems s2 !! CmxRtx.event_id event = Some k ∧
  ∃ s3,
    @CmxRtx.osCreateEvent (cmx_header N ticks) s2 = (TRUE, event, s3) ∧
    CmxRtx.event_signaled event s3 = Some false.
Proof.
  intros HN Hlen Hc s2.
  pose proof (cmx_header_sentinel_ok N ticks HN) as Hs.
  destruct (@cmx_create_event_inv (cmx_header N ticks) _ _ _ Hc)
    as (sa & Ha & Hid & Hr & Hs1).
  destruct (@cmx_alloc_spec (cmx_header N ticks) s Hs Hlen)
    as [[Heq _]|(j & Hj & Heq & Hfree & _)];
    rewrite Heq in Ha; injection Ha as Hid' <-; [simpl in *; congruence|].
  simpl in Hj.
  destruct (cmx_set_event_frame k event s1) as [Hft Hfm].
  assert (CmxRtx.k_sems (Nat.iter k (CmxRtx.osSetEvent event) s1)
            !! CmxRtx.event_id event = Some k) as Hk.
  { rewrite (cmx_set_event_times k event 0 s1); [f_equal; lia|].
    rewrite Hs1. simpl. apply lookup_insert_eq. }
  assert (CmxRtx.semaphoreTable s2 = CmxRtx.semaphoreTable s) as Ht2.
  { unfold s2, CmxRtx.osDeleteEvent, CmxRtx.osFreeSemaphoreId. simpl.
    rewrite <- Hid'. rewrite bool_decide_eq_true_2 by lia. simpl.
    rewrite Hft, Hs1, Nat2Z.id. simpl.
    by rewrite list_insert_insert_eq, list_insert_id. }
  assert (CmxRtx.k_sems s2 = CmxRtx.k_sems (Nat.iter k (CmxRtx.osSetEvent event) s1)
          ∧ CmxRtx.k_max_sems s2 = CmxRtx.k_max_sems s) as [Hsems Hmax].
  { unfold s2, CmxRtx.osDeleteEvent, CmxRtx.osFreeSemaphoreId. simpl.
    rewrite <- Hid'. rewrite bool_decide_eq_true_2 by lia. simpl.
    rewrite Hfm, Hs1. done. }
  split; [done|]. split; [by rewrite Hsems|].
  pose proof (@cmx_alloc_table_only (cmx_header N ticks) s s2 _ _ Heq Ht2) as Ha2.
  unfold CmxRtx.osCreateEvent. rewrite Ha2. simpl.
  assert (event = {| CmxRtx.event_id := Z.of_nat j |}) as ->
    by (destruct event; simpl in *; congruence).
  simpl in *.
  rewrite bool_decide_eq_true_2 by lia.
  unfold CmxRtx.K_Semaphore_Create. simpl.
  rewrite bool_decide_eq_true_2 by (rewrite Hmax; done).
  eexists. split; [done|].
  unfold CmxRtx.event_signaled. simpl. by rewrite lookup_insert_eq.
Qed.

(** An event created on the three-slot table, set twice, deleted, and
    created again. *)
Lemma X4_delete_then_create_event_witness :
  let '(_, event, s1) := @CmxRtx.osCreateEvent (cmx_header 3 (λ n, n)) cmx_three in
  let s2 := @CmxRtx.osDeleteEvent (cmx_header 3 (λ n, n)) event
              (Nat.iter 2 (CmxRtx.osSetEvent event) s1) in
  CmxRtx.semaphoreTable s2 = CmxRtx.semaphoreTable cmx_three ∧
  CmxRtx.k_sems s2 !! CmxRtx.event_id event = Some 2%nat ∧
  ∃ s3,
    @CmxRtx.osCreateEvent (cmx_header 3 (λ n, n)) s2 = (TRUE, event, s3) ∧
    CmxRtx.event_signaled event s3 = Some false.
Proof.
  apply (X4_delete_then_create_event 3 (λ n, n) cmx_three);
    [lia | reflexivity | reflexivity].
Defined.

(** X5 — In every configuration the header accepts, an [osCreateEvent] that
    fails after an identifier was found does not give the identifier back:
    the slot was free before the call and is in use after it, and the kernel
    holds no more semaphores than before. *)
Theorem X5_refused_creation_keeps_identifier (N : nat) (ticks : Z → Z)
    (s : CmxRtx.state) (event : CmxRtx.OsEvent) (s' : CmxRtx.state) :
  (1 ≤ N ≤ 255)%nat →
  length (CmxRtx.semaphoreTable s) = N →
  @CmxRtx.osCreateEvent (cmx_header N ticks) s = (FALSE, event, s') →
  CmxRtx.event_id event ≠ 255 →
  CmxRtx.semaphoreTable s !! Z.to_nat (CmxRtx.event_id event) = Some false ∧
  CmxRtx.semaphoreTable s' !! Z.to_nat (CmxRtx.event_id event) = Some true ∧
  CmxRtx.k_sems s' = CmxRtx.k_sems s.
Proof.
  intros HN Hlen Hc Hid.
  pose proof (cmx_header_sentinel_ok N ticks HN) as Hs.
  destruct (@cmx_create_event_refused (cmx_header N ticks) _ _ _ Hc Hid) as [Ha _].
  destruct (@cmx_alloc_spec (cmx_header N ticks) s Hs Hlen)
    as [[Heq _]|(j & Hj & Heq & Hfree & _)];
    rewrite Heq in Ha; injection Ha as Hid' <-; [simpl in *; congruence|].
  rewrite <- Hid', Nat2Z.id. simpl in *.
  split; [done|]. split; [|done].
  apply list_lookup_insert_eq. lia.
Qed.

(** A kernel configured for no semaphore at all. *)
Lemma X5_refused_creation_keeps_identifier_witness :
  let '(_, event, s') := @CmxRtx.osCreateEvent (cmx_header 3 (λ n, n)) cmx_refusing in
  CmxRtx.semaphoreTable cmx_refusing !! Z.to_nat (CmxRtx.event_id event) = Some false ∧
  CmxRtx.semaphoreTable s' !! Z.to_nat (CmxRtx.event_id event) = Some true ∧
  CmxRtx.k_sems s' = CmxRtx.k_sems cmx_refusing.
Proof.
  apply (X5_refused_creation_keeps_identifier 3 (λ n, n) cmx_refusing);
    [lia | reflexivity | reflexivity | discriminate].
Defined.

(** ** Events on the four ports *)

Section EventFacts.

Lemma cmx_sets_then_wait {cfg : CmxRtx.Config} k event s timeout :
  is_Some (CmxRtx.event_signaled event s) → (1 ≤ k)%nat →
  ∃ s',
    CmxRtx.osWaitForEvent event timeout (Nat.iter k (CmxRtx.osSetEvent event) s)
      = Some (TRUE, s') ∧
    CmxRtx.event_signaled event s' = Some false ∧
    CmxRtx.osWaitForEvent event 0 s' = Some (FALSE, s').
Proof.
  intros [b Hb] Hk. unfold CmxRtx.event_signaled in Hb.
  destruct (CmxRtx.k_sems s !! CmxRtx.event_id event) as [n|] eqn:Hn; [|done].
  pose proof (cmx_set_event_times k _ _ _ Hn) as Hkn.
  destruct k as [|k]; [lia|].
  rewrite (cmx_wait_event_signaled _ _ (k + n)) by done.
  eexists. split; [done|].
  split; [apply cmx_event_signaled_false | apply cmx_poll_event_nonsignaled];
    apply lookup_insert_eq.
Qed.

Lemma safe_set_event_signals event s :
  is_Some (SafeRTOS.event_signaled event s) →
  SafeRTOS.k_queues (SafeRTOS.osSetEvent event s) !! SafeRTOS.event_handle event
    = Some (SafeRTOS.Queue 1 1).
Proof.
  rewrite safe_event_signaled_some. intros (n & Hn & Hq).
  unfold SafeRTOS.osSetEvent.
  destruct (decide (n = 0)%nat) as [->|].
  - rewrite (safe_give_room _ 0 1) by (done || lia). simpl.
    apply lookup_insert_eq.
  - rewrite (safe_give_full _ n 1) by (done || lia). simpl.
    rewrite Hq. do 2 f_equal. lia.
Qed.

Lemma safe_sets_then_wait k event s timeout :
  is_Some (SafeRTOS.event_signaled event s) → (1 ≤ k)%nat →
  ∃ s',
    SafeRTOS.osWaitForEvent event timeout (Nat.iter k (SafeRTOS.osSetEvent event) s)
      = Some (TRUE, s') ∧
    SafeRTOS.event_signaled event s' = Some false ∧
    SafeRTOS.osWaitForEvent event 0 s' = Some (FALSE, s').
Proof.
  intros Hs Hk. destruct k as [|k]; [lia|]. simpl.
  pose proof (safe_set_event_signals event _ (safe_set_event_times k _ _ Hs)) as Hq.
  rewrite (safe_wait_event_available _ _ 0 1) by done.
  eexists. split; [done|].
  split; [apply safe_event_signaled_false | eapply safe_poll_event_empty];
    apply lookup_insert_eq.
Qed.

Lemma zephyr_sets_then_wait k event timeout :
  is_Some (Zephyr.event_signaled event) → (1 ≤ k)%nat →
  Zephyr.osWaitForEvent (Nat.iter k Zephyr.osSetEvent event) timeout
    = Some (TRUE, Zephyr.Sem 0 1).
Proof.
  intros Hs Hk. destruct k as [|k]; [lia|]. simpl.
  rewrite (zephyr_set_event_binary _ (zephyr_set_event_times k _ Hs)).
  by apply zephyr_wait_event_available.
Qed.

Lemma px5_sets_then_wait {cfg : Px5.Config} k event timeout :
  is_Some (Px5.event_signaled event) → (1 ≤ k)%nat →
  Px5.osWaitForEvent (Nat.iter k Px5.osSetEvent event) timeout
    = Some (TRUE, Px5.Sem true 0).
Proof.
  intros [n ->]%px5_event_signaled_some Hk. rewrite px5_set_event_times.
  destruct k as [|k]; [lia|]. apply px5_wait_event_signaled.
Qed.

End EventFacts.

(** X6 — Sets do not add up: after any number [k >= 1] of [osSetEvent] calls
    on an existing event, one wait, with any timeout, returns TRUE and leaves
    the event nonsignaled, and the wait with timeout 0 after it returns
    FALSE. *)
Theorem X6_sets_are_observed_once :
  (∀ (cfg : CmxRtx.Config) k event s timeout,
     is_Some (CmxRtx.event_signaled event s) → (1 ≤ k)%nat →
     ∃ s',
       CmxRtx.osWaitForEvent event timeout (Nat.iter k (CmxRtx.osSetEvent event) s)
         = Some (TRUE, s') ∧
       CmxRtx.event_signaled event s' = Some false ∧
       CmxRtx.osWaitForEvent event 0 s' = Some (FALSE, s'))
  ∧ (∀ k event s timeout,
     is_Some (SafeRTOS.event_signaled event s) → (1 ≤ k)%nat →
     ∃ s',
       SafeRTOS.osWaitForEvent event timeout
         (Nat.iter k (SafeRTOS.osSetEvent event) s) = Some (TRUE, s') ∧
       SafeRTOS.event_signaled event s' = Some false ∧
       SafeRTOS.osWaitForEvent event 0 s' = Some (FALSE, s'))
  ∧ (∀ k event timeout,
     is_Some (Zephyr.event_signaled event) → (1 ≤ k)%nat →
     ∃ event',
       Zephyr.osWaitForEvent (Nat.iter k Zephyr.osSetEvent event) timeout
         = Some (TRUE, event') ∧
       Zephyr.event_signaled event' = Some false ∧
       Zephyr.osWaitForEvent event' 0 = Some (FALSE, event'))
  ∧ (∀ (cfg : Px5.Config) k event timeout,
     is_Some (Px5.event_signaled event) → (1 ≤ k)%nat →
     ∃ event',
       Px5.osWaitForEvent (Nat.iter k Px5.osSetEvent event) timeout
         = Some (TRUE, event') ∧
       Px5.event_signaled event' = Some false ∧
       Px5.osWaitForEvent event' 0 = Some (FALSE, event')).
Proof.
  split; [|split; [|split]].
  - intros cfg. apply cmx_sets_then_wait.
  - apply safe_sets_then_wait.
  - intros k event timeout Hs Hk. exists (Zephyr.Sem 0 1).
    split; [by apply zephyr_sets_then_wait | done].
  - intros cfg k event timeout Hs Hk. exists (Px5.Sem true 0).
    split; [by apply px5_sets_then_wait | done].
Qed.

(** Five sets on a created event of each port, then two waits. *)
Lemma X6_sets_are_observed_once_witness :
  (let '(_, event, s) := @CmxRtx.osCreateEvent cmx_cfg cmx_init in
   ∃ s',
     @CmxRtx.osWaitForEvent cmx_cfg event 10 (Nat.iter 5 (CmxRtx.osSetEvent event) s)
       = Some (TRUE, s') ∧
     CmxRtx.event_signaled event s' = Some false ∧
     @CmxRtx.osWaitForEvent cmx_cfg event 0 s' = Some (FALSE, s'))
  ∧ (match @SafeRTOS.osCreateEvent (safe_cfg false) safe_event safe_init with
     | Some (_, event, s) =>
         ∃ s',
           SafeRTOS.osWaitForEvent event 10 (Nat.iter 5 (SafeRTOS.osSetEvent event) s)
             = Some (TRUE, s') ∧
           SafeRTOS.event_signaled event s' = Some false ∧
           SafeRTOS.osWaitForEvent event 0 s' = Some (FALSE, s')
     | None => False
     end)
  ∧ (∃ event',
       Zephyr.osWaitForEvent
         (Nat.iter 5 Zephyr.osSetEvent (Zephyr.osCreateEvent zephyr_sem).2) 10
         = Some (TRUE, event') ∧
       Zephyr.event_signaled event' = Some false ∧
       Zephyr.osWaitForEvent event' 0 = Some (FALSE, event'))
  ∧ (∃ event',
       @Px5.osWaitForEvent px5_cfg
         (Nat.iter 5 Px5.osSetEvent (Px5.osCreateEvent px5_sem).2) 10
         = Some (TRUE, event') ∧
       Px5.event_signaled event' = Some false ∧
       @Px5.osWaitForEvent px5_cfg event' 0 = Some (FALSE, event')).
Proof.
  destruct X6_sets_are_observed_once as (Hc & Hs & Hz & Hp).
  split; [|split; [|split]].
  - apply (Hc cmx_cfg 5%nat); [by eexists | lia].
  - apply (Hs 5%nat); [by eexists | lia].
  - apply (Hz 5%nat); [by eexists | lia].
  - apply (Hp px5_cfg 5%nat); [by eexists | lia].
Defined.

(** X7 — [osSetEventFromIsr] signals the event like [osSetEvent]: the wait
    that follows, with any timeout, returns TRUE.  On CMX-RTX, Zephyr and PX5
    it returns FALSE whatever the state. *)
Theorem X7_set_event_from_isr :
  (∀ (cfg : CmxRtx.Config) event s timeout,
     CmxRtx.osSetEventFromIsr event s = (FALSE, CmxRtx.osSetEvent event s) ∧
     (is_Some (CmxRtx.event_signaled event s) →
      ∃ s', CmxRtx.osWaitForEvent event timeout (CmxRtx.osSetEventFromIsr event s).2
              = Some (TRUE, s')))
  ∧ (∀ event s timeout,
     (SafeRTOS.osSetEventFromIsr event s).2 = SafeRTOS.osSetEvent event s ∧
     (is_Some (SafeRTOS.event_signaled event s) →
      ∃ s', SafeRTOS.osWaitForEvent event timeout
              (SafeRTOS.osSetEventFromIsr event s).2 = Some (TRUE, s')))
  ∧ (∀ event timeout,
     Zephyr.osSetEventFromIsr event = (FALSE, Zephyr.osSetEvent event) ∧
     (is_Some (Zephyr.event_signaled event) →
      ∃ event', Zephyr.osWaitForEvent (Zephyr.osSetEventFromIsr event).2 timeout
                  = Some (TRUE, event')))
  ∧ (∀ (cfg : Px5.Config) event timeout,
     Px5.osSetEventFromIsr event = (FALSE, Px5.osSetEvent event) ∧
     (is_Some (Px5.event_signaled event) →
      ∃ event', Px5.osWaitForEvent (Px5.osSetEventFromIsr event).2 timeout
                  = Some (TRUE, event'))).
Proof.
  split; [|split; [|split]].
  - intros cfg event s timeout. split; [done|]. intros Hs. simpl.
    destruct (cmx_sets_then_wait 1 event s timeout Hs) as (s' & Hw & _); [lia|].
    by exists s'.
  - intros event s timeout.
    assert ((SafeRTOS.osSetEventFromIsr event s).2 = SafeRTOS.osSetEvent event s)
      as Heq.
    { unfold SafeRTOS.osSetEventFromIsr, SafeRTOS.xSemaphoreGiveFromISR,
        SafeRTOS.osSetEvent.
      by destruct (SafeRTOS.xSemaphoreGive _ s). }
    split; [done|]. intros Hs. rewrite Heq.
    destruct (safe_sets_then_wait 1 event s timeout Hs) as (s' & Hw & _); [lia|].
    by exists s'.
  - intros event timeout. split; [done|]. intros Hs. simpl.
    eexists. by apply (zephyr_sets_then_wait 1).
  - intros cfg event timeout. split; [done|]. intros Hs. simpl.
    eexists. by apply (px5_sets_then_wait 1).
Qed.

(** A created event of each port, signaled from an interrupt handler. *)
Lemma X7_set_event_from_isr_witness :
  (let '(_, event, s) := @CmxRtx.osCreateEvent cmx_cfg cmx_init in
   ∃ s', @CmxRtx.osWaitForEvent cmx_cfg event 10 (CmxRtx.osSetEventFromIsr event s).2
           = Some (TRUE, s'))
  ∧ (match @SafeRTOS.osCreateEvent (safe_cfg true) safe_event safe_init with
     | Some (_, event, s) =>
         ∃ s', SafeRTOS.osWaitForEvent event 10 (SafeRTOS.osSetEventFromIsr event s).2
                 = Some (TRUE, s')
     | None => False
     end)
  ∧ (∃ event',
       Zephyr.osWaitForEvent
         (Zephyr.osSetEventFromIsr (Zephyr.osCreateEvent zephyr_sem).2).2 10
         = Some (TRUE, event'))
  ∧ (∃ event',
       @Px5.osWaitForEvent px5_cfg
         (Px5.osSetEventFromIsr (Px5.osCreateEvent px5_sem).2).2 10
         = Some (TRUE, event')).
Proof.
  destruct X7_set_event_from_isr as (Hc & Hs & Hz & Hp).
  split; [|split; [|split]].
  - apply (proj2 (Hc cmx_cfg _ _ 10)). by eexists.
  - apply (proj2 (Hs _ _ 10)). by eexists.
  - apply (proj2 (Hz _ 10)). by eexists.
  - apply (proj2 (Hp px5_cfg _ 10)). by eexists.
Defined.

(** X8 — A wait on a nonsignaled event consumes nothing: with any timeout
    other than [INFINITE_DELAY] it returns FALSE and leaves the state as it
    was (on CMX-RTX provided a non-zero timeout converts to a non-zero number
    of ticks), and with [INFINITE_DELAY] it does not return. *)
Theorem X8_wait_on_nonsignaled_event :
  (∀ (cfg : CmxRtx.Config) event s timeout,
     CmxRtx.event_signaled event s = Some false →
     (timeout ≠ INFINITE_DELAY →
      timeout = 0 ∨ CmxRtx.OS_MS_TO_SYSTICKS timeout ≠ 0 →
      CmxRtx.osWaitForEvent event timeout s = Some (FALSE, s)) ∧
     CmxRtx.osWaitForEvent event INFINITE_DELAY s = None)
  ∧ (∀ event s timeout,
     SafeRTOS.event_signaled event s = Some false →
     (timeout ≠ INFINITE_DELAY →
      SafeRTOS.osWaitForEvent event timeout s = Some (FALSE, s)) ∧
     SafeRTOS.osWaitForEvent event INFINITE_DELAY s = None)
  ∧ (∀ event timeout,
     Zephyr.event_signaled event = Some false →
     (timeout ≠ INFINITE_DELAY →
      Zephyr.osWaitForEvent event timeout = Some (FALSE, event)) ∧
     Zephyr.osWaitForEvent event INFINITE_DELAY = None)
  ∧ (∀ (cfg : Px5.Config) event timeout,
     Px5.event_signaled event = Some false →
     (timeout ≠ INFINITE_DELAY →
      Px5.osWaitForEvent event timeout = Some (FALSE, event)) ∧
     Px5.osWaitForEvent event INFINITE_DELAY = None).
Proof.
  split; [|split; [|split]].
  - intros cfg event s timeout Hn%cmx_event_signaled_false.
    unfold CmxRtx.osWaitForEvent, CmxRtx.K_Semaphore_Get, CmxRtx.K_Semaphore_Wait.
    rewrite Hn. split; [|done].
    intros Hinf [->|Hticks]; [done|].
    rewrite (bool_decide_eq_false_2 (timeout = INFINITE_DELAY)) by done.
    rewrite (bool_decide_eq_false_2 (CmxRtx.OS_MS_TO_SYSTICKS timeout = 0)) by done.
    by case_bool_decide.
  - intros event s timeout Hn%safe_event_signaled_false.
    unfold SafeRTOS.osWaitForEvent, SafeRTOS.xSemaphoreTake. rewrite Hn.
    split; [|done]. intros Hinf.
    rewrite (bool_decide_eq_false_2 (timeout = INFINITE_DELAY)) by done.
    by rewrite bool_decide_eq_false_2.
  - intros event timeout Hn.
    assert (event = Zephyr.Sem 0 1) as ->.
    { destruct event as [[|[|n]] [|[|m]]]; by try discriminate Hn. }
    split; [|done]. intros Hinf. unfold Zephyr.osWaitForEvent.
    rewrite (bool_decide_eq_false_2 (timeout = INFINITE_DELAY)) by done.
    by case_bool_decide.
  - intros cfg event timeout Hn.
    assert (event = Px5.Sem true 0) as ->.
    { destruct event as [[] [|n]]; by try discriminate Hn. }
    split; [|done]. intros Hinf. unfold Px5.osWaitForEvent.
    rewrite (bool_decide_eq_false_2 (timeout = INFINITE_DELAY)) by done.
    by case_bool_decide.
Qed.

(** A created event of each port, awaited for 10 ms without a set. *)
Lemma X8_wait_on_nonsignaled_event_witness :
  (let '(_, event, s) := @CmxRtx.osCreateEvent cmx_cfg cmx_init in
   @CmxRtx.osWaitForEvent cmx_cfg event 10 s = Some (FALSE, s) ∧
   @CmxRtx.osWaitForEvent cmx_cfg event INFINITE_DELAY s = None)
  ∧ (match @SafeRTOS.osCreateEvent (safe_cfg true) safe_event safe_init with
     | Some (_, event, s) =>
         SafeRTOS.osWaitForEvent event 10 s = Some (FALSE, s) ∧
         SafeRTOS.osWaitForEvent event INFINITE_DELAY s = None
     | None => False
     end)
  ∧ (Zephyr.osWaitForEvent (Zephyr.osCreateEvent zephyr_sem).2 10
       = Some (FALSE, (Zephyr.osCreateEvent zephyr_sem).2) ∧
     Zephyr.osWaitForEvent (Zephyr.osCreateEvent zephyr_sem).2 INFINITE_DELAY = None)
  ∧ (@Px5.osWaitForEvent px5_cfg (Px5.osCreateEvent px5_sem).2 10
       = Some (FALSE, (Px5.osCreateEvent px5_sem).2) ∧
     @Px5.osWaitForEvent px5_cfg (Px5.osCreateEvent px5_sem).2 INFINITE_DELAY = None).
Proof.
  destruct X8_wait_on_nonsignaled_event as (Hc & Hs & Hz & Hp).
  split; [|split; [|split]].
  - destruct (Hc cmx_cfg
      (@CmxRtx.osCreateEvent cmx_cfg cmx_init).1.2
      (@CmxRtx.osCreateEvent cmx_cfg cmx_init).2 10) as [Hb Hi]; [reflexivity|].
    split; [apply Hb; [discriminate | right; discriminate] | exact Hi].
  - destruct (Hs (SafeRTOS.Event 4128 4096)
      (SafeRTOS.set_queues {[4128 := SafeRTOS.Queue 0 1]} safe_init) 10)
      as [Hb Hi]; [reflexivity|].
    split; [apply Hb; discriminate | exact Hi].
  - destruct (Hz (Zephyr.osCreateEvent zephyr_sem).2 10) as [Hb Hi]; [reflexivity|].
    split; [apply Hb; discriminate | exact Hi].
  - destruct (Hp px5_cfg (Px5.osCreateEvent px5_sem).2 10) as [Hb Hi]; [reflexivity|].
    split; [apply Hb; discriminate | exact Hi].
Defined.

(** X9 — On CMX-RTX a bounded wait whose timeout converts to zero ticks is an
    unbounded wait: on a nonsignaled event, and on a semaphore without units,
    a wait with a non-zero timeout that [OS_MS_TO_SYSTICKS] maps to 0 does
    not return. *)
Theorem X9_zero_ticks_wait_forever {cfg : CmxRtx.Config}
    (event : CmxRtx.OsEvent) (semaphore : CmxRtx.OsSemaphore)
    (s : CmxRtx.state) (timeout : Z) :
  timeout ≠ 0 →
  CmxRtx.OS_MS_TO_SYSTICKS timeout = 0 →
  (CmxRtx.event_signaled event s = Some false →
   CmxRtx.osWaitForEvent event timeout s = None)
  ∧ (CmxRtx.k_sems s !! CmxRtx.semaphore_id semaphore = Some 0%nat →
     CmxRtx.osWaitForSemaphore semaphore timeout s = None).
Proof.
  intros Ht Hticks. split.
  - intros Hn%cmx_event_signaled_false.
    unfold CmxRtx.osWaitForEvent, CmxRtx.K_Semaphore_Wait.
    rewrite Hn, Hticks. rewrite (bool_decide_eq_false_2 (timeout = 0)) by done.
    by case_bool_decide.
  - intros Hn.
    unfold CmxRtx.osWaitForSemaphore, CmxRtx.K_Semaphore_Wait.
    rewrite Hn, Hticks. rewrite (bool_decide_eq_false_2 (timeout = 0)) by done.
    by case_bool_decide.
Qed.

(** A tick of 10 ms and a timeout of 5 ms. *)
Lemma X9_zero_ticks_wait_forever_witness :
  let cfg := cmx_header 3 (λ n, n / 10) in
  let '(_, event, s) := @CmxRtx.osCreateEvent cfg cmx_three in
  @CmxRtx.osWaitForEvent cfg event 5 s = None.
Proof.
  apply (@X9_zero_ticks_wait_forever (cmx_header 3 (λ n, n / 10))
           _ {| CmxRtx.semaphore_id := 0 |} _ 5);
    [discriminate | reflexivity | reflexivity].
Defined.

(** ** Semaphores on the four ports *)

Section SemaphoreFacts.

Lemma cmx_wait_semaphore_empty {cfg : CmxRtx.Config} semaphore s :
  CmxRtx.k_sems s !! CmxRtx.semaphore_id semaphore = Some 0%nat →
  CmxRtx.osWaitForSemaphore semaphore 0 s = Some (FALSE, s) ∧
  CmxRtx.osWaitForSemaphore semaphore INFINITE_DELAY s = None.
Proof.
  intros Hn.
  unfold CmxRtx.osWaitForSemaphore, CmxRtx.K_Semaphore_Get, CmxRtx.K_Semaphore_Wait.
  by rewrite Hn.
Qed.

Lemma safe_wait_semaphore_forever semaphore m s :
  SafeRTOS.k_queues s !! SafeRTOS.semaphore_handle semaphore
    = Some (SafeRTOS.Queue 0 m) →
  SafeRTOS.osWaitForSemaphore semaphore INFINITE_DELAY s = None.
Proof.
  intros Hq. unfold SafeRTOS.osWaitForSemaphore, SafeRTOS.xSemaphoreTake.
  by rewrite Hq.
Qed.

End SemaphoreFacts.

(** X10 — On every port a semaphore successfully created with [count] holds
    [count] units: the first [count] waits, whatever their timeouts, return
    TRUE; the wait after those returns FALSE with timeout 0 and does not
    return with [INFINITE_DELAY]. *)
Theorem X10_new_semaphore_holds_count :
  (∀ (cfg : CmxRtx.Config) (count : nat) s semaphore s1 timeouts,
     CmxRtx.osCreateSemaphore count s = (TRUE, semaphore, s1) →
     length timeouts = count →
     ∃ s2,
       wait_each (CmxRtx.osWaitForSemaphore semaphore) timeouts s1
         = Some (replicate count TRUE, s2) ∧
       CmxRtx.osWaitForSemaphore semaphore 0 s2 = Some (FALSE, s2) ∧
       CmxRtx.osWaitForSemaphore semaphore INFINITE_DELAY s2 = None)
  ∧ (∀ (cfg : SafeRTOS.Config) semaphore (count : nat) s semaphore' s1 timeouts,
     SafeRTOS.osCreateSemaphore semaphore count s = (TRUE, semaphore', s1) →
     length timeouts = count →
     ∃ s2,
       wait_each (SafeRTOS.osWaitForSemaphore semaphore') timeouts s1
         = Some (replicate count TRUE, s2) ∧
       SafeRTOS.osWaitForSemaphore semaphore' 0 s2 = Some (FALSE, s2) ∧
       SafeRTOS.osWaitForSemaphore semaphore' INFINITE_DELAY s2 = None)
  ∧ (∀ semaphore (count : nat) semaphore' timeouts,
     Zephyr.osCreateSemaphore semaphore count = (TRUE, semaphore') →
     length timeouts = count →
     ∃ semaphore2,
       wait_each (flip Zephyr.osWaitForSemaphore) timeouts semaphore'
         = Some (replicate count TRUE, semaphore2) ∧
       Zephyr.osWaitForSemaphore semaphore2 0 = Some (FALSE, semaphore2) ∧
       Zephyr.osWaitForSemaphore semaphore2 INFINITE_DELAY = None)
  ∧ (∀ (cfg : Px5.Config) semaphore (count : nat) semaphore' timeouts,
     Px5.osCreateSemaphore semaphore count = (TRUE, semaphore') →
     length timeouts = count →
     ∃ semaphore2,
       wait_each (flip Px5.osWaitForSemaphore) timeouts semaphore'
         = Some (replicate count TRUE, semaphore2) ∧
       Px5.osWaitForSemaphore semaphore2 0 = Some (FALSE, semaphore2) ∧
       Px5.osWaitForSemaphore semaphore2 INFINITE_DELAY = None).
Proof.
  split; [|split; [|split]].
  - intros cfg count s semaphore s1 timeouts Hc%cmx_create_semaphore_count <-.
    destruct (cmx_wait_each_available timeouts semaphore 0 s1) as (s2 & Hw & Hn);
      [by rewrite Nat.add_0_r|].
    exists s2. split; [done|]. by apply cmx_wait_semaphore_empty.
  - intros cfg semaphore count s semaphore' s1 timeouts
      [_ Hq]%safe_create_semaphore_full <-.
    destruct (safe_wait_each_available timeouts semaphore' 0 (length timeouts) s1)
      as (s2 & Hw & Hq2); [by rewrite Nat.add_0_r|].
    exists s2. split; [done|].
    split; [by eapply safe_poll_semaphore_empty
           | by eapply safe_wait_semaphore_forever].
  - intros semaphore count semaphore' timeouts
      [_ ->]%zephyr_create_semaphore_full <-.
    exists (Zephyr.Sem 0 (length timeouts)). split; [|done].
    rewrite <- (Nat.add_0_r (length timeouts)) at 1.
    apply zephyr_wait_each_available.
  - intros cfg semaphore count semaphore' timeouts [= <-] <-.
    exists (Px5.Sem true 0). split; [|done].
    rewrite <- (Nat.add_0_r (length timeouts)) at 1.
    apply px5_wait_each_available.
Qed.

(** Count 2 on each port: two waits, then a third. *)
Lemma X10_new_semaphore_holds_count_witness :
  (let '(_, semaphore, s1) := @CmxRtx.osCreateSemaphore cmx_cfg 2 cmx_init in
   ∃ s2,
     wait_each (@CmxRtx.osWaitForSemaphore cmx_cfg semaphore) [0; 5] s1
       = Some ([TRUE; TRUE], s2) ∧
     @CmxRtx.osWaitForSemaphore cmx_cfg semaphore 0 s2 = Some (FALSE, s2) ∧
     @CmxRtx.osWaitForSemaphore cmx_cfg semaphore INFINITE_DELAY s2 = None)
  ∧ (let '(_, semaphore, s1) :=
       @SafeRTOS.osCreateSemaphore (safe_cfg true) safe_semaphore 2 safe_init in
     ∃ s2,
       wait_each (SafeRTOS.osWaitForSemaphore semaphore) [0; 5] s1
         = Some ([TRUE; TRUE], s2) ∧
       SafeRTOS.osWaitForSemaphore semaphore 0 s2 = Some (FALSE, s2) ∧
       SafeRTOS.osWaitForSemaphore semaphore INFINITE_DELAY s2 = None)
  ∧ (∃ semaphore2,
       wait_each (flip Zephyr.osWaitForSemaphore) [0; 5]
         (Zephyr.osCreateSemaphore zephyr_sem 2).2 = Some ([TRUE; TRUE], semaphore2) ∧
       Zephyr.osWaitForSemaphore semaphore2 0 = Some (FALSE, semaphore2) ∧
       Zephyr.osWaitForSemaphore semaphore2 INFINITE_DELAY = None)
  ∧ (∃ semaphore2,
       wait_each (flip (@Px5.osWaitForSemaphore px5_cfg)) [0; 5]
         (Px5.osCreateSemaphore px5_sem 2).2 = Some ([TRUE; TRUE], semaphore2) ∧
       @Px5.osWaitForSemaphore px5_cfg semaphore2 0 = Some (FALSE, semaphore2) ∧
       @Px5.osWaitForSemaphore px5_cfg semaphore2 INFINITE_DELAY = None).
Proof.
  destruct X10_new_semaphore_holds_count as (Hc & Hs & Hz & Hp).
  split; [|split; [|split]].
  - apply (Hc cmx_cfg 2%nat cmx_init _ _ [0; 5]); reflexivity.
  - apply (Hs (safe_cfg true) safe_semaphore 2%nat safe_init _ _ [0; 5]); reflexivity.
  - apply (Hz zephyr_sem 2%nat _ [0; 5]); reflexivity.
  - apply (Hp px5_cfg px5_sem 2%nat _ [0; 5]); reflexivity.
Defined.

(** X11 — A unit taken is a unit given back: when the semaphore holds at
    least one unit (and, where the kernel keeps a ceiling, no more than the
    ceiling), a wait with any timeout returns TRUE and [osReleaseSemaphore]
    then restores the state the wait started from. *)
Theorem X11_wait_then_release_restores :
  (∀ (cfg : CmxRtx.Config) semaphore s timeout (n : nat),
     CmxRtx.k_sems s !! CmxRtx.semaphore_id semaphore = Some (S n) →
     ∃ s1,
       CmxRtx.osWaitForSemaphore semaphore timeout s = Some (TRUE, s1) ∧
       CmxRtx.osReleaseSemaphore semaphore s1 = s)
  ∧ (∀ semaphore s timeout (n m : nat),
     SafeRTOS.k_queues s !! SafeRTOS.semaphore_handle semaphore
       = Some (SafeRTOS.Queue (S n) m) →
     (S n ≤ m)%nat →
     ∃ s1,
       SafeRTOS.osWaitForSemaphore semaphore timeout s = Some (TRUE, s1) ∧
       SafeRTOS.osReleaseSemaphore semaphore s1 = s)
  ∧ (∀ timeout (n m : nat),
     (S n ≤ m)%nat →
     ∃ semaphore1,
       Zephyr.osWaitForSemaphore (Zephyr.Sem (S n) m) timeout
         = Some (TRUE, semaphore1) ∧
       Zephyr.osReleaseSemaphore semaphore1 = Zephyr.Sem (S n) m)
  ∧ (∀ (cfg : Px5.Config) timeout (n : nat),
     ∃ semaphore1,
       Px5.osWaitForSemaphore (Px5.Sem true (S n)) timeout
         = Some (TRUE, semaphore1) ∧
       Px5.osReleaseSemaphore semaphore1 = Px5.Sem true (S n)).
Proof.
  split; [|split; [|split]].
  - intros cfg semaphore s timeout n Hn.
    rewrite (cmx_wait_semaphore_available _ _ n) by done.
    eexists. split; [done|]. unfold CmxRtx.osReleaseSemaphore.
    rewrite (cmx_post_count _ n) by apply lookup_insert_eq. simpl.
    rewrite insert_insert_eq, insert_id by done. by destruct s.
  - intros semaphore s timeout n m Hq Hle.
    rewrite (safe_wait_semaphore_available _ _ n m) by done.
    eexists. split; [done|]. unfold SafeRTOS.osReleaseSemaphore.
    rewrite (safe_give_room _ n m) by (apply lookup_insert_eq || lia). simpl.
    rewrite insert_insert_eq, insert_id by done. by destruct s.
  - intros timeout n m Hle. rewrite zephyr_wait_semaphore_available.
    eexists. split; [done|]. unfold Zephyr.osReleaseSemaphore, Zephyr.k_sem_give.
    simpl. by rewrite bool_decide_eq_true_2 by lia.
  - intros cfg timeout n. rewrite px5_wait_semaphore_available.
    eexists. split; [done|]. done.
Qed.

(** A semaphore of count 2 on the CMX-RTX and SafeRTOS ports, a Zephyr
    semaphore holding 1 of 3. *)
Lemma X11_wait_then_release_restores_witness :
  (let '(_, semaphore, s) := @CmxRtx.osCreateSemaphore cmx_cfg 2 cmx_init in
   ∃ s1,
     @CmxRtx.osWaitForSemaphore cmx_cfg semaphore 7 s = Some (TRUE, s1) ∧
     CmxRtx.osReleaseSemaphore semaphore s1 = s)
  ∧ (let '(_, semaphore, s) :=
       @SafeRTOS.osCreateSemaphore (safe_cfg true) safe_semaphore 2 safe_init in
     ∃ s1,
       SafeRTOS.osWaitForSemaphore semaphore 7 s = Some (TRUE, s1) ∧
       SafeRTOS.osReleaseSemaphore semaphore s1 = s)
  ∧ (∃ semaphore1,
       Zephyr.osWaitForSemaphore (Zephyr.Sem 1 3) 7 = Some (TRUE, semaphore1) ∧
       Zephyr.osReleaseSemaphore semaphore1 = Zephyr.Sem 1 3).
Proof.
  destruct X11_wait_then_release_restores as (Hc & Hs & Hz & _).
  split; [|split].
  - apply (Hc cmx_cfg _ _ 7 1%nat). reflexivity.
  - apply (Hs _ _ 7 1%nat 2%nat); [reflexivity | lia].
  - apply (Hz 7 0%nat 3%nat). lia.
Defined.

(** ** Mutexes on the four ports *)

Section MutexFacts.

Lemma cmx_acquire_available {cfg : CmxRtx.Config} mutex n s :
  CmxRtx.k_sems s !! CmxRtx.mutex_id mutex = Some (S n) →
  CmxRtx.osAcquireMutex mutex s
    = Some (CmxRtx.set_sems (<[CmxRtx.mutex_id mutex:=n]> (CmxRtx.k_sems s)) s).
Proof.
  intros Hn. unfold CmxRtx.osAcquireMutex, CmxRtx.K_Semaphore_Wait.
  by rewrite Hn.
Qed.

End MutexFacts.

(** X12 — A mutex excludes until it is released.  After a successful
    [osCreateMutex] the first [osAcquireMutex] returns; while the mutex is
    held a further [osAcquireMutex] does not return (on CMX-RTX and SafeRTOS
    for any caller, the holder included; on Zephyr and PX5 for any other
    thread); [osReleaseMutex] by the holder restores the state before the
    acquisition, after which [osAcquireMutex] returns again. *)
Theorem X12_mutex_excludes_until_released :
  (∀ (cfg : CmxRtx.Config) s mutex s1,
     CmxRtx.osCreateMutex s = (TRUE, mutex, s1) →
     ∃ s2,
       CmxRtx.osAcquireMutex mutex s1 = Some s2 ∧
       CmxRtx.osAcquireMutex mutex s2 = None ∧
       CmxRtx.osReleaseMutex mutex s2 = s1)
  ∧ (∀ (cfg : SafeRTOS.Config) mutex s mutex' s1,
     SafeRTOS.osCreateMutex mutex s = (TRUE, mutex', s1) →
     ∃ s2,
       SafeRTOS.osAcquireMutex mutex' s1 = Some s2 ∧
       SafeRTOS.osAcquireMutex mutex' s2 = None ∧
       SafeRTOS.osReleaseMutex mutex' s2 = s1)
  ∧ (∀ mutex mutex1 s other,
     Zephyr.osCreateMutex mutex = (TRUE, mutex1) →
     Zephyr.k_current other ≠ Zephyr.k_current s →
     ∃ mutex2,
       Zephyr.osAcquireMutex mutex1 s = Some mutex2 ∧
       Zephyr.osAcquireMutex mutex2 other = None ∧
       Zephyr.osReleaseMutex mutex2 s = mutex1 ∧
       is_Some (Zephyr.osAcquireMutex mutex1 other))
  ∧ (∀ mutex mutex1 s other,
     Px5.osCreateMutex mutex = (TRUE, mutex1) →
     Px5.k_current other ≠ Px5.k_current s →
     ∃ mutex2,
       Px5.osAcquireMutex mutex1 s = Some mutex2 ∧
       Px5.osAcquireMutex mutex2 other = None ∧
       Px5.osReleaseMutex mutex2 s = mutex1 ∧
       is_Some (Px5.osAcquireMutex mutex1 other)).
Proof.
  split; [|split; [|split]].
  - intros cfg s mutex s1 Hc%cmx_create_mutex_count.
    unfold CmxRtx.osAcquireMutex, CmxRtx.osReleaseMutex,
      CmxRtx.K_Semaphore_Wait at 1. rewrite Hc. simpl.
    eexists. split; [done|].
    unfold CmxRtx.K_Semaphore_Wait, CmxRtx.K_Semaphore_Post. simpl.
    rewrite lookup_insert_eq. simpl. split; [done|].
    rewrite insert_insert_eq, insert_id by done. by destruct s1.
  - intros cfg mutex s mutex' s1 Hc%safe_create_mutex_available.
    unfold SafeRTOS.osAcquireMutex, SafeRTOS.osReleaseMutex.
    rewrite (safe_take_available _ _ 0 1) by done. simpl.
    eexists. split; [done|].
    unfold SafeRTOS.xSemaphoreTake, SafeRTOS.xSemaphoreGive. simpl.
    rewrite lookup_insert_eq. simpl. split; [done|].
    rewrite insert_insert_eq, insert_id by done. by destruct s1.
  - intros mutex mutex1 s other [= <-] Hne.
    exists (Zephyr.KMutex (Some (Zephyr.k_current s)) 1).
    split; [done|].
    unfold Zephyr.osAcquireMutex, Zephyr.osReleaseMutex, Zephyr.k_mutex_lock,
      Zephyr.k_mutex_unlock, Zephyr.k_current_get. simpl.
    rewrite (bool_decide_eq_false_2 (1%nat = 0%nat ∨ _)) by (intros [|[=]]; done).
    rewrite (bool_decide_eq_false_2 (Some _ ≠ Some _)) by (intros H; by apply H).
    split; [done|]. split; [done|]. by eexists.
  - intros mutex mutex1 s other [= <-] Hne.
    exists (Px5.PMutex true (Some (Px5.k_current s))).
    split; [done|].
    unfold Px5.osAcquireMutex, Px5.osReleaseMutex, Px5.px5_pthread_mutex_lock,
      Px5.px5_pthread_mutex_unlock. simpl.
    rewrite (bool_decide_eq_false_2 (Px5.k_current s = Px5.k_current other))
      by (intros H; by apply Hne).
    rewrite bool_decide_eq_true_2 by done.
    split; [done|]. split; [done|]. by eexists.
Qed.

(** A mutex of each port, held by the main thread, wanted by thread 512. *)
Lemma X12_mutex_excludes_until_released_witness :
  (let '(_, mutex, s1) := @CmxRtx.osCreateMutex cmx_cfg cmx_init in
   ∃ s2,
     CmxRtx.osAcquireMutex mutex s1 = Some s2 ∧
     CmxRtx.osAcquireMutex mutex s2 = None ∧
     CmxRtx.osReleaseMutex mutex s2 = s1)
  ∧ (let '(_, mutex, s1) :=
       @SafeRTOS.osCreateMutex (safe_cfg true) safe_mutex safe_init in
     ∃ s2,
       SafeRTOS.osAcquireMutex mutex s1 = Some s2 ∧
       SafeRTOS.osAcquireMutex mutex s2 = None ∧
       SafeRTOS.osReleaseMutex mutex s2 = s1)
  ∧ (∃ mutex2,
       Zephyr.osAcquireMutex (Zephyr.osCreateMutex zephyr_mutex).2 zephyr_init
         = Some mutex2 ∧
       Zephyr.osAcquireMutex mutex2 (Zephyr.State [256; 512] 512 0 []) = None ∧
       Zephyr.osReleaseMutex mutex2 zephyr_init = (Zephyr.osCreateMutex zephyr_mutex).2 ∧
       is_Some (Zephyr.osAcquireMutex (Zephyr.osCreateMutex zephyr_mutex).2
                  (Zephyr.State [256; 512] 512 0 [])))
  ∧ (∃ mutex2,
       Px5.osAcquireMutex (Px5.osCreateMutex px5_mutex).2 px5_init = Some mutex2 ∧
       Px5.osAcquireMutex mutex2 (Px5.State [256; 512] 512 []) = None ∧
       Px5.osReleaseMutex mutex2 px5_init = (Px5.osCreateMutex px5_mutex).2 ∧
       is_Some (Px5.osAcquireMutex (Px5.osCreateMutex px5_mutex).2
                  (Px5.State [256; 512] 512 []))).
Proof.
  destruct X12_mutex_excludes_until_released as (Hc & Hs & Hz & Hp).
  split; [|split; [|split]].
  - apply (Hc cmx_cfg cmx_init). reflexivity.
  - apply (Hs (safe_cfg true) safe_mutex safe_init). reflexivity.
  - apply (Hz zephyr_mutex); [reflexivity | discriminate].
  - apply (Hp px5_mutex); [reflexivity | discriminate].
Defined.

(** X13 — Releasing a mutex nobody holds: on CMX-RTX, where the mutex is a
    counting semaphore, an [osReleaseMutex] on a free mutex adds a second unit
    and two [osAcquireMutex] calls then return without a release in between;
    on SafeRTOS, where it is a binary semaphore, the same release changes
    nothing and the mutex still excludes. *)
Theorem X13_release_of_a_free_mutex :
  (∀ (cfg : CmxRtx.Config) s mutex s1,
     CmxRtx.osCreateMutex s = (TRUE, mutex, s1) →
     ∃ s2 s3,
       CmxRtx.osAcquireMutex mutex (CmxRtx.osReleaseMutex mutex s1) = Some s2 ∧
       CmxRtx.osAcquireMutex mutex s2 = Some s3)
  ∧ (∀ (cfg : SafeRTOS.Config) mutex s mutex' s1,
     SafeRTOS.osCreateMutex mutex s = (TRUE, mutex', s1) →
     SafeRTOS.osReleaseMutex mutex' s1 = s1 ∧
     ∃ s2,
       SafeRTOS.osAcquireMutex mutex' (SafeRTOS.osReleaseMutex mutex' s1) = Some s2 ∧
       SafeRTOS.osAcquireMutex mutex' s2 = None).
Proof.
  split.
  - intros cfg s mutex s1 Hc%cmx_create_mutex_count.
    unfold CmxRtx.osReleaseMutex. rewrite (cmx_post_count _ 1) by done. simpl.
    rewrite (cmx_acquire_available _ 1) by apply lookup_insert_eq.
    eexists _, _. split; [done|].
    rewrite (cmx_acquire_available _ 0) by apply lookup_insert_eq. done.
  - intros cfg mutex s mutex' s1 Hc%safe_create_mutex_available.
    assert (SafeRTOS.osReleaseMutex mutex' s1 = s1) as ->.
    { unfold SafeRTOS.osReleaseMutex. by rewrite (safe_give_full _ 1 1). }
    split; [done|]. unfold SafeRTOS.osAcquireMutex.
    rewrite (safe_take_available _ _ 0 1) by done. simpl.
    eexists. split; [done|].
    unfold SafeRTOS.xSemaphoreTake. simpl. by rewrite lookup_insert_eq.
Qed.

(** A new mutex of the CMX-RTX and SafeRTOS ports, released at once. *)
Lemma X13_release_of_a_free_mutex_witness :
  (let '(_, mutex, s1) := @CmxRtx.osCreateMutex cmx_cfg cmx_init in
   ∃ s2 s3,
     CmxRtx.osAcquireMutex mutex (CmxRtx.osReleaseMutex mutex s1) = Some s2 ∧
     CmxRtx.osAcquireMutex mutex s2 = Some s3)
  ∧ (let '(_, mutex, s1) :=
       @SafeRTOS.osCreateMutex (safe_cfg false) safe_mutex safe_init in
     SafeRTOS.osReleaseMutex mutex s1 = s1 ∧
     ∃ s2,
       SafeRTOS.osAcquireMutex mutex (SafeRTOS.osReleaseMutex mutex s1) = Some s2 ∧
       SafeRTOS.osAcquireMutex mutex s2 = None).
Proof.
  destruct X13_release_of_a_free_mutex as (Hc & Hs).
  split.
  - apply (Hc cmx_cfg cmx_init). reflexivity.
  - apply (Hs (safe_cfg false) safe_mutex safe_init). reflexivity.
Defined.

(** ** Task creation and deletion *)

(** X14 — [osCreateTask] of the CMX-RTX port, over any kernel.  The entry
    point is [params->fp] when it is not NULL; the task is created on the
    caller's stack, from its last word, when [params->stack] is not NULL, and
    with a stack of [4 * stackSize] bytes otherwise.  A creation the kernel
    refuses gives [OS_INVALID_TASK_ID] without a start; a start the kernel
    refuses gives [OS_INVALID_TASK_ID] too, the task staying created; when
    both succeed the result is the slot as a byte.  An identifier other than
    [OS_INVALID_TASK_ID] therefore means a started task, and neither the name
    nor the argument reaches the kernel. *)
Theorem X14_cmx_create_task {K : Type} {kernel : CmxRtx.TaskKernel K}
    (name taskCode arg : Z) (params : CmxRtx.OsTaskParameters) (s : K) :
  let code :=
    if bool_decide (CmxRtx.fp params ≠ NULL) then CmxRtx.fp params else taskCode in
  let created :=
    if bool_decide (CmxRtx.stack params ≠ NULL)
    then CmxRtx.K_Task_Create_Stack (CmxRtx.priority params) code
           (uint32 (CmxRtx.stack params + 4 * CmxRtx.stackSize params - 4)) s
    else CmxRtx.K_Task_Create (CmxRtx.priority params) code
           (uint32 (CmxRtx.stackSize params * 4)) s in
  let started := CmxRtx.K_Task_Start (uint8 created.1.2) created.2 in
  (created.1.1 ≠ CmxRtx.K_OK →
     CmxRtx.osCreateTask name taskCode arg params s
       = (CmxRtx.OS_INVALID_TASK_ID, created.2))
  ∧ (created.1.1 = CmxRtx.K_OK → started.1 ≠ CmxRtx.K_OK →
     CmxRtx.osCreateTask name taskCode arg params s
       = (CmxRtx.OS_INVALID_TASK_ID, started.2))
  ∧ (created.1.1 = CmxRtx.K_OK → started.1 = CmxRtx.K_OK →
     CmxRtx.osCreateTask name taskCode arg params s
       = (uint8 created.1.2, started.2))
  ∧ ((CmxRtx.osCreateTask name taskCode arg params s).1 ≠ CmxRtx.OS_INVALID_TASK_ID →
     created.1.1 = CmxRtx.K_OK ∧ started.1 = CmxRtx.K_OK)
  ∧ (∀ name' arg',
     CmxRtx.osCreateTask name' taskCode arg' params s
       = CmxRtx.osCreateTask name taskCode arg params s).
Proof.
  intros code created started. unfold CmxRtx.osCreateTask.
  fold code. fold created.
  destruct created as [[status slot] s1] eqn:Hc. simpl in *.
  destruct (decide (status = CmxRtx.K_OK)) as [->|Hne].
  - rewrite bool_decide_eq_true_2 by done. fold started.
    destruct started as [status2 s2] eqn:Hs. simpl.
    destruct (decide (status2 = CmxRtx.K_OK)) as [->|Hne2].
    + rewrite bool_decide_eq_true_2 by done.
      split; [done|]. split; [done|]. split; [done|]. split; done.
    + rewrite bool_decide_eq_false_2 by done.
      split; [done|]. split; [done|]. split; [done|]. split; done.
  - rewrite !bool_decide_eq_false_2 by done.
    split; [done|]. split; [done|]. split; [done|]. split; done.
Qed.

(** With the default parameters on a table of two slots: the first task
    gets slot 1 and is started. *)
Lemma X14_cmx_create_task_witness :
  @CmxRtx.osCreateTask cmx_slots cmx_slots_kernel 100 200 300
    CmxRtx.OS_TASK_DEFAULT_PARAMS (CmxSlots 0 [])
  = (1, CmxSlots 1 [1]).
Proof.
  apply (@X14_cmx_create_task cmx_slots cmx_slots_kernel 100 200 300
           CmxRtx.OS_TASK_DEFAULT_PARAMS (CmxSlots 0 [])); reflexivity.
Defined.

(** X15 — [osCreateTask] of the PX5 port, over any thread kernel.  The
    status of the attribute calls only decides which later attribute calls
    are made; [px5_pthread_create] is called in every case, once, and its
    status alone decides the result: the new thread, or
    [OS_INVALID_TASK_ID].  When [pthread_attr_init] fails the thread is
    created from the attribute object as that call left it; when the stack
    size is refused, without the priority.  The name does not reach the
    kernel. *)
Theorem X15_px5_create_task {tcfg : Px5.TaskConfig} {A K : Type}
    {kernel : Px5.ThreadKernel A K}
    (name taskCode arg : Z) (params : Px5.OsTaskParameters) (threadAttr : A) (s : K) :
  let init := Px5.pthread_attr_init threadAttr in
  let addr :=
    if bool_decide (Px5.stack params ≠ NULL)
    then Px5.px5_pthread_attr_setstackaddr init.2 (Px5.stack params)
    else init in
  let size :=
    Px5.px5_pthread_attr_setstacksize addr.2 (uint32 (Px5.stackSize params * 4)) in
  let result (a : A) :=
    let '(ret, thread, s') := Px5.px5_pthread_create a taskCode arg s in
    if bool_decide (ret = Px5.PX5_SUCCESS)
    then (thread, s') else (Px5.OS_INVALID_TASK_ID, s') in
  (∃ a, Px5.osCreateTask name taskCode arg params threadAttr s = result a)
  ∧ (init.1 ≠ Px5.PX5_SUCCESS →
     Px5.osCreateTask name taskCode arg params threadAttr s = result init.2)
  ∧ (init.1 = Px5.PX5_SUCCESS → addr.1 ≠ Px5.PX5_SUCCESS →
     Px5.osCreateTask name taskCode arg params threadAttr s = result addr.2)
  ∧ (init.1 = Px5.PX5_SUCCESS → addr.1 = Px5.PX5_SUCCESS →
     size.1 ≠ Px5.PX5_SUCCESS →
     Px5.osCreateTask name taskCode arg params threadAttr s = result size.2)
  ∧ (init.1 = Px5.PX5_SUCCESS → addr.1 = Px5.PX5_SUCCESS →
     size.1 = Px5.PX5_SUCCESS →
     Px5.osCreateTask name taskCode arg params threadAttr s
       = result (Px5.px5_pthread_attr_setpriority size.2 (Px5.priority params)).2)
  ∧ (∀ name',
     Px5.osCreateTask name' taskCode arg params threadAttr s
       = Px5.osCreateTask name taskCode arg params threadAttr s).
Proof.
  intros init addr size result.
  assert (Hcases :
    (init.1 ≠ Px5.PX5_SUCCESS →
     Px5.osCreateTask name taskCode arg params threadAttr s = result init.2)
    ∧ (init.1 = Px5.PX5_SUCCESS → addr.1 ≠ Px5.PX5_SUCCESS →
       Px5.osCreateTask name taskCode arg params threadAttr s = result addr.2)
    ∧ (init.1 = Px5.PX5_SUCCESS → addr.1 = Px5.PX5_SUCCESS →
       size.1 ≠ Px5.PX5_SUCCESS →
       Px5.osCreateTask name taskCode arg params threadAttr s = result size.2)
    ∧ (init.1 = Px5.PX5_SUCCESS → addr.1 = Px5.PX5_SUCCESS →
       size.1 = Px5.PX5_SUCCESS →
       Px5.osCreateTask name taskCode arg params threadAttr s
         = result (Px5.px5_pthread_attr_setpriority size.2 (Px5.priority params)).2)).
  { unfold Px5.osCreateTask. subst size addr. fold init.
    destruct init as [r0 a0]. cbn [fst snd].
    destruct (decide (r0 = Px5.PX5_SUCCESS)) as [->|Hr0].
    - rewrite (bool_decide_eq_true_2 (Px5.PX5_SUCCESS = Px5.PX5_SUCCESS)) by done.
      set (addr := if bool_decide (Px5.stack params ≠ NULL)
                   then Px5.px5_pthread_attr_setstackaddr a0 (Px5.stack params)
                   else (Px5.PX5_SUCCESS, a0)).
      destruct addr as [r1 a1]. cbn [fst snd].
      destruct (decide (r1 = Px5.PX5_SUCCESS)) as [->|Hr1].
      + rewrite (bool_decide_eq_true_2 (Px5.PX5_SUCCESS = Px5.PX5_SUCCESS)) by done.
        destruct (Px5.px5_pthread_attr_setstacksize a1 _) as [r2 a2]. cbn [fst snd].
        destruct (decide (r2 = Px5.PX5_SUCCESS)) as [->|Hr2].
        * rewrite (bool_decide_eq_true_2 (Px5.PX5_SUCCESS = Px5.PX5_SUCCESS)) by done.
          destruct (Px5.px5_pthread_attr_setpriority a2 _) as [r3 a3]. cbn [fst snd].
          repeat split; intros; first [done | reflexivity].
        * rewrite !(bool_decide_eq_false_2 (r2 = Px5.PX5_SUCCESS)) by done.
          repeat split; intros; first [done | reflexivity].
      + rewrite !(bool_decide_eq_false_2 (r1 = Px5.PX5_SUCCESS)) by done.
        repeat split; intros; first [done | reflexivity].
    - rewrite !(bool_decide_eq_false_2 (r0 = Px5.PX5_SUCCESS)) by done.
      repeat split; intros; first [done | reflexivity]. }
  destruct Hcases as (H0 & H1 & H2 & H3).
  split; [|split; [done|split; [done|split; [done|split; [done|]]]]].
  - destruct (decide (init.1 = Px5.PX5_SUCCESS)) as [E0|E0]; [|eauto].
    destruct (decide (addr.1 = Px5.PX5_SUCCESS)) as [E1|E1]; [|eauto].
    destruct (decide (size.1 = Px5.PX5_SUCCESS)) as [E2|E2]; eauto.
  - intros name'. reflexivity.
Qed.

(** A stack of 8 words is refused by the sample kernel: the thread is
    created all the same, with the default stack size and without the
    priority 5 that was asked for. *)
Lemma X15_px5_create_task_witness :
  @Px5.osCreateTask px5_task_cfg px5_attr (list px5_attr) px5_threads_kernel
    100 200 300 {| Px5.stack := NULL; Px5.stackSize := 8; Px5.priority := 5 |}
    (Px5Attr 0 0 0) []
  = (1, [Px5Attr NULL 1024 0]).
Proof.
  pose proof (@X15_px5_create_task px5_task_cfg px5_attr (list px5_attr)
                px5_threads_kernel 100 200 300
                {| Px5.stack := NULL; Px5.stackSize := 8; Px5.priority := 5 |}
                (Px5Attr 0 0 0) []) as H.
  cbv zeta in H. destruct H as (_ & _ & _ & H & _).
  rewrite H; [reflexivity|reflexivity|reflexivity|vm_compute; lia].
Defined.

Section TaskFacts.

Lemma filter_other_fresh (x : Z) (l : list Z) :
  x ∉ l → filter (λ h, h ≠ x) (l ++ [x]) = l.
Proof.
  induction l as [|y l IH]; intros Hx.
  - simpl. rewrite filter_cons_False by (intros H; by apply H). done.
  - apply not_elem_of_cons in Hx as [Hxy Hx]. simpl.
    rewrite filter_cons_True by done. by rewrite IH.
Qed.

Lemma safe_create_task_accepted name taskCode arg params s :
  SafeRTOS.tcb params ≠ NULL → SafeRTOS.stack params ≠ NULL →
  taskCode ≠ NULL → 0 < SafeRTOS.stackSize params →
  SafeRTOS.tcb params ∉ SafeRTOS.k_tasks s →
  SafeRTOS.osCreateTask name taskCode arg params s
    = (SafeRTOS.tcb params,
       SafeRTOS.set_tasks (SafeRTOS.k_tasks s ++ [SafeRTOS.tcb params])
         (SafeRTOS.request
            (SafeRTOS.call_xTaskCreate
               {| SafeRTOS.pvTaskCode := taskCode;
                  SafeRTOS.pcTaskName := name;
                  SafeRTOS.pxTCB := SafeRTOS.tcb params;
                  SafeRTOS.pcStackBuffer := SafeRTOS.stack params;
                  SafeRTOS.ulStackDepthBytes := SafeRTOS.stackSize params;
                  SafeRTOS.pvParameters := arg;
                  SafeRTOS.uxPriority := SafeRTOS.priority params;
                  SafeRTOS.xUsingFPU := true;
                  SafeRTOS.uxPrivilegeLevel := SafeRTOS.mpuPRIVILEGED_TASK |}) s)).
Proof.
  intros Htcb Hstack Hcode Hsize Hfresh. unfold SafeRTOS.osCreateTask.
  rewrite !bool_decide_eq_true_2 by done. simpl.
  unfold SafeRTOS.xTaskCreate. simpl.
  rewrite (bool_decide_eq_false_2 (taskCode = NULL)) by done.
  rewrite (bool_decide_eq_false_2 (_ ∨ _)) by (intros [?|?]; done).
  rewrite (bool_decide_eq_false_2 (_ ≤ 0)) by lia.
  rewrite (bool_decide_eq_false_2 (_ ∈ _)) by done.
  by rewrite bool_decide_eq_false_2 by (intros H; by apply H).
Qed.

Lemma zephyr_create_task_accepted {cfg : Zephyr.Config} name taskCode arg params s :
  Zephyr.tcb params ≠ NULL → Zephyr.stack params ≠ NULL →
  Zephyr.tcb params ≠ Zephyr.OS_INVALID_TASK_ID →
  Zephyr.osCreateTask name taskCode arg params s
    = (Zephyr.tcb params,
       Zephyr.request (Zephyr.call_k_thread_name_set (Zephyr.tcb params) name)
         (Zephyr.set_threads (Zephyr.k_threads s ++ [Zephyr.tcb params])
            (Zephyr.request
               (Zephyr.call_k_thread_create (Zephyr.tcb params) (Zephyr.stack params)
                  (Zephyr.stackSize params) taskCode arg (Zephyr.priority params)) s))).
Proof.
  intros Htcb Hstack Hvalid. unfold Zephyr.osCreateTask.
  rewrite !bool_decide_eq_true_2 by done. simpl.
  by rewrite bool_decide_eq_true_2 by done.
Qed.

End TaskFacts.

(** X16 — creating a task and deleting it again, on SafeRTOS and Zephyr.
    With a control block and a stack supplied, a control block that names no
    existing task and, on SafeRTOS, an entry point and a positive stack size,
    [osCreateTask] returns the address of the control block and the kernel
    lists the task; [osDeleteTask] on that identifier leaves the list of tasks
    as it was before the creation.  The kernel has received the stack size as
    given, not multiplied by the size of a word, and on Zephyr the name in a
    separate request after the creation. *)
Theorem X16_create_then_delete_task :
  (∀ name taskCode arg params s,
     SafeRTOS.tcb params ≠ NULL → SafeRTOS.stack params ≠ NULL →
     taskCode ≠ NULL → 0 < SafeRTOS.stackSize params →
     SafeRTOS.tcb params ∉ SafeRTOS.k_tasks s →
     let created := SafeRTOS.osCreateTask name taskCode arg params s in
     let deleted := SafeRTOS.osDeleteTask created.1 created.2 in
     created.1 = SafeRTOS.tcb params
     ∧ created.1 ≠ SafeRTOS.OS_INVALID_TASK_ID
     ∧ SafeRTOS.k_tasks created.2 = SafeRTOS.k_tasks s ++ [SafeRTOS.tcb params]
     ∧ SafeRTOS.k_tasks deleted = SafeRTOS.k_tasks s
     ∧ SafeRTOS.k_calls deleted
         = SafeRTOS.k_calls s
           ++ [SafeRTOS.call_xTaskCreate
                 {| SafeRTOS.pvTaskCode := taskCode;
                    SafeRTOS.pcTaskName := name;
                    SafeRTOS.pxTCB := SafeRTOS.tcb params;
                    SafeRTOS.pcStackBuffer := SafeRTOS.stack params;
                    SafeRTOS.ulStackDepthBytes := SafeRTOS.stackSize params;
                    SafeRTOS.pvParameters := arg;
                    SafeRTOS.uxPriority := SafeRTOS.priority params;
                    SafeRTOS.xUsingFPU := true;
                    SafeRTOS.uxPrivilegeLevel := SafeRTOS.mpuPRIVILEGED_TASK |};
               SafeRTOS.call_xTaskDelete (SafeRTOS.tcb params)])
  ∧ (∀ (cfg : Zephyr.Config) name taskCode arg params s,
     Zephyr.tcb params ≠ NULL → Zephyr.stack params ≠ NULL →
     Zephyr.tcb params ≠ Zephyr.OS_INVALID_TASK_ID →
     Zephyr.tcb params ≠ Zephyr.OS_SELF_TASK_ID →
     Zephyr.tcb params ∉ Zephyr.k_threads s →
     let created := Zephyr.osCreateTask name taskCode arg params s in
     let deleted := Zephyr.osDeleteTask created.1 created.2 in
     created.1 = Zephyr.tcb params
     ∧ Zephyr.k_threads created.2 = Zephyr.k_threads s ++ [Zephyr.tcb params]
     ∧ Zephyr.k_threads deleted = Zephyr.k_threads s
     ∧ Zephyr.k_calls deleted
         = Zephyr.k_calls s
           ++ [Zephyr.call_k_thread_create (Zephyr.tcb params) (Zephyr.stack params)
                 (Zephyr.stackSize params) taskCode arg (Zephyr.priority params);
               Zephyr.call_k_thread_name_set (Zephyr.tcb params) name;
               Zephyr.call_k_thread_abort (Zephyr.tcb params)]).
Proof.
  split.
  - intros name taskCode arg params s Htcb Hstack Hcode Hsize Hfresh created deleted.
    subst deleted created.
    rewrite safe_create_task_accepted by done. simpl.
    unfold SafeRTOS.osDeleteTask, SafeRTOS.xTaskDelete. simpl.
    rewrite bool_decide_eq_false_2 by done.
    rewrite filter_other_fresh by done. rewrite <- (assoc_L (++)).
    unfold SafeRTOS.OS_INVALID_TASK_ID. done.
  - intros cfg name taskCode arg params s Htcb Hstack Hvalid Hself Hfresh created deleted.
    subst deleted created.
    rewrite zephyr_create_task_accepted by done. simpl.
    unfold Zephyr.osDeleteTask, Zephyr.k_thread_abort. simpl.
    rewrite bool_decide_eq_false_2 by done.
    rewrite filter_other_fresh by done. rewrite <- !(assoc_L (++)).
    done.
Qed.

(** A task at address 512 with a stack at 1024, created and deleted before
    the scheduler starts. *)
Lemma X16_create_then_delete_task_witness :
  SafeRTOS.k_tasks
    (SafeRTOS.osDeleteTask
       (SafeRTOS.osCreateTask 100 200 300
          (SafeRTOS.OsTaskParams 512 1024 2048 1) safe_init).1
       (SafeRTOS.osCreateTask 100 200 300
          (SafeRTOS.OsTaskParams 512 1024 2048 1) safe_init).2)
    = SafeRTOS.k_tasks safe_init
  ∧ Zephyr.k_threads
      (@Zephyr.osDeleteTask zephyr_cfg
         (@Zephyr.osCreateTask zephyr_cfg 100 200 300
            (Zephyr.OsTaskParams 512 1024 2048 1) zephyr_init).1
         (@Zephyr.osCreateTask zephyr_cfg 100 200 300
            (Zephyr.OsTaskParams 512 1024 2048 1) zephyr_init).2)
    = Zephyr.k_threads zephyr_init.
Proof.
  destruct X16_create_then_delete_task as [Hsafe Hzephyr]. split.
  - pose proof (Hsafe 100 200 300 (SafeRTOS.OsTaskParams 512 1024 2048 1) safe_init)
      as H.
    cbv zeta in H.
    apply (λ a b c d e, proj1 (proj2 (proj2 (proj2 (H a b c d e)))));
      vm_compute; try congruence.
    intros Hin. inversion Hin.
  - pose proof (Hzephyr zephyr_cfg 100 200 300 (Zephyr.OsTaskParams 512 1024 2048 1)
                  zephyr_init) as H.
    cbv zeta in H.
    apply (λ a b c d e, proj1 (proj2 (proj2 (H a b c d e))));
      vm_compute; try congruence.
    intros Hin. inversion Hin as [|? ? ? Hin']; inversion Hin'.
Defined.

(** X17 — the identifier of a failed creation is the identifier of the
    calling task.  On SafeRTOS [OS_INVALID_TASK_ID] and [OS_SELF_TASK_ID] are
    both NULL, and on CMX-RTX both 0: [osDeleteTask] on what [osCreateTask]
    returned for a creation that failed removes the calling task on SafeRTOS,
    where the kernel has received no creation request, and ends the calling
    task on CMX-RTX. *)
Theorem X17_delete_of_failed_creation :
  (∀ name taskCode arg params s,
     SafeRTOS.tcb params = NULL ∨ SafeRTOS.stack params = NULL →
     let created := SafeRTOS.osCreateTask name taskCode arg params s in
     let deleted := SafeRTOS.osDeleteTask created.1 created.2 in
     created.1 = SafeRTOS.OS_SELF_TASK_ID
     ∧ SafeRTOS.k_tasks deleted
         = filter (λ h, h ≠ SafeRTOS.k_current s) (SafeRTOS.k_tasks s)
     ∧ SafeRTOS.k_calls deleted
         = SafeRTOS.k_calls s ++ [SafeRTOS.call_xTaskDelete NULL])
  ∧ (∀ (K : Type) (kernel : CmxRtx.TaskKernel K) N ticks
       name taskCode arg params (k : K) (s : CmxRtx.state),
     (CmxRtx.osCreateTask name taskCode arg params k).1 = CmxRtx.OS_INVALID_TASK_ID →
     @CmxRtx.osDeleteTask (cmx_header N ticks)
       (CmxRtx.osCreateTask name taskCode arg params k).1 s
       = CmxRtx.K_Task_End s).
Proof.
  split.
  - intros name taskCode arg params s Hmissing created deleted.
    subst deleted created. rewrite safe_create_task_rejected by done. simpl.
    unfold SafeRTOS.osDeleteTask, SafeRTOS.xTaskDelete. simpl.
    done.
  - intros K kernel N ticks name taskCode arg params k s ->.
    reflexivity.
Qed.

(** Before the scheduler starts, with the default parameters on SafeRTOS;
    on CMX-RTX with a task table that is full. *)
Lemma X17_delete_of_failed_creation_witness :
  SafeRTOS.k_calls
    (SafeRTOS.osDeleteTask
       (SafeRTOS.osCreateTask 100 200 300 SafeRTOS.OS_TASK_DEFAULT_PARAMS safe_init).1
       (SafeRTOS.osCreateTask 100 200 300 SafeRTOS.OS_TASK_DEFAULT_PARAMS safe_init).2)
    = SafeRTOS.k_calls safe_init ++ [SafeRTOS.call_xTaskDelete NULL]
  ∧ @CmxRtx.osDeleteTask (cmx_header 64 (λ n, n))
      (@CmxRtx.osCreateTask cmx_slots cmx_slots_kernel 100 200 300
         CmxRtx.OS_TASK_DEFAULT_PARAMS (CmxSlots 2 [1; 2])).1 cmx_three
    = CmxRtx.K_Task_End cmx_three.
Proof.
  destruct X17_delete_of_failed_creation as (Hsafe & Hcmx). split.
  - pose proof (Hsafe 100 200 300 SafeRTOS.OS_TASK_DEFAULT_PARAMS safe_init) as H.
    cbv zeta in H. apply (λ a, proj2 (proj2 (H a))). left. reflexivity.
  - apply (Hcmx cmx_slots cmx_slots_kernel 64%nat (λ n, n) 100 200 300
             CmxRtx.OS_TASK_DEFAULT_PARAMS (CmxSlots 2 [1; 2]) cmx_three).
    reflexivity.
Defined.

(** ** Memory management *)

(** X18 — [osAllocMem] enters the allocator with the scheduler locked on
    CMX-RTX and Zephyr: the allocator is called in the state
    [osSuspendAllTasks] leaves, after the lock request and before the unlock
    request, and the result and the heap are what it returns there, NULL
    included.  Afterwards the CMX-RTX kernel has received one lock and one
    unlock and no semaphore has changed; on Zephyr the lock depth was one
    more at the entry and is back to what it was.  On PX5, whose
    [osSuspendAllTasks] is empty, the allocator is entered with the kernel as
    the caller left it, and the callback does the same for every [type].  On
    SafeRTOS every allocation returns NULL. *)
Theorem X18_alloc_mem (size : Z) :
  (∀ (H : Type) (heap : Heap CmxRtx.state H) (h : H) s,
     let locked := CmxRtx.osSuspendAllTasks s in
     let r := CmxRtx.osAllocMem size (s, h) in
     r.1 = (malloc size locked h).1 ∧ r.2.2 = (malloc size locked h).2
     ∧ r.2.1 = CmxRtx.osResumeAllTasks locked
     ∧ CmxRtx.k_calls locked = CmxRtx.k_calls s ++ [CmxRtx.call_K_Task_Lock]
     ∧ CmxRtx.k_calls r.2.1
         = CmxRtx.k_calls s ++ [CmxRtx.call_K_Task_Lock; CmxRtx.call_K_Task_Unlock]
     ∧ CmxRtx.semaphoreTable r.2.1 = CmxRtx.semaphoreTable s
     ∧ CmxRtx.k_sems r.2.1 = CmxRtx.k_sems s)
  ∧ (∀ (H : Type) (heap : Heap Zephyr.state H) (h : H) s,
     let locked := Zephyr.osSuspendAllTasks s in
     let r := Zephyr.osAllocMem size (s, h) in
     r.1 = (malloc size locked h).1 ∧ r.2.2 = (malloc size locked h).2
     ∧ r.2.1 = Zephyr.osResumeAllTasks locked
     ∧ Zephyr.k_sched_locked locked = S (Zephyr.k_sched_locked s)
     ∧ Zephyr.k_calls locked = Zephyr.k_calls s ++ [Zephyr.call_k_sched_lock]
     ∧ Zephyr.k_calls r.2.1
         = Zephyr.k_calls s ++ [Zephyr.call_k_sched_lock; Zephyr.call_k_sched_unlock]
     ∧ Zephyr.k_sched_locked r.2.1 = Zephyr.k_sched_locked s
     ∧ Zephyr.k_threads r.2.1 = Zephyr.k_threads s)
  ∧ (∀ (H : Type) (heap : Heap Px5.state H) (h : H) s type,
     Px5.osAllocMem size (s, h) = ((malloc size s h).1, (s, (malloc size s h).2))
     ∧ Px5.osAllocMemCallback type size (s, h) = Px5.osAllocMem size (s, h))
  ∧ SafeRTOS.osAllocMem size = NULL.
Proof.
  split; [|split; [|split]].
  - intros H heap h s locked r. subst r locked. unfold CmxRtx.osAllocMem.
    cbn [fst snd].
    destruct (malloc size (CmxRtx.osSuspendAllTasks s) h) as [p h'].
    simpl. by rewrite <- (assoc_L (++)).
  - intros H heap h s locked r. subst r locked.
    unfold Zephyr.osAllocMem, Zephyr.k_malloc. cbn [fst snd].
    destruct (malloc size (Zephyr.osSuspendAllTasks s) h) as [p h'].
    simpl. by rewrite <- (assoc_L (++)).
  - intros H heap h s type. unfold Px5.osAllocMemCallback, Px5.osAllocMem.
    cbn [fst snd]. unfold Px5.osSuspendAllTasks, Px5.osResumeAllTasks.
    by destruct (malloc size s h) as [p h'].
  - reflexivity.
Qed.

(** X19 — [osFreeMem] on a NULL pointer does nothing on any port: [free]
    is not entered and the scheduler is not locked, so freeing the result of
    an allocation that failed changes nothing.  On another pointer, CMX-RTX
    and Zephyr enter [free] with the scheduler locked, in the state
    [osSuspendAllTasks] leaves, after the lock request and before the unlock
    request; PX5 enters it with the kernel as the caller left it.  Freeing a
    block that [osAllocMem] returned gives, on CMX-RTX and Zephyr, two lock
    and unlock pairs in a row.  On SafeRTOS [osFreeMem] does nothing for any
    pointer. *)
Theorem X19_free_mem (p size : Z) :
  (∀ (H : Type) (heap : Heap CmxRtx.state H) (h : H) s,
     CmxRtx.osFreeMem NULL (s, h) = (s, h)
     ∧ (p ≠ NULL →
        let locked := CmxRtx.osSuspendAllTasks s in
        let r := CmxRtx.osFreeMem p (s, h) in
        r.2 = free p locked h
        ∧ r.1 = CmxRtx.osResumeAllTasks locked
        ∧ CmxRtx.k_calls locked = CmxRtx.k_calls s ++ [CmxRtx.call_K_Task_Lock]
        ∧ CmxRtx.k_calls r.1
            = CmxRtx.k_calls s ++ [CmxRtx.call_K_Task_Lock; CmxRtx.call_K_Task_Unlock])
     ∧ ((CmxRtx.osAllocMem size (s, h)).1 = NULL →
        CmxRtx.osFreeMem (CmxRtx.osAllocMem size (s, h)).1
          (CmxRtx.osAllocMem size (s, h)).2
        = (CmxRtx.osAllocMem size (s, h)).2)
     ∧ ((CmxRtx.osAllocMem size (s, h)).1 ≠ NULL →
        CmxRtx.k_calls
          (CmxRtx.osFreeMem (CmxRtx.osAllocMem size (s, h)).1
             (CmxRtx.osAllocMem size (s, h)).2).1
        = CmxRtx.k_calls s
          ++ [CmxRtx.call_K_Task_Lock; CmxRtx.call_K_Task_Unlock;
              CmxRtx.call_K_Task_Lock; CmxRtx.call_K_Task_Unlock]))
  ∧ (∀ (H : Type) (heap : Heap Zephyr.state H) (h : H) s,
     Zephyr.osFreeMem NULL (s, h) = (s, h)
     ∧ (p ≠ NULL →
        let locked := Zephyr.osSuspendAllTasks s in
        let r := Zephyr.osFreeMem p (s, h) in
        r.2 = free p locked h
        ∧ r.1 = Zephyr.osResumeAllTasks locked
        ∧ Zephyr.k_sched_locked locked = S (Zephyr.k_sched_locked s)
        ∧ Zephyr.k_calls r.1
            = Zephyr.k_calls s ++ [Zephyr.call_k_sched_lock; Zephyr.call_k_sched_unlock]
        ∧ Zephyr.k_sched_locked r.1 = Zephyr.k_sched_locked s)
     ∧ ((Zephyr.osAllocMem size (s, h)).1 = NULL →
        Zephyr.osFreeMem (Zephyr.osAllocMem size (s, h)).1
          (Zephyr.osAllocMem size (s, h)).2
        = (Zephyr.osAllocMem size (s, h)).2)
     ∧ ((Zephyr.osAllocMem size (s, h)).1 ≠ NULL →
        let r :=
          Zephyr.osFreeMem (Zephyr.osAllocMem size (s, h)).1
            (Zephyr.osAllocMem size (s, h)).2 in
        Zephyr.k_calls r.1
          = Zephyr.k_calls s
            ++ [Zephyr.call_k_sched_lock; Zephyr.call_k_sched_unlock;
                Zephyr.call_k_sched_lock; Zephyr.call_k_sched_unlock]
        ∧ Zephyr.k_sched_locked r.1 = Zephyr.k_sched_locked s))
  ∧ (∀ (H : Type) (heap : Heap Px5.state H) (h : H) s type,
     Px5.osFreeMem NULL (s, h) = (s, h)
     ∧ (p ≠ NULL → Px5.osFreeMem p (s, h) = (s, free p s h))
     ∧ Px5.osFreeMemCallback type p (s, h) = Px5.osFreeMem p (s, h)
     ∧ ((Px5.osAllocMem size (s, h)).1 = NULL →
        Px5.osFreeMem (Px5.osAllocMem size (s, h)).1 (Px5.osAllocMem size (s, h)).2
        = (Px5.osAllocMem size (s, h)).2))
  ∧ (∀ (M : Type) (m : M), SafeRTOS.osFreeMem p m = m).
Proof.
  split; [|split; [|split]].
  - intros H heap h s. split; [reflexivity|]. split; [|split].
    + intros Hp locked r. subst r locked. unfold CmxRtx.osFreeMem.
      rewrite bool_decide_eq_true_2 by done. simpl.
      by rewrite <- (assoc_L (++)).
    + intros ->. reflexivity.
    + intros Hp. unfold CmxRtx.osFreeMem.
      rewrite bool_decide_eq_true_2 by done.
      unfold CmxRtx.osAllocMem. cbn [fst snd].
      destruct (malloc size (CmxRtx.osSuspendAllTasks s) h) as [q h'].
      simpl. by rewrite <- !(assoc_L (++)).
  - intros H heap h s. split; [reflexivity|]. split; [|split].
    + intros Hp locked r. subst r locked. unfold Zephyr.osFreeMem, Zephyr.k_free.
      rewrite bool_decide_eq_true_2 by done. simpl.
      by rewrite <- (assoc_L (++)).
    + intros ->. reflexivity.
    + intros Hp r. subst r. unfold Zephyr.osFreeMem.
      rewrite bool_decide_eq_true_2 by done.
      unfold Zephyr.osAllocMem, Zephyr.k_malloc. cbn [fst snd].
      destruct (malloc size (Zephyr.osSuspendAllTasks s) h) as [q h'].
      simpl. by rewrite <- !(assoc_L (++)).
  - intros H heap h s type. split; [reflexivity|]. split; [|split].
    + intros Hp. unfold Px5.osFreeMem. by rewrite bool_decide_eq_true_2 by done.
    + reflexivity.
    + intros ->. reflexivity.
  - reflexivity.
Qed.

(** On Zephyr, over a heap that notes the lock depth at each entry: a block
    of 8 bytes is allocated and freed, and both entries were made at depth 1;
    a block of 64 bytes is refused on CMX-RTX, and freeing the NULL that
    comes back changes nothing. *)
Lemma X19_free_mem_witness :
  (let r :=
     @Zephyr.osFreeMem arena (arena_heap Zephyr.k_sched_locked)
       (@Zephyr.osAllocMem arena (arena_heap Zephyr.k_sched_locked) 8
          (zephyr_init, Arena 4096 4112 [])).1
       (@Zephyr.osAllocMem arena (arena_heap Zephyr.k_sched_locked) 8
          (zephyr_init, Arena 4096 4112 [])).2 in
   Zephyr.k_calls r.1
     = Zephyr.k_calls zephyr_init
       ++ [Zephyr.call_k_sched_lock; Zephyr.call_k_sched_unlock;
           Zephyr.call_k_sched_lock; Zephyr.call_k_sched_unlock]
   ∧ Zephyr.k_sched_locked r.1 = Zephyr.k_sched_locked zephyr_init)
  ∧ (@Zephyr.osFreeMem arena (arena_heap Zephyr.k_sched_locked) 4096
       (zephyr_init, Arena 4104 4112 [1%nat])).2
    = Arena 4104 4112 [1%nat; 1%nat]
  ∧ @CmxRtx.osFreeMem arena (arena_heap (λ s, length (CmxRtx.k_calls s)))
      (@CmxRtx.osAllocMem arena (arena_heap (λ s, length (CmxRtx.k_calls s))) 64
         (cmx_three, Arena 4096 4112 [])).1
      (@CmxRtx.osAllocMem arena (arena_heap (λ s, length (CmxRtx.k_calls s))) 64
         (cmx_three, Arena 4096 4112 [])).2
    = (@CmxRtx.osAllocMem arena (arena_heap (λ s, length (CmxRtx.k_calls s))) 64
         (cmx_three, Arena 4096 4112 [])).2.
Proof.
  split; [|split].
  - destruct (X19_free_mem 4096 8) as (_ & Hzephyr & _).
    destruct (Hzephyr arena (arena_heap Zephyr.k_sched_locked)
                (Arena 4096 4112 []) zephyr_init) as (_ & _ & _ & Hboth).
    apply Hboth. vm_compute. congruence.
  - destruct (X19_free_mem 4096 8) as (_ & Hzephyr & _).
    destruct (Hzephyr arena (arena_heap Zephyr.k_sched_locked)
                (Arena 4104 4112 [1%nat]) zephyr_init) as (_ & Hfree & _).
    cbv zeta in Hfree.
    rewrite (proj1 (Hfree ltac:(vm_compute; congruence))). reflexivity.
  - destruct (X19_free_mem 4096 64) as (Hcmx & _).
    destruct (Hcmx arena (arena_heap (λ s, length (CmxRtx.k_calls s)))
                (Arena 4096 4112 []) cmx_three) as (_ & _ & Hnull & _).
    apply Hnull. reflexivity.
Defined.
